(** * paddle.base.compiler: CompiledProgram, IpuStrategy, IpuCompiledProgram
    and the IPU program-cache patch, embedded as state-passing functions.

    Python objects are records, attribute updates are record updates, the
    native [core] bindings and the dy2static helpers the file imports are
    interfaces (type classes), and a raised exception is a result that
    still carries the state reached at the point of the [raise]. *)

From Stdlib Require Import ZArith String Ascii List Sorted Permutation OrdersEx.
From stdpp Require Import base option list gmap sets strings sorting.

Set Warnings "-register-all".
Open Scope Z_scope.
Open Scope string_scope.

(** ** Exceptions and the state-and-exception monad *)

Inductive PyExc : Type :=
  | TypeError (msg : string)
  | ValueError (msg : string)
  | RuntimeError (msg : string)
  | AssertionError (msg : string)
  | AttributeError (msg : string)
  | IndexError (msg : string)
  | KeyError (key : string)
  | NativeError (msg : string).

Inductive outcome (A : Type) : Type :=
  | Returns (a : A)
  | Raises (e : PyExc).
Arguments Returns {A} a.
Arguments Raises {A} e.

(** A Python method over a heap fragment [S]: the state after the call is
    there whether the call returned or raised. *)
Definition Py (S A : Type) : Type := S → outcome A * S.

Definition ret {S A} (a : A) : Py S A := λ s, (Returns a, s).
Definition raise {S A} (e : PyExc) : Py S A := λ s, (Raises e, s).
Definition bind {S A B} (m : Py S A) (k : A → Py S B) : Py S B :=
  λ s, match m s with
       | (Returns a, s') => k a s'
       | (Raises e, s') => (Raises e, s')
       end.
Definition get {S} : Py S S := λ s, (Returns s, s).
Definition gets {S A} (f : S → A) : Py S A := λ s, (Returns (f s), s).
Definition modify {S} (f : S → S) : Py S unit := λ s, (Returns tt, f s).
(** A native call that may throw and does not touch the Python state. *)
Definition lift {S A} (o : outcome A) : Py S A := λ s, (o, s).
Definition assert {S} (b : bool) (msg : string) : Py S unit :=
  if b then ret tt else raise (AssertionError msg).

Declare Scope py_scope.
Delimit Scope py_scope with py.
Notation "'let!' x ':=' m 'in' k" := (bind m (λ x, k))
  (at level 10, x name, m at level 100, k at level 200) : py_scope.
Notation "m ;;; k" := (bind m (λ _, k))
  (at level 100, right associativity) : py_scope.
Open Scope py_scope.

(** [for x in xs: body x] *)
Fixpoint for_each {S A} (xs : list A) (body : A → Py S unit) : Py S unit :=
  match xs with
  | [] => ret tt
  | x :: xs => body x ;;; for_each xs body
  end.

(** The line feed that ends a line written to a stream. *)
Definition newline : string := String "010"%char "".

(** What the code writes or asks of its collaborators, in order. *)
Inductive Event : Type :=
  | StderrWrite (text : string)
  (* [core.CompiledProgram(...)] and [core.create_paddle_predictor(...)] *)
  | NativeCompiledProgram
  | NativePredictor
  (* [self._build_once(item)] *)
  | BuildOnce (item_id : Z)
  (* "ipu_strategy chances detected. Please sync weights." *)
  | WarnStrategyChanged
  (* "dynamic2static on IPU doesn't support multiple caches. ..." *)
  | WarnMultipleCaches
  (* "Current traced program number: {count} > `max_tracing_count`:{max}. ..." *)
  | WarnTooManyTraced (count max : nat).

(** How many times [_build_once] was called. *)
Fixpoint builds (es : list Event) : nat :=
  match es with
  | [] => 0
  | BuildOnce _ :: es => S (builds es)
  | _ :: es => builds es
  end.

(** ** Programs, blocks, graphs *)

Record Operator : Type := mkOperator {
  op_type : string;
  op_is_target : bool
}.

Record Variable_ : Type := mkVariable {
  need_check_feed : bool;
  (* [getattr(var, '_is_distributed', False)]: the attribute may be absent *)
  _is_distributed : option bool;
  is_distributed : option bool
}.

Record Block : Type := mkBlock {
  ops : list Operator;
  vars : gmap string Variable_
}.

Record LRScheduler : Type := mkLRScheduler {
  _var_name : string;
  lr_var : option Variable_
}.

Inductive Program : Type := mkProgram {
  global_block : Block;
  _trainers_endpoints : list string;
  _nccl_comm_num : Z;
  _use_hierarchical_allreduce : bool;
  _hierarchical_allreduce_inter_nranks : Z;
  _enable_dgc : bool;
  lr_scheduler : option LRScheduler;
  org_program : option Program
}.

Definition with_global_block (b : Block) (p : Program) : Program :=
  mkProgram b (_trainers_endpoints p) (_nccl_comm_num p)
    (_use_hierarchical_allreduce p) (_hierarchical_allreduce_inter_nranks p)
    (_enable_dgc p) (lr_scheduler p) (org_program p).

Inductive VarType : Type :=
  | LOD_TENSOR | SELECTED_ROWS | FEED_MINIBATCH | FETCH_LIST | STEP_SCOPES
  | LOD_RANK_TABLE | LOD_TENSOR_ARRAY | PLACE_LIST | READER | RAW | TUPLE.

Global Instance VarType_eq_dec : EqDecision VarType.
Proof. solve_decision. Defined.

Record VarDesc : Type := mkVarDesc {
  persistable : bool;
  type : VarType
}.

Record Node : Type := mkNode {
  name : string;
  is_var : bool;
  var : option VarDesc
}.

Record Graph : Type := mkGraph {
  nodes : list Node
}.

Inductive Place : Type :=
  | CPUPlace
  | CUDAPlace (dev : Z)
  | XPUPlace (dev : Z)
  | CustomPlace (kind : string) (dev : Z).

Inductive DeviceType : Type := CPU | CUDA | XPU.

Inductive Scope : Type := ScopeRef (addr : positive).

Global Instance Scope_eq_dec : EqDecision Scope.
Proof. solve_decision. Defined.

(** ** Block methods of the framework module *)

(** Modelled from the spec: [Block._remove_op(index)] belongs to the
    framework module; it drops the operator at [index] ("removeNode"), and
    like [del ops[index]] it raises when the index is out of range. *)
Definition _remove_op (index : nat) (b : Block) : outcome Block :=
  if decide (index < length (ops b))%nat
  then Returns (mkBlock (delete index (ops b)) (vars b))
  else Raises (IndexError "list assignment index out of range").

(** Modelled from the spec: [Block.var(name)] belongs to the framework
    module ("findValue(name)"); it raises when the block has no such
    variable. *)
Definition Block_var (name : string) (b : Block) : outcome Variable_ :=
  match vars b !! name with
  | Some v => Returns v
  | None => Raises (ValueError ("var " ++ name ++ " not in this block"))
  end.

(** Modelled from the spec: [Block.has_var] and [Block._remove_var] belong
    to the framework module. *)
Definition has_var (name : string) (b : Block) : bool :=
  bool_decide (is_Some (vars b !! name)).
Definition _remove_var (name : string) (b : Block) : Block :=
  mkBlock (ops b) (delete name (vars b)).

(** ** Module-level helpers *)

(** [for i, op in enumerate(ops): if p(op): idx.append(i)], counting
    from [i]. *)
Fixpoint op_indices (p : Operator → bool) (i : nat) (l : list Operator)
    : list nat :=
  match l with
  | [] => []
  | op :: l =>
      if p op then i :: op_indices p (S i) l else op_indices p (S i) l
  end.

Definition is_feed (op : Operator) : bool :=
  bool_decide (op_type op = "feed").

(** [for index in pop_idx[::-1]: block._remove_op(index)] *)
Definition remove_ops_at (idx : list nat) : Py Block unit :=
  for_each idx (λ index b,
    match _remove_op index b with
    | Returns b' => (Returns tt, b')
    | Raises e => (Raises e, b)
    end).

Definition _prune_feed_ops : Py Program unit :=
  λ program,
    let pop_idx := op_indices is_feed 0 (ops (global_block program)) in
    match remove_ops_at (reverse pop_idx) (global_block program) with
    | (r, b) => (r, with_global_block b program)
    end.

Definition _should_broadcast_or_not_exists
    (program : Program) (var_name : string) : bool :=
  match vars (global_block program) !! var_name with
  | None => true
  | Some var =>
      let is_distributed :=
        default false (_is_distributed var) || default false (is_distributed var) in
      negb is_distributed
  end.

(** ** The native [core] module, as far as [CompiledProgram] uses it *)

Inductive ReduceStrategy : Type := AllReduce | Reduce | NoReduce.

Global Instance ReduceStrategy_eq_dec : EqDecision ReduceStrategy.
Proof. solve_decision. Defined.

Record BuildStrategy : Type := mkBuildStrategy {
  num_trainers : Z;
  trainers_endpoints : list string;
  nccl_comm_num : Z;
  use_hierarchical_allreduce : bool;
  hierarchical_allreduce_inter_nranks : Z;
  reduce_strategy : ReduceStrategy;
  fuse_all_reduce_ops : bool
}.

Class NativeCore : Type := {
  Executor : Type;
  InferConfig : Type;
  (* [core.Graph(program.desc)] *)
  Graph_of_desc : Program → Graph;
  (* [place._equals(other)] *)
  Place_equals : Place → Place → bool;
  (* [p = core.Place(); p.set_place(place)] *)
  Place_set_place : option Place → outcome Place;
  (* [BuildStrategy()] *)
  BuildStrategy_new : BuildStrategy;
  is_cuda_graph_capturing : bool;
  (* [core.CompiledProgram(places, persistable_vars, '', scope,
      local_scopes, build_strategy, graph)] *)
  core_CompiledProgram :
    list Place → list string → string → option Scope → list Scope →
    BuildStrategy → Graph → outcome Executor;
  create_paddle_predictor : InferConfig → outcome Executor;
  (* [executor.local_scopes()] *)
  local_scopes : Executor → list Scope
}.

(** Order of [str] under [<]: code point by code point, which on the
    UTF-8 bytes of a [string] is [String.leb]. *)
Definition str_le (a b : string) : Prop := String.leb a b = true.

Global Instance str_le_dec : RelDecision str_le.
Proof. intros a b. unfold str_le. apply _. Defined.

(** A graph node whose name the scan keeps, the program permitting. *)
Definition persistable_node (node : Node) : Prop :=
  is_var node = true ∧
  ∃ v, var node = Some v ∧ persistable v = true ∧ type v ≠ RAW.

Module CompiledProgram.
Section WithCore.
Context `{NativeCore}.

(** The other [CompiledProgram] named by [_share_vars_from]; only its
    [_executor] is read. *)
Record SharedProgram : Type := mkShared {
  shared_executor : option Executor
}.

Record t : Type := mk {
  _graph : Graph;
  _program : option Program;
  _scope : option Scope;
  _place : option Place;
  _executor : option Executor;
  _compiled : bool;
  _is_inference : bool;
  _share_vars_from : option SharedProgram;
  _places : option (list (option Place));
  _build_strategy : option BuildStrategy;
  (* attributes that exist only once assigned; the two lists are
     always assigned before they are read *)
  _infer_config : option InferConfig;
  _local_scopes : list Scope;
  _persistable_vars : list string
}.

(** The object together with what it has written and built so far. *)
Record State : Type := mkState {
  self : t;
  events : list Event
}.

Definition upd (f : t → t) : Py State unit :=
  modify (λ st, mkState (f (self st)) (events st)).
Definition emit (e : Event) : Py State unit :=
  modify (λ st, mkState (self st) (events st ++ [e])).

Definition set__scope v o := mk (_graph o) (_program o) v (_place o)
  (_executor o) (_compiled o) (_is_inference o) (_share_vars_from o)
  (_places o) (_build_strategy o) (_infer_config o) (_local_scopes o)
  (_persistable_vars o).
Definition set__place v o := mk (_graph o) (_program o) (_scope o) v
  (_executor o) (_compiled o) (_is_inference o) (_share_vars_from o)
  (_places o) (_build_strategy o) (_infer_config o) (_local_scopes o)
  (_persistable_vars o).
Definition set__executor v o := mk (_graph o) (_program o) (_scope o)
  (_place o) v (_compiled o) (_is_inference o) (_share_vars_from o)
  (_places o) (_build_strategy o) (_infer_config o) (_local_scopes o)
  (_persistable_vars o).
Definition set__compiled v o := mk (_graph o) (_program o) (_scope o)
  (_place o) (_executor o) v (_is_inference o) (_share_vars_from o)
  (_places o) (_build_strategy o) (_infer_config o) (_local_scopes o)
  (_persistable_vars o).
Definition set__places v o := mk (_graph o) (_program o) (_scope o)
  (_place o) (_executor o) (_compiled o) (_is_inference o)
  (_share_vars_from o) v (_build_strategy o) (_infer_config o)
  (_local_scopes o) (_persistable_vars o).
Definition set__build_strategy v o := mk (_graph o) (_program o) (_scope o)
  (_place o) (_executor o) (_compiled o) (_is_inference o)
  (_share_vars_from o) (_places o) v (_infer_config o) (_local_scopes o)
  (_persistable_vars o).
Definition set__local_scopes v o := mk (_graph o) (_program o) (_scope o)
  (_place o) (_executor o) (_compiled o) (_is_inference o)
  (_share_vars_from o) (_places o) (_build_strategy o) (_infer_config o) v
  (_persistable_vars o).
Definition set__persistable_vars v o := mk (_graph o) (_program o)
  (_scope o) (_place o) (_executor o) (_compiled o) (_is_inference o)
  (_share_vars_from o) (_places o) (_build_strategy o) (_infer_config o)
  (_local_scopes o) v.

(** What [__init__] is handed: a [core.Graph], a [framework.Program], or
    an object of another type, of which only [str(type(obj))] matters. *)
Inductive PyObject : Type :=
  | PyGraph (g : Graph)
  | PyProgram (p : Program)
  | PyOther (type_repr : string).

Definition fresh (graph : Graph) (program : option Program)
    (build_strategy : option BuildStrategy) : t :=
  mk graph program None None None false false None None build_strategy
     None [] [].

(** The program handed in is pruned in place and kept as [_program]. *)
Definition __init__ (program_or_graph : PyObject)
    (build_strategy : option BuildStrategy) : outcome t :=
  match program_or_graph with
  | PyGraph g => Returns (fresh g None build_strategy)
  | PyProgram p =>
      match _prune_feed_ops p with
      | (Returns _, p') =>
          Returns (fresh (Graph_of_desc p') (Some p') build_strategy)
      | (Raises e, _) => Raises e
      end
  | PyOther type_repr =>
      Raises (TypeError
        ("The type of program_to_graph parameter is wrong, expected Graph or Program, but received "
         ++ type_repr))
  end.

Definition get_build_strategy : Py State BuildStrategy :=
  let! o := gets self in
  match _build_strategy o with
  | Some bs => ret bs
  | None => raise (AttributeError "'NoneType' object has no attribute")
  end.
Definition upd_build_strategy (f : BuildStrategy → BuildStrategy)
    : Py State unit :=
  upd (λ o, set__build_strategy (f <$> _build_strategy o) o).

(** The loop over [self._graph.nodes()] that appends to
    [self._persistable_vars]. *)
Fixpoint scan_persistable (program : option Program) (ns : list Node)
    (acc : list string) : list string :=
  match ns with
  | [] => acc
  | node :: ns =>
      if is_var node
         && match var node with
            | Some v => persistable v && bool_decide (type v ≠ RAW)
            | None => false
            end
      then
        let name := name node in
        if match program with
           | Some program => _should_broadcast_or_not_exists program name
           | None => false
           end
        then scan_persistable program ns (acc ++ [name])
        else scan_persistable program ns acc
      else scan_persistable program ns acc
  end.

(** [list(set(xs))]: the distinct elements, in the set's own order. *)
Definition list_of_set (xs : list string) : list string :=
  elements (list_to_set xs : gset string).

(** [xs.sort()] *)
Definition sort (xs : list string) : list string := merge_sort str_le xs.

Fixpoint map_places (places : list (option Place)) : outcome (list Place) :=
  match places with
  | [] => Returns []
  | p :: ps =>
      match Place_set_place p with
      | Raises e => Raises e
      | Returns p' =>
          match map_places ps with
          | Raises e => Raises e
          | Returns ps' => Returns (p' :: ps')
          end
      end
  end.

Definition _compile_data_parallel (places : list (option Place))
    (use_device : DeviceType) (scope : option Scope) : Py State Executor :=
  let! o := gets self in
  match _share_vars_from o with
  | Some shared =>
      match scope with
      | Some _ =>
          emit (StderrWrite
                  ("share_vars_from is set, scope is ignored." ++ newline))
      | None => ret tt
      end ;;;
      match shared_executor shared with
      | None =>
          raise (ValueError
            "The shared Program is not compiled and executed, so there is no variables to share.")
      | Some ex => upd (set__local_scopes (local_scopes ex))
      end
  | None =>
      assert (bool_decide (is_Some scope)) "" ;;;
      upd (set__local_scopes [])
  end ;;;
  (* [isinstance(places, (list, tuple))] holds of every [list] *)
  match _build_strategy o with
  | None => upd (set__build_strategy (Some BuildStrategy_new))
  | Some _ => ret tt
  end ;;;
  let! bs := get_build_strategy in
  match _program o with
  | Some program =>
      if bool_decide (1 < num_trainers bs)
         && bool_decide (_trainers_endpoints program ≠ [])
      then
        let tps := _trainers_endpoints program in
        assert (bool_decide (num_trainers bs = Z.of_nat (length tps)))
          "The trainer numbers is not equal to endpoint numbers." ;;;
        upd_build_strategy (λ bs, mkBuildStrategy (num_trainers bs) tps
          (nccl_comm_num bs) (use_hierarchical_allreduce bs)
          (hierarchical_allreduce_inter_nranks bs) (reduce_strategy bs)
          (fuse_all_reduce_ops bs))
      else ret tt
  | None => ret tt
  end ;;;
  match _program o with
  | Some program =>
      upd_build_strategy (λ bs, mkBuildStrategy (num_trainers bs)
        (trainers_endpoints bs) (_nccl_comm_num program)
        (_use_hierarchical_allreduce program)
        (_hierarchical_allreduce_inter_nranks program) (reduce_strategy bs)
        (fuse_all_reduce_ops bs))
  | None => ret tt
  end ;;;
  match _program o with
  | Some program =>
      if _enable_dgc program then
        assert (bool_decide (1 < num_trainers bs * Z.of_nat (length places)))
          "DGC is not available for single card training." ;;;
        (* the message keeps the indentation of its continuation line *)
        assert (bool_decide (reduce_strategy bs = AllReduce))
          "DGC                 only can be used for AllReduce BuildStrategy." ;;;
        upd_build_strategy (λ bs, mkBuildStrategy (num_trainers bs)
          (trainers_endpoints bs) (nccl_comm_num bs)
          (use_hierarchical_allreduce bs)
          (hierarchical_allreduce_inter_nranks bs) (reduce_strategy bs)
          false)
      else ret tt
  | None => ret tt
  end ;;;
  upd (set__persistable_vars
         (scan_persistable (_program o) (nodes (_graph o)) [])) ;;;
  let! places := lift (map_places places) in
  upd (λ o, set__persistable_vars (list_of_set (_persistable_vars o)) o) ;;;
  upd (λ o, set__persistable_vars (sort (_persistable_vars o)) o) ;;;
  (if is_cuda_graph_capturing
   then raise (RuntimeError
     "CUDA Graph is not allowed to capture when running the first batch.")
   else ret tt) ;;;
  let! o := gets self in
  let! bs := get_build_strategy in
  emit NativeCompiledProgram ;;;
  lift (core_CompiledProgram places (_persistable_vars o) "" (_scope o)
          (_local_scopes o) bs (_graph o)).

Definition _compile_inference : Py State Executor :=
  let! o := gets self in
  match _infer_config o with
  | Some config => emit NativePredictor ;;; lift (create_paddle_predictor config)
  | None =>
      raise (AttributeError
        "'CompiledProgram' object has no attribute '_infer_config'")
  end.

(** [_compile] returns [self]: the object as it is at the [return]. *)
Definition _compile (scope : option Scope) (place : option Place)
    : Py State t :=
  let! o := gets self in
  if _compiled o then
    (if bool_decide (is_Some scope) && bool_decide (_scope o ≠ scope)
     then raise (ValueError "Cannot compile program with different scope.")
     else ret tt) ;;;
    match place with
    | Some place =>
        match _place o with
        | Some own =>
            if negb (Place_equals own place)
            then raise
              (ValueError "Cannot compile program with different place.")
            else ret tt
        | None =>
            raise (AttributeError
              "'NoneType' object has no attribute '_equals'")
        end
    | None => ret tt
    end ;;;
    gets self
  else
    upd (set__compiled true) ;;;
    upd (set__scope scope) ;;;
    upd (set__place place) ;;;
    (if _is_inference o then
       let! ex := _compile_inference in
       upd (set__executor (Some ex))
     else
       upd (set__places (Some [place])) ;;;
       let use_device :=
         match place with
         | Some (CUDAPlace _) => CUDA
         | Some (XPUPlace _) => XPU
         | _ => CPU
         end in
       let! ex := _compile_data_parallel [place] use_device scope in
       upd (set__executor (Some ex))) ;;;
    gets self.

(** The list the driver hands to [core.CompiledProgram]. *)
Definition persistable_list (o : t) : list string :=
  sort (list_of_set (scan_persistable (_program o) (nodes (_graph o)) [])).
End WithCore.
End CompiledProgram.

(** ** IpuStrategy *)

(** Values an option can take; a float is kept as its binary64 bits. *)
Inductive OptionValue : Type :=
  | VBool (b : bool)
  | VInt (n : Z)
  | VFloat (bits : Z)
  | VStr (s : string)
  | VDict (d : list (string * OptionValue)).

(** [bool(v)] *)
Definition truthy (v : OptionValue) : bool :=
  match v with
  | VBool b => b
  | VInt n => negb (n =? 0)%Z
  | VFloat bits => negb ((bits =? 0)%Z || (bits =? 2 ^ 63)%Z)
  | VStr s => negb (String.eqb s "")
  | VDict d => negb (bool_decide (length d = 0%nat))
  end.

(** The native [core.IpuStrategy] object behind an [IpuStrategy]. *)
Class IpuCore : Type := {
  CoreIpuStrategy : Type;
  (* [core_strategy.set_options(options)]; may stop half-way with an error *)
  core_set_options : gmap string OptionValue → Py CoreIpuStrategy unit;
  (* [core_strategy.get_option(option)['value']] *)
  core_get_option : string → CoreIpuStrategy → outcome OptionValue
}.

Module IpuStrategy.
Section WithCore.
Context `{IpuCore}.

Record t : Type := mk {
  _ipu_strategy : CoreIpuStrategy;
  has_custom_ops : bool;
  custom_op_names : list string;
  need_compile : bool
}.

Definition set__ipu_strategy v o :=
  mk v (has_custom_ops o) (custom_op_names o) (need_compile o).
Definition set_need_compile v o :=
  mk (_ipu_strategy o) (has_custom_ops o) (custom_op_names o) v.
Definition set_custom_op_names v o :=
  mk (_ipu_strategy o) (has_custom_ops o) v (need_compile o).
Definition set_has_custom_ops v o :=
  mk (_ipu_strategy o) v (custom_op_names o) (need_compile o).

(** A call on [self._ipu_strategy]. *)
Definition on_core {A} (m : Py CoreIpuStrategy A) : Py t A :=
  λ o, match m (_ipu_strategy o) with
       | (r, c) => (r, set__ipu_strategy c o)
       end.

Definition recompile_white_list : gset string := {["lr"]}.

Definition set_options (options : gmap string OptionValue) : Py t unit :=
  on_core (core_set_options options) ;;;
  if bool_decide (dom options ∖ recompile_white_list ≠ ∅)
  then modify (set_need_compile true)
  else ret tt.

Definition get_option (option : string) : Py t OptionValue :=
  let! o := get in lift (core_get_option option (_ipu_strategy o)).

Definition graph_options (num_ipus : Z) (is_training : bool)
    (micro_batch_size : Z) (enable_manual_shard : bool)
    : gmap string OptionValue :=
  <["num_ipus" := VInt num_ipus]>
  (<["is_training" := VBool is_training]>
  (<["micro_batch_size" := VInt micro_batch_size]>
  (<["enable_manual_shard" := VBool enable_manual_shard]> ∅))).

Definition set_graph_config (num_ipus : Z) (is_training : bool)
    (micro_batch_size : Z) (enable_manual_shard : bool) : Py t unit :=
  if bool_decide (num_ipus = 1) && enable_manual_shard then
    raise (RuntimeError
      "Only if num_ipus > 1, enable_manual_shard is able to be set True.")
  else
    let options :=
      graph_options num_ipus is_training micro_batch_size enable_manual_shard in
    set_options options.

Definition pipelining_options (enable_pipelining : bool)
    (batches_per_step : Z) (enable_gradient_accumulation : bool)
    (accumulation_factor : Z) : gmap string OptionValue :=
  <["enable_pipelining" := VBool enable_pipelining]>
  (<["batches_per_step" := VInt batches_per_step]>
  (<["enable_gradient_accumulation" := VBool enable_gradient_accumulation]>
  (<["accumulation_factor" := VInt accumulation_factor]> ∅))).

Definition set_pipelining_config (enable_pipelining : bool)
    (batches_per_step : Z) (enable_gradient_accumulation : bool)
    (accumulation_factor : Z) : Py t unit :=
  let! enable_manual_shard := get_option "enable_manual_shard" in
  if negb (truthy enable_manual_shard) && enable_pipelining then
    raise (RuntimeError
      "Only if enable_manual_shard=True, enable_pipelining is able to be set True.")
  else
    let options :=
      pipelining_options enable_pipelining batches_per_step
        enable_gradient_accumulation accumulation_factor in
    set_options options.

Definition set_precision_config (enable_fp16 : bool) : Py t unit :=
  set_options (<["enable_fp16" := VBool enable_fp16]> ∅).

Definition add_custom_op (paddle_op : string) (popart_op : option string)
    (domain : string) (version : Z) : Py t unit :=
  let popart_op := default paddle_op popart_op in
  let custom_op :=
    VDict [("paddle_op", VStr paddle_op); ("popart_op", VStr popart_op);
           ("domain", VStr domain); ("version", VInt version)] in
  set_options (<["custom_op" := custom_op]> ∅) ;;;
  modify (λ o, set_custom_op_names (custom_op_names o ++ [paddle_op]) o) ;;;
  let! o := get in
  if negb (has_custom_ops o) then modify (set_has_custom_ops true)
  else ret tt.

(** The properties read by the compiler. *)
Definition is_training : Py t OptionValue := get_option "is_training".
Definition enable_fp16 : Py t OptionValue := get_option "enable_fp16".
End WithCore.
End IpuStrategy.

(** ** IpuCompiledProgram *)

(** What [a_pass.set(name, value)] hands to a pass. *)
Inductive PassAttr : Type :=
  | feed_list_attr (feed_list : list string)
  | fetch_list_attr (fetch_list : list string)
  | custom_ops_attr (custom_ops : gset string).

(** The native IPU backend and the passes registered in [core]. *)
Class IpuPasses `{IpuCore} : Type := {
  Backend : Type;
  is_compiled_with_ipu : bool;
  backend_set_scope : Scope → Backend → Backend;
  backend_set_ipu_strategy : CoreIpuStrategy → Backend → Backend;
  (* [a_pass = core.get_pass(pass_name)], the [a_pass.set] calls, then
     [a_pass.apply(graph)]: works on the graph in place *)
  apply_pass : string → list PassAttr → Py (Backend * Graph) unit;
  (* ['graph_to_program_pass'] into a fresh [core.ProgramDesc], then
     [framework.Program._construct_from_desc(desc)] *)
  graph_to_program : Py (Backend * Graph) Program
}.

Definition set_lr_scheduler (v : option LRScheduler) (p : Program) : Program :=
  mkProgram (global_block p) (_trainers_endpoints p) (_nccl_comm_num p)
    (_use_hierarchical_allreduce p) (_hierarchical_allreduce_inter_nranks p)
    (_enable_dgc p) v (org_program p).
Definition set_org_program (v : option Program) (p : Program) : Program :=
  mkProgram (global_block p) (_trainers_endpoints p) (_nccl_comm_num p)
    (_use_hierarchical_allreduce p) (_hierarchical_allreduce_inter_nranks p)
    (_enable_dgc p) (lr_scheduler p) v.

Definition is_feed_or_fetch (op : Operator) : bool :=
  bool_decide (op_type op = "feed") || bool_decide (op_type op = "fetch").

(** [for feed_name in feed_list:
       feed_var = block.var(feed_name)
       feed_var.desc.set_need_check_feed(False)] *)
Fixpoint clear_need_check_feed (feed_list : list string) (b : Block)
    : outcome Block :=
  match feed_list with
  | [] => Returns b
  | feed_name :: feed_list =>
      match Block_var feed_name b with
      | Raises e => Raises e
      | Returns feed_var =>
          let feed_var :=
            mkVariable false (_is_distributed feed_var) (is_distributed feed_var) in
          clear_need_check_feed feed_list
            (mkBlock (ops b) (<[feed_name := feed_var]> (vars b)))
      end
  end.

Module IpuCompiledProgram.
Section WithCore.
Context `{NativeCore} `{IpuPasses}.

Record t : Type := mk {
  _program : Program;
  _compiled : bool;
  _scope : Scope;
  _custom_op_names : gset string;
  _graph : option Graph
}.

(** The object, the [IpuStrategy] it shares with its caller
    ([self._ipu_strategy] is that very object) and the backend singleton. *)
Record World : Type := mkWorld {
  this : t;
  strategy : IpuStrategy.t;
  backend : Backend
}.

Definition set__program v o :=
  mk v (_compiled o) (_scope o) (_custom_op_names o) (_graph o).
Definition set__graph v o :=
  mk (_program o) (_compiled o) (_scope o) (_custom_op_names o) v.

Definition on_this {A} (m : Py t A) : Py World A :=
  λ w, match m (this w) with
       | (r, o) => (r, mkWorld o (strategy w) (backend w))
       end.
Definition on_strategy {A} (m : Py IpuStrategy.t A) : Py World A :=
  λ w, match m (strategy w) with
       | (r, s) => (r, mkWorld (this w) s (backend w))
       end.
Definition on_backend (f : Backend → Backend) : Py World unit :=
  modify (λ w, mkWorld (this w) (strategy w) (f (backend w))).
(** A pass at work on [self._graph]. *)
Definition on_graph {A} (m : Py (Backend * Graph) A) : Py World A :=
  λ w, match _graph (this w) with
       | Some g =>
           match m (backend w, g) with
           | (r, (b, g')) =>
               (r, mkWorld (set__graph (Some g') (this w)) (strategy w) b)
           end
       | None =>
           (Raises (AttributeError
              "'IpuCompiledProgram' object has no attribute '_graph'"), w)
       end.
Definition on_global_block {A} (m : Py Block A) : Py World A :=
  on_this (λ o, match m (global_block (_program o)) with
                | (r, b) => (r, set__program (with_global_block b (_program o)) o)
                end).

(** [IpuCompiledProgram(program, scope=scope, ipu_strategy=ipu_strategy)]
    with a [Program] and a strategy given, the way this file calls it;
    [global_scope] is [paddle.static.global_scope()]. *)
Definition __init__ (program : Program) (scope : option Scope)
    (global_scope : Scope) (ipu_strategy : IpuStrategy.t) (b : Backend)
    : outcome World :=
  if negb is_compiled_with_ipu then
    Raises (ValueError
      "Can not use this function since PaddlePaddle is not compiled with IPU")
  else
    let scope := default global_scope scope in
    let custom_op_names :=
      if IpuStrategy.has_custom_ops ipu_strategy
      then list_to_set (IpuStrategy.custom_op_names ipu_strategy)
      else ∅ in
    Returns (mkWorld (mk program false scope custom_op_names None)
               ipu_strategy b).

Definition ipu_passes (names : list string) (attrs : string → list PassAttr)
    : Py World unit :=
  for_each names (λ pass_name, on_graph (apply_pass pass_name (attrs pass_name))).

Definition compile (feed_list fetch_list : list string) : Py World Program :=
  let! w := get in
  on_backend (backend_set_scope (_scope (this w))) ;;;
  on_backend
    (backend_set_ipu_strategy (IpuStrategy._ipu_strategy (strategy w))) ;;;
  (* feed and fetch doesn't have corresponding popart op, so we rm both here *)
  on_global_block (λ global_block,
    let ops' := map (λ op, mkOperator (op_type op) false) (ops global_block) in
    let need_to_remove_op_index := op_indices is_feed_or_fetch 0 ops' in
    remove_ops_at (reverse need_to_remove_op_index)
      (mkBlock ops' (vars global_block))) ;;;
  on_global_block
    (for_each ["feed"; "fetch"] (λ var global_block,
       if has_var var global_block
       then (Returns tt, _remove_var var global_block)
       else (Returns tt, global_block))) ;;;
  on_this (λ o, (Returns tt, set__graph (Some (Graph_of_desc (_program o))) o)) ;;;
  let! is_training := on_strategy IpuStrategy.is_training in
  (if truthy is_training then
     ipu_passes ["optimizer_extract_pass"; "optimizer_state_align_pass"]
       (λ _, [])
   else ret tt) ;;;
  ipu_passes
    ["forward_graph_extract_pass"; "infer_shape_pass"; "avg_shard_pass";
     "delete_scale_op_pass"]
    (λ pass_name,
       if bool_decide (pass_name = "infer_shape_pass")
       then [feed_list_attr feed_list] else []) ;;;
  on_graph (apply_pass "popart_canonicalization_pass"
    (if bool_decide (_custom_op_names (this w) ≠ ∅)
     then [custom_ops_attr (_custom_op_names (this w))] else [])) ;;;
  ipu_passes
    ["ipu_inplace_pass"; "ipu_graph_builder_pass"; "ipu_runtime_replacer_pass"]
    (λ _, [feed_list_attr feed_list; fetch_list_attr fetch_list]) ;;;
  let! program := on_graph graph_to_program in
  let! program :=
    on_this (λ o,
      match lr_scheduler (_program o) with
      | Some sched =>
          let lr_var_name := _var_name sched in
          match vars (global_block (_program o)) !! lr_var_name with
          | Some v =>
              (* one scheduler object, now reachable from both programs *)
              let sched := mkLRScheduler (_var_name sched) (Some v) in
              (Returns (set_lr_scheduler (Some sched) program),
               set__program (set_lr_scheduler (Some sched) (_program o)) o)
          | None => (Raises (KeyError lr_var_name), o)
          end
      | None => (Returns program, o)
      end) in
  let! program_global_block :=
    lift (clear_need_check_feed feed_list (global_block program)) in
  let program := with_global_block program_global_block program in
  let! o := gets this in
  let program :=
    match org_program program with
    | None => set_org_program (Some (_program o)) program
    | Some _ => program
    end in
  on_strategy (modify (IpuStrategy.set_need_compile false)) ;;;
  ret program.
End WithCore.
End IpuCompiledProgram.

(** ** IpuDynamicPatcher *)

(** [ConcreteProgram] of dy2static, as far as the patcher reads it:
    [inputs] holds the name of each input, or [None] for a [None] input. *)
Record ConcreteProgram {ParamBase : Type} : Type := mkConcreteProgram {
  inputs : list (option string);
  outputs : list string;
  parameters : list ParamBase;
  main_program : Program;
  startup_program : Program
}.
Arguments ConcreteProgram : clear implicits.
Arguments mkConcreteProgram {ParamBase}.

(** The dy2static machinery and the paddle calls behind the patch. *)
Class Dy2Static : Type := {
  CacheKey : Type;
  ClassInstance : Type;
  PartialProgram : Type;
  ParamBase : Type;
  class_instance : CacheKey → option ClassInstance;
  (* [hash(item)] *)
  hash : CacheKey → Z;
  MAX_TRACED_PROGRAM_COUNT : nat;
  (* [concrete_program, _ = self._build_once(item)] *)
  _build_once : CacheKey → outcome (ConcreteProgram ParamBase);
  partial_program_from :
    ConcreteProgram ParamBase → bool → outcome PartialProgram;
  (* [paddle.static.global_scope()] *)
  global_scope : Scope;
  (* [class_instance.to(dtype="float16")] *)
  to_float16 : option ClassInstance → outcome unit;
  (* the loop sharing each parameter's tensor with the scope *)
  share_parameters : list ParamBase → Scope → outcome unit;
  (* [append_backward_desc()]: backward and optimizer ops, startup run *)
  append_backward_desc : Program → outcome Program;
  (* the loop re-creating the optimizer accumulators *)
  copy_optimizer_parameters : Scope → outcome unit;
  (* [cast_model_to_fp16] and [cast_parameters_to_fp16] *)
  cast_to_fp16 : Program → outcome Program
}.

Module IpuDynamicPatcher.
Section WithCore.
Context `{NativeCore} `{IpuPasses} `{Dy2Static}.

Abbreviation Entry := (ConcreteProgram ParamBase * PartialProgram)%type.

Record ProgramCache : Type := mkCache {
  _caches : gmap Z Entry;
  _recent_key : option Z
}.

(** The cache, the strategy captured by the patch, the backend singleton
    and the warnings and builds so far. *)
Record World : Type := mkWorld {
  cache : ProgramCache;
  ipu_strategy : IpuStrategy.t;
  backend : Backend;
  events : list Event
}.

Definition on_cache (f : ProgramCache → ProgramCache) : Py World unit :=
  modify (λ w, mkWorld (f (cache w)) (ipu_strategy w) (backend w) (events w)).
Definition on_strategy {A} (m : Py IpuStrategy.t A) : Py World A :=
  λ w, match m (ipu_strategy w) with
       | (r, s) => (r, mkWorld (cache w) s (backend w) (events w))
       end.
Definition emit (e : Event) : Py World unit :=
  modify (λ w, mkWorld (cache w) (ipu_strategy w) (backend w) (events w ++ [e])).

(** [IpuCompiledProgram(main_program, ipu_strategy=ipu_strategy,
    scope=scope).compile(feed_list, fetch_list)] *)
Definition ipu_compile (program : Program) (scope : Scope)
    (feed_list fetch_list : list string) : Py World Program :=
  λ w, match IpuCompiledProgram.__init__ program (Some scope) global_scope
               (ipu_strategy w) (backend w) with
       | Raises e => (Raises e, w)
       | Returns iw =>
           match IpuCompiledProgram.compile feed_list fetch_list iw with
           | (r, iw') =>
               (r, mkWorld (cache w) (IpuCompiledProgram.strategy iw')
                     (IpuCompiledProgram.backend iw') (events w))
           end
       end.

Definition set_main_program (v : Program) (c : ConcreteProgram ParamBase) :=
  mkConcreteProgram (inputs c) (outputs c) (parameters c) v (startup_program c).

(** [[elem.name for elem in xs if elem is not None]] *)
Definition names_of (xs : list (option string)) : list string :=
  omap id xs.

Definition convert_concrete_program
    (concrete_program : ConcreteProgram ParamBase)
    (class_instance : option ClassInstance)
    : Py World (ConcreteProgram ParamBase) :=
  let inputs := inputs concrete_program in
  let outputs := outputs concrete_program in
  let scope := global_scope in
  let! enable_fp16 := on_strategy IpuStrategy.enable_fp16 in
  (if truthy enable_fp16 then lift (to_float16 class_instance) else ret tt) ;;;
  lift (share_parameters (parameters concrete_program) scope) ;;;
  let feed_list :=
    match class_instance with
    | Some _ => names_of (drop 1 inputs)
    | None => names_of inputs
    end in
  let fetch_list := outputs in
  let! is_training := on_strategy IpuStrategy.is_training in
  let! concrete_program :=
    (if truthy is_training then
       let! program := lift (append_backward_desc (main_program concrete_program)) in
       lift (copy_optimizer_parameters scope) ;;;
       ret (set_main_program program concrete_program)
     else ret concrete_program) in
  (* func_compile *)
  let! enable_fp16 := on_strategy IpuStrategy.enable_fp16 in
  let! program :=
    (if truthy enable_fp16
     then lift (cast_to_fp16 (main_program concrete_program))
     else ret (main_program concrete_program)) in
  let! main_program := ipu_compile program scope feed_list fetch_list in
  ret (set_main_program main_program concrete_program).

(** What [patch_getter] is indexed with: a [CacheKey], or an object of
    another type, of which only [type(item).__name__] matters. *)
Inductive Item : Type :=
  | ItemKey (key : CacheKey)
  | ItemOther (type_name : string).

(** The build step of [patch_getter]: [_build_once], the conversion to
    an IPU program, and the partial program around it. *)
Definition build (item : CacheKey) : Py World Entry :=
  emit (BuildOnce (hash item)) ;;;
  let! concrete_program := lift (_build_once item) in
  let! concrete_program :=
    convert_concrete_program concrete_program (class_instance item) in
  let! partial_program :=
    lift (partial_program_from concrete_program
            (bool_decide (is_Some (class_instance item)))) in
  ret (concrete_program, partial_program).

Definition patch_getter (item : Item) : Py World Entry :=
  match item with
  | ItemOther type_name =>
      raise (ValueError
        ("type(item) should be CacheKey, but received " ++ type_name))
  | ItemKey item =>
      let item_id := hash item in
      on_cache (λ c, mkCache (_caches c) (Some item_id)) ;;;
      let! w := get in
      let caches := _caches (cache w) in
      let need_compile := IpuStrategy.need_compile (ipu_strategy w) in
      (if bool_decide (item_id ∉ dom caches) || need_compile then
         (if bool_decide (item_id ∈ dom caches)
          then emit WarnStrategyChanged else ret tt) ;;;
         (if bool_decide (caches ≠ ∅) && negb need_compile
          then emit WarnMultipleCaches else ret tt) ;;;
         let! entry := build item in
         on_cache (λ c, mkCache (<[item_id := entry]> (_caches c))
                          (_recent_key c)) ;;;
         let! w := get in
         let current_tracing_count := size (_caches (cache w)) in
         if bool_decide (MAX_TRACED_PROGRAM_COUNT < current_tracing_count)%nat
         then emit (WarnTooManyTraced current_tracing_count
                      MAX_TRACED_PROGRAM_COUNT)
         else ret tt
       else ret tt) ;;;
      let! w := get in
      match _caches (cache w) !! item_id with
      | Some entry => ret entry
      | None => raise (KeyError "item_id")
      end
  end.

(** Lookups one after the other; a lookup that raises leaves the cache
    as it stands and the next one goes on from there. *)
Definition lookups (items : list Item) (w : World) : World :=
  foldl (λ w item, snd (patch_getter item w)) w items.

(** A step that leaves the cache and the event log alone. *)
Definition frames {A} (m : Py World A) : Prop :=
  ∀ w r w', m w = (r, w') → cache w' = cache w ∧ events w' = events w.

(** The world as [patch_getter] has it on reaching the build: the
    recent key noted and the warnings given. *)
Definition pre_build (item : CacheKey) (w : World) : World :=
  let caches := _caches (cache w) in
  let need_compile := IpuStrategy.need_compile (ipu_strategy w) in
  mkWorld (mkCache caches (Some (hash item))) (ipu_strategy w) (backend w)
    ((events w
      ++ (if bool_decide (hash item ∈ dom caches)
          then [WarnStrategyChanged] else []))
      ++ (if bool_decide (caches ≠ ∅) && negb need_compile
          then [WarnMultipleCaches] else [])).

(** The world once the entry built in [w1] is stored. *)
Definition store (item : CacheKey)
    (entry : ConcreteProgram ParamBase * PartialProgram) (w1 : World)
    : World :=
  let caches := <[hash item := entry]> (_caches (cache w1)) in
  mkWorld (mkCache caches (_recent_key (cache w1))) (ipu_strategy w1)
    (backend w1)
    (events w1
     ++ (if bool_decide (MAX_TRACED_PROGRAM_COUNT < size caches)%nat
         then [WarnTooManyTraced (size caches) MAX_TRACED_PROGRAM_COUNT]
         else [])).
End WithCore.
End IpuDynamicPatcher.

(** ** What a step leaves alone *)

(** [m] never changes [f] of the state, however it ends. *)
Definition preserves {S A B} (f : S → B) (m : Py S A) : Prop :=
  ∀ s r s', m s = (r, s') → f s' = f s.

(** [m] has not changed [f] of the state when it raises. *)
Definition preserves_on_raise {S A B} (f : S → B) (m : Py S A) : Prop :=
  ∀ s e s', m s = (Raises e, s') → f s' = f s.

(** ** CompiledProgram: the inference switch and the choice of places *)

(** The place lists of the framework module and [place._type()]. *)
Class PlaceLists : Type := {
  Place_type : Place → Z;
  cuda_places : outcome (list Place);
  xpu_places : outcome (list Place);
  cpu_places : outcome (list Place)
}.

Section CompiledProgram_rest.
Context `{NativeCore} `{PlaceLists}.
Import CompiledProgram.

(** What [_with_inference_optimize] is handed: a [core.NativeConfig], a
    [core.AnalysisConfig], or an object of another type. *)
Inductive PyConfig : Type :=
  | NativeConfig (config : InferConfig)
  | AnalysisConfig (config : InferConfig)
  | OtherConfig.

Definition set__is_inference v o := mk (_graph o) (_program o) (_scope o)
  (_place o) (_executor o) (_compiled o) v (_share_vars_from o) (_places o)
  (_build_strategy o) (_infer_config o) (_local_scopes o)
  (_persistable_vars o).
Definition set__infer_config v o := mk (_graph o) (_program o) (_scope o)
  (_place o) (_executor o) (_compiled o) (_is_inference o)
  (_share_vars_from o) (_places o) (_build_strategy o) v (_local_scopes o)
  (_persistable_vars o).

Definition _with_inference_optimize (config : PyConfig) : Py State t :=
  let! o := gets self in
  assert (negb (_is_inference o))
    "Already compiled with inference, cannot be recompiled." ;;;
  match config with
  | NativeConfig c | AnalysisConfig c =>
      upd (set__is_inference true) ;;;
      upd (set__infer_config (Some c)) ;;;
      gets self
  | OtherConfig => raise (AssertionError "")
  end.

(** [for p in place_list: assert p._type() == place._type(), ...] *)
Fixpoint check_place_types (place : Place) (place_list : list Place)
    : outcome unit :=
  match place_list with
  | [] => Returns tt
  | p :: place_list =>
      if bool_decide (Place_type p = Place_type place)
      then check_place_types place place_list
      else Raises (AssertionError
             "Place type not match. You may set wrong type of places.")
  end.

Definition _get_places (place : Place) (place_list : option (list Place))
    : outcome (list Place) :=
  match
    match place_list with
    | Some place_list =>
        match check_place_types place place_list with
        | Returns _ => Returns place_list
        | Raises e => Raises e
        end
    | None =>
        match place with
        | CUDAPlace _ => cuda_places
        | XPUPlace _ => xpu_places
        | _ => cpu_places
        end
    end
  with
  | Returns place_list =>
      if bool_decide (place_list ≠ [])
      then Returns place_list
      else Raises (AssertionError "No places for execution.")
  | Raises e => Raises e
  end.

(** What the two compile steps never write: the compiled flag, the
    scope, the place, the executor and the inference switch. *)
Definition compile_frame (o : t) :=
  (_compiled o, _scope o, _place o, _executor o, _is_inference o,
   _infer_config o).
End CompiledProgram_rest.

(** A step that cannot return. *)
Definition never_returns {S A} (m : Py S A) : Prop :=
  ∀ s a s', m s ≠ (Returns a, s').

(** ** IpuStrategy: the optimizer and the patched scheduler step *)

(** [optimizer._learning_rate]: a float (its binary64 bits), an
    [LRScheduler] (with what calling it gives), or something else. *)
Inductive LearningRate : Type :=
  | LrFloat (bits : Z)
  | LrScheduler (call : outcome Z)
  | LrOther.

Record Optimizer : Type := mkOptimizer {
  _learning_rate : LearningRate
}.

Section IpuStrategy_optimizer.
Context `{IpuCore}.
Import IpuStrategy.

(** [get_lr()] of [parse_optimizer]: for a learning rate that is neither
    a float nor a scheduler it falls off its end and returns None. *)
Definition get_lr (optimizer : Optimizer)
    : outcome (option (gmap string OptionValue)) :=
  match _learning_rate optimizer with
  | LrFloat bits => Returns (Some (<["lr" := VFloat bits]> ∅))
  | LrScheduler call =>
      match call with
      | Returns bits => Returns (Some (<["lr" := VFloat bits]> ∅))
      | Raises e => Raises e
      end
  | LrOther => Returns None
  end.

(** [optimizer_attrs.update(fn())] for the one [fn] there is. *)
Definition parse_optimizer (optimizer : Optimizer)
    : outcome (gmap string OptionValue) :=
  let optimizer_attrs : gmap string OptionValue :=
    <["is_dynamic" := VBool true]> ∅ in
  match get_lr optimizer with
  | Returns (Some attrs) => Returns (attrs ∪ optimizer_attrs)
  | Returns None => Raises (TypeError "'NoneType' object is not iterable")
  | Raises e => Raises e
  end.

(** The strategy with the [_optimizer] attribute [set_optimizer] adds. *)
Record WithOptimizer : Type := mkWithOptimizer {
  strategy_of : t;
  _optimizer : option Optimizer
}.

Definition set_optimizer (in_dynamic_mode : bool) (optimizer : Optimizer)
    : Py WithOptimizer unit :=
  if in_dynamic_mode then
    modify (λ s, mkWithOptimizer (strategy_of s) (Some optimizer)) ;;;
    let! optimizer_attrs := lift (parse_optimizer optimizer) in
    λ s, match on_core (core_set_options optimizer_attrs) (strategy_of s) with
         | (r, o) => (r, mkWithOptimizer o (_optimizer s))
         end
  else raise (RuntimeError "Only needs to set optimizer in dynamic mode.").

(** [patch_step] of [patch_lr_scheduler]: the step it replaced, which
    leaves [self.last_lr] or raises, then
    [ipu_strategy.set_options({"lr": self.last_lr})]. *)
Definition patch_step (old_step : outcome Z) : Py t unit :=
  let! last_lr := lift old_step in
  set_options (<["lr" := VFloat last_lr]> ∅).

(** The custom-op bookkeeping is as it was, and the flag is up after a
    return and as it was after a raise. *)
Definition setter_effect (o : t) (run : outcome unit * t) : Prop :=
  has_custom_ops run.2 = has_custom_ops o ∧
  custom_op_names run.2 = custom_op_names o ∧
  need_compile run.2
  = match run.1 with
    | Returns _ => true
    | Raises _ => need_compile o
    end.
End IpuStrategy_optimizer.

(** ** The patch registry of IpuDynamicPatcher *)

Section IpuDynamicPatcher_registry.
(** The identity of the strategy object a patch closes over. *)
Context {StrategyRef : Type}.

(** What [ProgramCache.__getitem__] can be: the getter dy2static
    defines, or a [patch_getter] closed over a strategy. *)
Inductive GetterFn : Type :=
  | original_getter
  | patch_getter_over (ipu_strategy : StrategyRef).

(** What [LRScheduler.step] can be: the step the optimizer module
    defines, or a [patch_step] closed over a strategy and over the step
    it replaced. *)
Inductive StepFn : Type :=
  | original_step
  | patch_step_over (ipu_strategy : StrategyRef) (old_step : StepFn).

(** An entry [[module, key, attr]] of [patcher_cache]. *)
Inductive Patched : Type :=
  | ProgramCache___getitem__ (attr : GetterFn)
  | LRScheduler_step (attr : StepFn).

(** The two class attributes the patcher assigns, and its own list. *)
Record Classes : Type := mkClasses {
  __getitem__ : GetterFn;
  step : StepFn;
  patcher_cache : list Patched
}.

Definition patch_program_cache (ipu_strategy : StrategyRef) (c : Classes)
    : Classes :=
  let old_getter := __getitem__ c in
  mkClasses (patch_getter_over ipu_strategy) (step c)
    (patcher_cache c ++ [ProgramCache___getitem__ old_getter]).

Definition patch_lr_scheduler (ipu_strategy : StrategyRef) (c : Classes)
    : Classes :=
  let old_step := step c in
  mkClasses (__getitem__ c) (patch_step_over ipu_strategy old_step)
    (patcher_cache c ++ [LRScheduler_step old_step]).

Definition register_patch (ipu_strategy : StrategyRef) (c : Classes)
    : Classes :=
  patch_lr_scheduler ipu_strategy (patch_program_cache ipu_strategy c).

(** [setattr(module, key, attr)] *)
Definition setattr (c : Classes) (entry : Patched) : Classes :=
  match entry with
  | ProgramCache___getitem__ attr =>
      mkClasses attr (step c) (patcher_cache c)
  | LRScheduler_step attr =>
      mkClasses (__getitem__ c) attr (patcher_cache c)
  end.

(** [for module, key, attr in IpuDynamicPatcher.patcher_cache:
       setattr(module, key, attr)] *)
Definition release_patch (c : Classes) : Classes :=
  foldl setattr c (patcher_cache c).
End IpuDynamicPatcher_registry.

(** ** IpuCompiledProgram: the constructor with its defaults *)

(** What the constructor is handed as [program]. *)
Inductive ProgramArg : Type :=
  | ArgProgram (program : Program)
  | ArgOther (type_repr : string).

Section IpuCompiledProgram_constructor.
Context `{NativeCore} `{IpuPasses}.
Import IpuCompiledProgram.

(** [default_main_program] is [framework.default_main_program()],
    [global_scope] is [paddle.static.global_scope()] and [new_strategy]
    is what [IpuStrategy()] gives. *)
Definition IpuCompiledProgram___init__ (default_main_program : Program)
    (global_scope : Scope) (new_strategy : outcome IpuStrategy.t)
    (program : option ProgramArg) (scope : option Scope)
    (ipu_strategy : option IpuStrategy.t) (b : Backend) : outcome World :=
  if negb is_compiled_with_ipu then
    Raises (ValueError
      "Can not use this function since PaddlePaddle is not compiled with IPU")
  else
    match default (ArgProgram default_main_program) program with
    | ArgOther type_repr =>
        Raises (TypeError
          ("The type of program is wrong, expected Program, but got "
           ++ type_repr))
    | ArgProgram program =>
        let scope := default global_scope scope in
        match
          match ipu_strategy with
          | Some s => Returns s
          | None => new_strategy
          end
        with
        | Raises e => Raises e
        | Returns self_ipu_strategy =>
            (* [ipu_strategy.has_custom_ops]: the argument, not the attribute *)
            match ipu_strategy with
            | None =>
                Raises (AttributeError
                  "'NoneType' object has no attribute 'has_custom_ops'")
            | Some ipu_strategy =>
                let custom_op_names :=
                  if IpuStrategy.has_custom_ops ipu_strategy
                  then list_to_set (IpuStrategy.custom_op_names ipu_strategy)
                  else ∅ in
                Returns (mkWorld (mk program false scope custom_op_names None)
                           self_ipu_strategy b)
            end
        end
    end.
End IpuCompiledProgram_constructor.

(** ** Stand-ins for the collaborators

    Small executable collaborators, used to run the code above on
    concrete inputs. *)

Global Instance Place_eq_dec : EqDecision Place.
Proof. solve_decision. Defined.

Module Sample.
Definition var_node (name : string) (persistable : bool) (type : VarType)
    : Node :=
  mkNode name true (Some (mkVarDesc persistable type)).

(** A graph with a variable node for each variable of the global block
    and a program with a variable for each node: enough for a round trip. *)
Definition graph_of (p : Program) : Graph :=
  mkGraph ((λ kv, var_node kv.1 false LOD_TENSOR)
             <$> map_to_list (vars (global_block p))).
Definition program_of (g : Graph) : Program :=
  mkProgram
    (mkBlock [] (list_to_map ((λ n, (name n, mkVariable true None None))
                                <$> nodes g)))
    [] 0 false 0 false None None.

Definition build_strategy : BuildStrategy :=
  mkBuildStrategy 1 [] 1 false 0 AllReduce true.

Definition native : NativeCore := {|
  Executor := unit;
  InferConfig := unit;
  Graph_of_desc := graph_of;
  Place_equals := λ p q, bool_decide (p = q);
  Place_set_place := λ p,
    match p with
    | Some p => Returns p
    | None => Raises (TypeError "set_place(): incompatible function arguments")
    end;
  BuildStrategy_new := build_strategy;
  is_cuda_graph_capturing := false;
  core_CompiledProgram := λ _ _ _ _ _ _ _, Returns tt;
  create_paddle_predictor := λ _, Returns tt;
  local_scopes := λ _, []
|}.

(** Modelled from the spec: the option store of the native strategy is
    not part of this file; "setOptions(bag) merges entries into the live
    configuration" and "getOption(name) fails if unknown". *)
Definition ipu_core : IpuCore := {|
  CoreIpuStrategy := gmap string OptionValue;
  core_set_options := λ options c, (Returns tt, options ∪ c);
  core_get_option := λ option c,
    match c !! option with
    | Some v => Returns v
    | None => Raises (NativeError ("unknown option " ++ option))
    end
|}.

Definition ipu_passes : @IpuPasses ipu_core := {|
  Backend := unit;
  is_compiled_with_ipu := true;
  backend_set_scope := λ _ b, b;
  backend_set_ipu_strategy := λ _ b, b;
  apply_pass := λ _ _, ret tt;
  graph_to_program := λ bg, (Returns (program_of bg.2), bg)
|}.

Definition block_xy : Block :=
  mkBlock [mkOperator "feed" false; mkOperator "scale" true;
           mkOperator "fetch" false]
    (<["x" := mkVariable true None None]>
     (<["y" := mkVariable true None None]> ∅)).
Definition program_xy : Program :=
  mkProgram block_xy [] 1 false 0 false None None.

Definition dy2static : Dy2Static := {|
  CacheKey := Z;
  ClassInstance := unit;
  PartialProgram := unit;
  ParamBase := unit;
  class_instance := λ _, None;
  hash := λ k, k;
  MAX_TRACED_PROGRAM_COUNT := 1;
  _build_once := λ _,
    Returns (mkConcreteProgram [Some "x"] ["y"] [] program_xy program_xy);
  partial_program_from := λ _ _, Returns tt;
  global_scope := ScopeRef 1;
  to_float16 := λ _, Returns tt;
  share_parameters := λ _ _, Returns tt;
  append_backward_desc := λ p, Returns p;
  copy_optimizer_parameters := λ _, Returns tt;
  cast_to_fp16 := λ p, Returns p
|}.

(** A strategy in its initial configuration: inference, one IPU. *)
Definition options : gmap string OptionValue :=
  <["is_training" := VBool false]>
  (<["enable_fp16" := VBool false]>
  (<["enable_manual_shard" := VBool false]>
  (<["num_ipus" := VInt 1]> ∅))).
Definition strategy (need_compile : bool) : @IpuStrategy.t ipu_core :=
  @IpuStrategy.mk ipu_core options false [] need_compile.

(** *** Sample inputs and runs *)

#[local] Existing Instance native.
#[local] Existing Instance ipu_core.
#[local] Existing Instance ipu_passes.
#[local] Existing Instance dy2static.

(** Duplicated and unordered persistable nodes, a RAW one, a
    non-persistable one, a distributed one and an operator node. *)
Definition graph_nodes : list Node :=
  [var_node "b" true LOD_TENSOR; var_node "a" true LOD_TENSOR;
   var_node "b" true LOD_TENSOR; var_node "r" true RAW;
   var_node "t" false LOD_TENSOR; var_node "d" true LOD_TENSOR;
   mkNode "op" false None].
Definition program_ad : Program :=
  mkProgram (mkBlock [] (<["d" := mkVariable true None (Some true)]>
                         (<["a" := mkVariable true None None]> ∅)))
    [] 1 false 0 false None None.
Definition from_program : CompiledProgram.State :=
  CompiledProgram.mkState
    (CompiledProgram.fresh (mkGraph graph_nodes) (Some program_ad) None) [].
Abbreviation from_program_run :=
  (CompiledProgram._compile_data_parallel [Some CPUPlace] CPU
     (Some (ScopeRef 1)) from_program).

(** A CompiledProgram made from a raw Graph with one persistable node. *)
Definition node_w : Node := var_node "w" true LOD_TENSOR.
Definition from_graph : CompiledProgram.State :=
  CompiledProgram.mkState
    (CompiledProgram.fresh (mkGraph [node_w]) None None) [].
Abbreviation from_graph_run :=
  (CompiledProgram._compile_data_parallel [Some CPUPlace] CPU
     (Some (ScopeRef 1)) from_graph).

(** The same object after its first compilation, with scope 1 on the CPU. *)
Definition compiled : CompiledProgram.State :=
  (CompiledProgram._compile (Some (ScopeRef 1)) (Some CPUPlace) from_graph).2.


(** A strategy with manual sharding on, reached through the code. *)
Definition sharded : IpuStrategy.t :=
  (IpuStrategy.set_graph_config 2 true 1 true (strategy false)).2.

(** Whether [o] returned, and its value when it did ([d] when it raised). *)
Definition is_returns {A} (o : outcome A) : bool :=
  match o with
  | Returns _ => true
  | Raises _ => false
  end.
Definition returned {A} (d : A) (o : outcome A) : A :=
  match o with
  | Returns a => a
  | Raises _ => d
  end.

(** A program with a feed, a scale and a fetch operator over [x] and
    [y], next to a strategy that asks for compilation. *)
Definition ipu_world : IpuCompiledProgram.World :=
  IpuCompiledProgram.mkWorld
    (IpuCompiledProgram.mk program_xy false (ScopeRef 1) ∅ None)
    (strategy true) tt.
Abbreviation ipu_run := (IpuCompiledProgram.compile ["x"] ["y"] ipu_world).
Abbreviation ipu_program := (returned program_xy ipu_run.1).

(** An empty cache next to a strategy that asks for compilation; the
    ceiling of the sample is one entry. Then fingerprints 7, 7 and 8. *)
Definition empty_cache : IpuDynamicPatcher.World :=
  IpuDynamicPatcher.mkWorld (IpuDynamicPatcher.mkCache ∅ None)
    (strategy true) tt [].
Definition no_entry : ConcreteProgram unit * unit :=
  (mkConcreteProgram [] [] [] program_xy program_xy, tt).
Abbreviation first_7 :=
  (IpuDynamicPatcher.patch_getter (IpuDynamicPatcher.ItemKey 7) empty_cache).
Abbreviation second_7 :=
  (IpuDynamicPatcher.patch_getter (IpuDynamicPatcher.ItemKey 7) first_7.2).
Abbreviation build_8 :=
  (IpuDynamicPatcher.build 8 (IpuDynamicPatcher.pre_build 8 second_7.2)).
Abbreviation first_8 :=
  (IpuDynamicPatcher.patch_getter (IpuDynamicPatcher.ItemKey 8) second_7.2).
Abbreviation entry_xy := (returned no_entry first_7.1).

(** The native core in the middle of a CUDA graph capture. *)
Definition capturing : NativeCore := {|
  Executor := unit;
  InferConfig := unit;
  Graph_of_desc := graph_of;
  Place_equals := λ p q, bool_decide (p = q);
  Place_set_place := λ p,
    match p with
    | Some p => Returns p
    | None => Raises (TypeError "set_place(): incompatible function arguments")
    end;
  BuildStrategy_new := build_strategy;
  is_cuda_graph_capturing := true;
  core_CompiledProgram := λ _ _ _ _ _ _ _, Returns tt;
  create_paddle_predictor := λ _, Returns tt;
  local_scopes := λ _, []
|}.

(** One CPU, no accelerator; a place's type is its kind. *)
Definition place_lists : PlaceLists := {|
  Place_type := λ p,
    match p with
    | CPUPlace => 0
    | CUDAPlace _ => 1
    | XPUPlace _ => 2
    | CustomPlace _ _ => 3
    end;
  cuda_places := Returns [];
  xpu_places := Returns [];
  cpu_places := Returns [CPUPlace]
|}.

(** A first compilation that fails: no scope is given. *)
Abbreviation failed_run :=
  (CompiledProgram._compile None (Some CPUPlace) from_graph).

(** [o]'s exception when it raised. *)
Definition raised {A} (o : outcome A) : PyExc :=
  match o with
  | Returns _ => NativeError ""
  | Raises e => e
  end.

(** The raw-graph object again, next to the capturing core. *)
Definition capturing_graph : @CompiledProgram.State capturing :=
  @CompiledProgram.mkState capturing
    (@CompiledProgram.fresh capturing (mkGraph [node_w]) None None) [].

(** The raw-graph object switched to inference. *)
Abbreviation inference_run :=
  (_with_inference_optimize (NativeConfig (tt : @InferConfig native))
     from_graph).

(** The traced sample program, with [x] as its one input, converted
    for an empty cache. *)
Definition concrete_xy : ConcreteProgram unit :=
  mkConcreteProgram [Some "x"] ["y"] [] program_xy program_xy.
Abbreviation convert_run :=
  (IpuDynamicPatcher.convert_concrete_program concrete_xy None empty_cache).
End Sample.

(** * Properties *)

(** ** The monad *)

Lemma bind_returns {S A B} (m : Py S A) (k : A → Py S B) s b s' :
  bind m k s = (Returns b, s') →
  ∃ a s1, m s = (Returns a, s1) ∧ k a s1 = (Returns b, s').
Proof.
  unfold bind. destruct (m s) as [[a|e] s1]; [eauto | discriminate].
Qed.

Lemma bind_step {S A B} (m : Py S A) (k : A → Py S B) s a s1 :
  m s = (Returns a, s1) → bind m k s = k a s1.
Proof. unfold bind. by intros ->. Qed.

Lemma bind_raises {S A B} (m : Py S A) (k : A → Py S B) s e s1 :
  m s = (Raises e, s1) → bind m k s = (Raises e, s1).
Proof. unfold bind. by intros ->. Qed.

Lemma for_each_app {S A} (xs ys : list A) (body : A → Py S unit) s :
  for_each (xs ++ ys) body s = (for_each xs body ;;; for_each ys body) s.
Proof.
  revert s. induction xs as [|x xs IH]; intros s; simpl.
  - done.
  - unfold bind in *. destruct (body x s) as [[[]|e] s1]; [apply IH | done].
Qed.

(** ** Pruning operators by index *)

Lemma op_indices_S p i l : op_indices p (S i) l = S <$> op_indices p i l.
Proof.
  revert i. induction l as [|op l IH]; intros i; simpl; [done|].
  destruct (p op); simpl; by rewrite IH.
Qed.

Lemma remove_ops_at_shift idx x l vs :
  remove_ops_at (S <$> idx) (mkBlock (x :: l) vs) =
  match remove_ops_at idx (mkBlock l vs) with
  | (r, b) => (r, mkBlock (x :: ops b) (vars b))
  end.
Proof.
  revert l. induction idx as [|i idx IH]; intros l; [done|].
  unfold remove_ops_at in *. simpl. unfold bind, _remove_op. simpl.
  destruct (decide (i < length l)%nat), (decide (S i < S (length l))%nat);
    try lia; [apply IH | done].
Qed.

Lemma remove_ops_at_indices p l vs :
  remove_ops_at (reverse (op_indices p 0 l)) (mkBlock l vs) =
  (Returns tt, mkBlock (filter (λ op, ¬ p op) l) vs).
Proof.
  induction l as [|x l IH]; [done|].
  simpl. rewrite op_indices_S. destruct (p x) eqn:Hx.
  - rewrite reverse_cons, <- fmap_reverse. unfold remove_ops_at.
    rewrite for_each_app. fold (remove_ops_at (S <$> reverse (op_indices p 0 l))).
    erewrite bind_step; last by rewrite remove_ops_at_shift, IH.
    rewrite filter_cons_False by (rewrite Hx; auto). done.
  - rewrite <- fmap_reverse, remove_ops_at_shift, IH.
    rewrite filter_cons_True by (rewrite Hx; auto). done.
Qed.

Lemma _prune_feed_ops_filter (program : Program) :
  _prune_feed_ops program =
  (Returns tt,
   with_global_block
     (mkBlock (filter (λ op, op_type op ≠ "feed") (ops (global_block program)))
              (vars (global_block program)))
     program).
Proof.
  unfold _prune_feed_ops. destruct (global_block program) as [l vs] eqn:Hb.
  simpl. rewrite remove_ops_at_indices. do 3 f_equal.
  apply list_filter_iff. intros op. unfold is_feed.
  rewrite bool_decide_spec. tauto.
Qed.

Section CompiledProgram_init.
Context `{NativeCore}.
Import CompiledProgram.

(** C7. The constructor adopts a Graph as it is: the object's graph is
    that graph, and it keeps no program. From a Program it first removes
    every operator of type "feed" from the global block, the others
    staying in their order and everything else of the program as it
    was, keeps the pruned program and builds the object's graph from
    it. Either way the object starts out not compiled, not in inference
    mode, with the build strategy handed in and with no scope, place,
    executor, places or shared program. An object of any other type
    raises a TypeError whose message ends with the type received. *)
Theorem init_by_input_kind (build_strategy : option BuildStrategy) :
  let initial (o : t) :=
    _build_strategy o = build_strategy ∧
    _compiled o = false ∧ _is_inference o = false ∧
    _scope o = None ∧ _place o = None ∧ _executor o = None ∧
    _places o = None ∧ _share_vars_from o = None in
  (∀ g, ∃ o,
     __init__ (PyGraph g) build_strategy = Returns o ∧
     _graph o = g ∧ _program o = None ∧ initial o ∧
     o = fresh g None build_strategy) ∧
  (∀ p, ∃ o pruned,
     __init__ (PyProgram p) build_strategy = Returns o ∧
     _program o = Some pruned ∧
     _graph o = Graph_of_desc pruned ∧
     ops (global_block pruned)
     = filter (λ op, op_type op ≠ "feed") (ops (global_block p)) ∧
     vars (global_block pruned) = vars (global_block p) ∧
     _trainers_endpoints pruned = _trainers_endpoints p ∧
     _nccl_comm_num pruned = _nccl_comm_num p ∧
     _use_hierarchical_allreduce pruned = _use_hierarchical_allreduce p ∧
     _hierarchical_allreduce_inter_nranks pruned
     = _hierarchical_allreduce_inter_nranks p ∧
     _enable_dgc pruned = _enable_dgc p ∧
     lr_scheduler pruned = lr_scheduler p ∧
     org_program pruned = org_program p ∧
     initial o ∧
     pruned
     = with_global_block
         (mkBlock (filter (λ op, op_type op ≠ "feed") (ops (global_block p)))
                  (vars (global_block p))) p ∧
     o = fresh (Graph_of_desc pruned) (Some pruned) build_strategy) ∧
  (∀ type_repr,
     __init__ (PyOther type_repr) build_strategy
     = Raises (TypeError
         ("The type of program_to_graph parameter is wrong, expected Graph or Program, but received "
          ++ type_repr))).
Proof.
  intros initial. subst initial. split; [|split].
  - intros g. eexists. split; [reflexivity|]. repeat split; reflexivity.
  - intros p. unfold __init__. rewrite _prune_feed_ops_filter.
    eexists _, _. split; [reflexivity|]. repeat split; reflexivity.
  - intros type_repr. reflexivity.
Qed.
End CompiledProgram_init.

(** ** The persistable-variable list *)

Global Instance str_le_total : Total str_le.
Proof. intros a b. apply String.leb_total. Qed.

Ltac bind_inv H :=
  let a := fresh "a" in
  let s := fresh "s" in
  let Hm := fresh "Hm" in
  apply bind_returns in H as (a & s & Hm & H).

Section CompiledProgram_persistable.
Context `{NativeCore}.
Import CompiledProgram.

Lemma scan_persistable_elem program ns acc n :
  n ∈ scan_persistable program ns acc ↔
  n ∈ acc ∨
  ∃ prog node, program = Some prog ∧ node ∈ ns ∧ name node = n ∧
    persistable_node node ∧
    _should_broadcast_or_not_exists prog n = true.
Proof.
  revert acc. induction ns as [|node ns IH]; intros acc; simpl.
  - split; [auto|]. intros [?|(?&?&?&Hin&?)]; [done|]. by apply elem_of_nil in Hin.
  - assert (Hrest : ∀ acc',
      (n ∈ acc' ↔ n ∈ acc) →
      ¬ (∃ prog, program = Some prog ∧ name node = n ∧ persistable_node node
           ∧ _should_broadcast_or_not_exists prog n = true) →
      n ∈ scan_persistable program ns acc' ↔
      n ∈ acc ∨
      ∃ prog node0, program = Some prog ∧ node0 ∈ node :: ns ∧ name node0 = n ∧
        persistable_node node0 ∧
        _should_broadcast_or_not_exists prog n = true).
    { intros acc' Hacc Hno. rewrite IH, Hacc. split.
      - intros [?|(prog&node0&?&?&?)]; [auto|].
        right. exists prog, node0. rewrite elem_of_cons. tauto.
      - intros [?|(prog&node0&?&[->|?]%elem_of_cons&?&?&?)]; [auto| |].
        + exfalso. apply Hno. eauto.
        + right. eauto 10. }
    destruct (is_var node) eqn:Hv; simpl.
    2:{ apply Hrest; [done|]. intros (?&?&?&[? ?]&?). congruence. }
    destruct (var node) as [v|] eqn:Hvar.
    2:{ apply Hrest; [done|]. intros (?&?&?&[? (?&?&?)]&?). congruence. }
    destruct (persistable v) eqn:Hp; simpl.
    2:{ apply Hrest; [done|]. intros (?&?&?&[? (?&?&?&?)]&?). congruence. }
    case_bool_decide as Hty; simpl.
    2:{ apply Hrest; [done|]. intros (?&?&?&[? (?&?&?&?)]&?).
        simplify_eq; tauto. }
    destruct program as [prog|].
    2:{ apply Hrest; [done|]. intros (?&?&?). congruence. }
    destruct (_should_broadcast_or_not_exists prog (name node)) eqn:Hb.
    2:{ apply Hrest; [done|]. intros (?&?&?&?&?). simplify_eq. congruence. }
    rewrite IH, elem_of_app, list_elem_of_singleton. split.
    + intros [[?| ->]|(prog'&node0&?&?&?)]; [auto| |].
      * right. exists prog, node. rewrite elem_of_cons.
        repeat split; eauto.
      * right. exists prog', node0. rewrite elem_of_cons. tauto.
    + intros [?|(prog'&node0&?&[->|?]%elem_of_cons&?&?&?)]; [auto|auto|].
      right. eauto 10.
Qed.

Lemma list_of_set_elem xs n : n ∈ list_of_set xs ↔ n ∈ xs.
Proof. unfold list_of_set. set_solver. Qed.

Lemma list_of_set_NoDup xs : NoDup (list_of_set xs).
Proof. unfold list_of_set. apply NoDup_elements. Qed.

Lemma sort_Permutation xs : sort xs ≡ₚ xs.
Proof. apply merge_sort_Permutation. Qed.

Lemma sort_Sorted xs : Sorted str_le (sort xs).
Proof. apply (Sorted_merge_sort str_le). Qed.

Lemma _compile_data_parallel_list places use_device scope st ex st' :
  _compile_data_parallel places use_device scope st = (Returns ex, st') →
  _persistable_vars (self st') = persistable_list (self st).
Proof.
  unfold _compile_data_parallel. intros Hrun.
  bind_inv Hrun. injection Hm as <- <-.
  do 6 (bind_inv Hrun; clear Hm).
  bind_inv Hrun. injection Hm as _ <-.
  bind_inv Hrun. injection Hm as _ <-.
  bind_inv Hrun. injection Hm as _ <-.
  bind_inv Hrun. injection Hm as _ <-.
  bind_inv Hrun. destruct is_cuda_graph_capturing; [discriminate|].
  injection Hm as _ <-.
  bind_inv Hrun. injection Hm as <- <-.
  bind_inv Hrun. unfold get_build_strategy in Hm.
  bind_inv Hm. injection Hm0 as <- <-.
  destruct (_build_strategy _); [|discriminate]. injection Hm as _ <-.
  bind_inv Hrun. injection Hm as _ <-.
  injection Hrun as _ <-. done.
Qed.
End CompiledProgram_persistable.

Section CompiledProgram_persistable_claim.
Context `{NativeCore}.
Import CompiledProgram.

(** C3 (as amended). When the data-parallel compilation of a
    CompiledProgram returns, the persistable-variable list it built has no
    duplicates and is in ascending name order; for a CompiledProgram made
    from a Program it holds exactly the names of the graph's variable
    nodes that are persistable and not RAW-typed and that the
    broadcast-exemption predicate, asked of that program, does not mark
    as distributed; for one made from a raw Graph (no program) it is
    empty. *)
Theorem persistable_vars_sorted_distinct places use_device scope st ex st' :
  _compile_data_parallel places use_device scope st = (Returns ex, st') →
  let names := _persistable_vars (self st') in
  NoDup names ∧ Sorted str_le names ∧
  (∀ n, n ∈ names ↔
     ∃ program node,
       _program (self st) = Some program ∧
       node ∈ nodes (_graph (self st)) ∧ name node = n ∧
       persistable_node node ∧
       _should_broadcast_or_not_exists program n = true) ∧
  (_program (self st) = None → names = []).
Proof.
  intros Hrun names. subst names.
  rewrite (_compile_data_parallel_list _ _ _ _ _ _ Hrun).
  unfold persistable_list.
  assert (Helem : ∀ n,
    n ∈ sort (list_of_set
                (scan_persistable (_program (self st)) (nodes (_graph (self st))) []))
    ↔ ∃ program node,
        _program (self st) = Some program ∧
        node ∈ nodes (_graph (self st)) ∧ name node = n ∧
        persistable_node node ∧
        _should_broadcast_or_not_exists program n = true).
  { intros n. rewrite sort_Permutation, list_of_set_elem, scan_persistable_elem.
    split; [intros [Hnil|?]; [by apply elem_of_nil in Hnil | done] | auto]. }
  split; [|split; [|split]].
  - rewrite sort_Permutation. apply list_of_set_NoDup.
  - apply sort_Sorted.
  - exact Helem.
  - intros Hnone. apply elem_of_nil_inv. intros n Hn.
    apply Helem in Hn as (program & _ & Hsome & _). congruence.
Qed.
End CompiledProgram_persistable_claim.

(** ** Compiling a second time *)

Section CompiledProgram_compile_again.
Context `{NativeCore}.
Import CompiledProgram.

(** C4 (as amended). On a CompiledProgram already compiled with scope S
    and place P: a call whose scope is S (or None) and whose place is
    equal to P (or None) returns the object itself, nothing changed and
    nothing compiled; a call with a scope that is given and differs from
    S raises ValueError; a call that passes the scope test with a place
    that is given and not equal to P raises an error; in both cases the
    object stays as it was. *)
Theorem compile_again scope place st :
  _compiled (self st) = true →
  ((scope = _scope (self st) ∨ scope = None) →
   (place = None ∨
    ∃ own p, _place (self st) = Some own ∧ place = Some p
             ∧ Place_equals own p = true) →
   _compile scope place st = (Returns (self st), st)) ∧
  (∀ s, scope = Some s → _scope (self st) ≠ Some s →
     _compile scope place st
     = (Raises (ValueError "Cannot compile program with different scope."), st)) ∧
  (∀ p, (scope = _scope (self st) ∨ scope = None) → place = Some p →
     (∀ own, _place (self st) = Some own → Place_equals own p = false) →
     ∃ e, _compile scope place st = (Raises e, st)).
Proof.
  intros Hc.
  assert (Hscope : scope = _scope (self st) ∨ scope = None →
    bool_decide (is_Some scope) && bool_decide (_scope (self st) ≠ scope) = false).
  { intros [->| ->].
    - rewrite (bool_decide_eq_false_2 (_ ≠ _)) by tauto. apply andb_false_r.
    - rewrite (bool_decide_eq_false_2 (is_Some None)); [done|].
      by intros [? ?]. }
  unfold _compile, bind, gets, upd, modify, raise, ret. rewrite Hc.
  split; [|split].
  - intros Hs Hp. rewrite (Hscope Hs).
    destruct Hp as [->|(own & p & -> & -> & ->)]; by destruct st.
  - intros s -> Hne.
    rewrite (bool_decide_eq_true_2 (is_Some (Some s))) by eauto.
    rewrite (bool_decide_eq_true_2 (_ ≠ _)) by done. by destruct st.
  - intros p Hs -> Hown. rewrite (Hscope Hs).
    destruct (_place (self st)) as [own|] eqn:Hplace.
    + rewrite (Hown own eq_refl). simpl. destruct st. eauto.
    + destruct st. eauto.
Qed.
End CompiledProgram_compile_again.

(** ** IpuStrategy: the recompile flag and the structural guards *)

Section IpuStrategy_props.
Context `{IpuCore}.
Import IpuStrategy.

Lemma on_core_need_compile {A} (m : Py CoreIpuStrategy A) o r o' :
  on_core m o = (r, o') → need_compile o' = need_compile o.
Proof.
  unfold on_core. destruct (m (_ipu_strategy o)) as [r' c].
  by intros [= _ <-].
Qed.


(** A call the native strategy rejects leaves the flag alone. *)
Lemma set_options_raises options o e o' :
  set_options options o = (Raises e, o') → need_compile o' = need_compile o.
Proof.
  unfold set_options, bind. intros Hrun.
  destruct (on_core (core_set_options options) o) as [[[]|e'] o1] eqn:Hcore.
  - case_bool_decide; discriminate.
  - injection Hrun as _ <-. by apply on_core_need_compile in Hcore.
Qed.

Lemma set_graph_config_guard num_ipus is_training micro_batch_size
    enable_manual_shard o :
  set_graph_config num_ipus is_training micro_batch_size enable_manual_shard o
  = if bool_decide (num_ipus = 1) && enable_manual_shard
    then (Raises (RuntimeError
            "Only if num_ipus > 1, enable_manual_shard is able to be set True."),
          o)
    else set_options
           (graph_options num_ipus is_training micro_batch_size
              enable_manual_shard) o.
Proof.
  unfold set_graph_config.
  by destruct (bool_decide (num_ipus = 1) && enable_manual_shard).
Qed.

(** Where the guard does what the docstring says: with manual sharding
    asked for and one IPU the call raises and sets nothing; without
    manual sharding, or with more than one IPU, the four options go to
    [set_options]. *)
Lemma set_graph_config_in_range num_ipus is_training micro_batch_size
    enable_manual_shard o :
  (num_ipus = 1 → enable_manual_shard = true →
   set_graph_config num_ipus is_training micro_batch_size enable_manual_shard o
   = (Raises (RuntimeError
        "Only if num_ipus > 1, enable_manual_shard is able to be set True."),
      o)) ∧
  (enable_manual_shard = false ∨ 1 < num_ipus →
   set_graph_config num_ipus is_training micro_batch_size enable_manual_shard o
   = set_options
       (graph_options num_ipus is_training micro_batch_size
          enable_manual_shard) o).
Proof.
  rewrite set_graph_config_guard. split.
  - intros -> ->. done.
  - intros [-> | Hgt].
    + by rewrite andb_false_r.
    + rewrite bool_decide_eq_false_2 by lia. done.
Qed.

Lemma set_graph_config_below_one num_ipus is_training micro_batch_size o :
  num_ipus < 1 →
  set_graph_config num_ipus is_training micro_batch_size true o
  = set_options (graph_options num_ipus is_training micro_batch_size true) o.
Proof.
  intros Hlt. rewrite set_graph_config_guard.
  rewrite bool_decide_eq_false_2 by lia. done.
Qed.

(** C5, where the code departs from it: with zero IPUs and manual
    sharding asked for, the guard does not fire, and the four options,
    enable_manual_shard=True among them, go to [set_options]. *)
Theorem set_graph_config_zero_ipus is_training micro_batch_size o :
  set_graph_config 0 is_training micro_batch_size true o
  = set_options (graph_options 0 is_training micro_batch_size true) o
  ∧ graph_options 0 is_training micro_batch_size true
      !! "enable_manual_shard" = Some (VBool true)
  ∧ graph_options 0 is_training micro_batch_size true
      !! "num_ipus" = Some (VInt 0).
Proof. split; [by apply set_graph_config_below_one | done]. Qed.

(** C6. With the current enable_manual_shard option false, asking for
    pipelining raises and leaves the strategy as it was; with it true,
    or when pipelining is not asked for, the call is [set_options] on a
    bag with exactly the four pipelining keys, each bound to the value
    of the argument of that name. *)
Theorem set_pipelining_config_guard enable_pipelining batches_per_step
    enable_gradient_accumulation accumulation_factor o v :
  core_get_option "enable_manual_shard" (_ipu_strategy o) = Returns v →
  (truthy v = false → enable_pipelining = true →
   set_pipelining_config enable_pipelining batches_per_step
     enable_gradient_accumulation accumulation_factor o
   = (Raises (RuntimeError
        "Only if enable_manual_shard=True, enable_pipelining is able to be set True."),
      o)) ∧
  (truthy v = true ∨ enable_pipelining = false →
   set_pipelining_config enable_pipelining batches_per_step
     enable_gradient_accumulation accumulation_factor o
   = set_options
       (pipelining_options enable_pipelining batches_per_step
          enable_gradient_accumulation accumulation_factor) o) ∧
  dom (pipelining_options enable_pipelining batches_per_step
         enable_gradient_accumulation accumulation_factor)
  = {["enable_pipelining"; "batches_per_step";
      "enable_gradient_accumulation"; "accumulation_factor"]} ∧
  pipelining_options enable_pipelining batches_per_step
    enable_gradient_accumulation accumulation_factor
    !! "enable_pipelining" = Some (VBool enable_pipelining) ∧
  pipelining_options enable_pipelining batches_per_step
    enable_gradient_accumulation accumulation_factor
    !! "batches_per_step" = Some (VInt batches_per_step) ∧
  pipelining_options enable_pipelining batches_per_step
    enable_gradient_accumulation accumulation_factor
    !! "enable_gradient_accumulation"
  = Some (VBool enable_gradient_accumulation) ∧
  pipelining_options enable_pipelining batches_per_step
    enable_gradient_accumulation accumulation_factor
    !! "accumulation_factor" = Some (VInt accumulation_factor).
Proof.
  intros Hget.
  unfold set_pipelining_config, get_option, bind, get, lift. rewrite Hget.
  split; [|split; [|split]].
  - intros -> ->. done.
  - intros [-> | ->]; [done | by rewrite andb_false_r].
  - unfold pipelining_options. rewrite !dom_insert_L, dom_empty_L. set_solver.
  - unfold pipelining_options.
    split; [apply lookup_insert_eq|].
    split; [rewrite lookup_insert_ne by done; apply lookup_insert_eq|].
    split; rewrite !lookup_insert_ne by done; apply lookup_insert_eq.
Qed.
End IpuStrategy_props.

(** ** IpuCompiledProgram.compile *)

Lemma clear_need_check_feed_keeps feed_list b b' n :
  clear_need_check_feed feed_list b = Returns b' →
  (∃ v, vars b !! n = Some v ∧ need_check_feed v = false) →
  ∃ v, vars b' !! n = Some v ∧ need_check_feed v = false.
Proof.
  revert b. induction feed_list as [|feed_name feed_list IH]; intros b; simpl.
  - by intros [= <-].
  - unfold Block_var. destruct (vars b !! feed_name) as [feed_var|] eqn:Hvar;
      [|discriminate].
    intros Hrest Hn. apply (IH _ Hrest). simpl.
    destruct (decide (feed_name = n)) as [->|Hne].
    + rewrite lookup_insert_eq. eauto.
    + by rewrite lookup_insert_ne.
Qed.

Lemma clear_need_check_feed_clears feed_list b b' n :
  clear_need_check_feed feed_list b = Returns b' →
  n ∈ feed_list →
  ∃ v, vars b' !! n = Some v ∧ need_check_feed v = false.
Proof.
  revert b. induction feed_list as [|feed_name feed_list IH]; intros b; simpl.
  - intros _ Hin. by apply elem_of_nil in Hin.
  - unfold Block_var. destruct (vars b !! feed_name) as [feed_var|] eqn:Hvar;
      [|discriminate].
    intros Hrest [->|Hin]%elem_of_cons.
    + apply (clear_need_check_feed_keeps _ _ _ _ Hrest). simpl.
      rewrite lookup_insert_eq. eauto.
    + by apply (IH _ Hrest).
Qed.

Section IpuCompiledProgram_props.
Context `{NativeCore} `{IpuPasses}.
Import IpuCompiledProgram.

(** What a returning [compile] ends with: the feed loop on the converted
    program, then the flag. *)
Lemma compile_returns feed_list fetch_list w program w' :
  compile feed_list fetch_list w = (Returns program, w') →
  IpuStrategy.need_compile (strategy w') = false ∧
  ∃ converted program_global_block,
    clear_need_check_feed feed_list (global_block converted)
    = Returns program_global_block ∧
    global_block program = program_global_block.
Proof.
  unfold compile. intros Hrun.
  do 12 (bind_inv Hrun; clear Hm).
  bind_inv Hrun. clear Hm.
  bind_inv Hrun. injection Hm as Hclear <-.
  bind_inv Hrun. clear Hm.
  bind_inv Hrun. unfold on_strategy, modify in Hm. injection Hm as _ <-.
  injection Hrun as <- <-. split; [done|].
  eexists. eexists. split; [exact Hclear|].
  by destruct (org_program _).
Qed.

(** C9. When [compile] returns a program, the strategy's need_compile
    flag is false. *)
Theorem compile_resets_need_compile feed_list fetch_list w program w' :
  compile feed_list fetch_list w = (Returns program, w') →
  IpuStrategy.need_compile (strategy w') = false.
Proof. intros Hrun. by apply compile_returns in Hrun as [? _]. Qed.

(** C10. When [compile] returns a program, each name of feed_list names
    a variable of the program's global block, and the variable under
    such a name has need_check_feed false. *)
Theorem compile_clears_need_check_feed feed_list fetch_list w program w' :
  compile feed_list fetch_list w = (Returns program, w') →
  ∀ feed_name, feed_name ∈ feed_list →
    is_Some (vars (global_block program) !! feed_name) ∧
    ∀ v, vars (global_block program) !! feed_name = Some v →
         need_check_feed v = false.
Proof.
  intros Hrun feed_name Hin.
  apply compile_returns in Hrun as (_ & converted & b & Hclear & ->).
  destruct (clear_need_check_feed_clears _ _ _ _ Hclear Hin) as (v & Hv & Hflag).
  split; [eauto|]. intros v' Hv'. congruence.
Qed.
End IpuCompiledProgram_props.

(** ** The patched program cache *)

Lemma builds_app es1 es2 : builds (es1 ++ es2) = (builds es1 + builds es2)%nat.
Proof.
  induction es1 as [|e es1 IH]; [done|]. destruct e; simpl; by rewrite ?IH.
Qed.

Section IpuDynamicPatcher_props.
Context `{NativeCore} `{IpuPasses} `{Dy2Static}.
Import IpuDynamicPatcher.

Lemma frames_bind {A B} (m : Py World A) (k : A → Py World B) :
  frames m → (∀ a, frames (k a)) → frames (bind m k).
Proof.
  intros Hm Hk w r w'. unfold bind.
  destruct (m w) as [[a|e] w1] eqn:Hmw.
  - intros Hkw. destruct (Hm _ _ _ Hmw) as [<- <-]. by eapply Hk.
  - intros [= <- <-]. by eapply Hm.
Qed.
Lemma frames_ret {A} (a : A) : frames (ret a).
Proof. by intros w r w' [= <- <-]. Qed.
Lemma frames_lift {A} (o : outcome A) : frames (lift o).
Proof. by intros w r w' [= <- <-]. Qed.
Lemma frames_on_strategy {A} (m : Py IpuStrategy.t A) : frames (on_strategy m).
Proof.
  intros w r w'. unfold on_strategy.
  destruct (m (ipu_strategy w)) as [r' s]. by intros [= <- <-].
Qed.
Lemma frames_ipu_compile program scope feed_list fetch_list :
  frames (ipu_compile program scope feed_list fetch_list).
Proof.
  intros w r w'. unfold ipu_compile.
  destruct (IpuCompiledProgram.__init__ _ _ _ _ _) as [iw|e].
  - destruct (IpuCompiledProgram.compile _ _ _) as [r' iw'].
    by intros [= <- <-].
  - by intros [= <- <-].
Qed.

Lemma frames_convert_concrete_program concrete_program class_instance :
  frames (convert_concrete_program concrete_program class_instance).
Proof.
  unfold convert_concrete_program.
  repeat first
    [ apply frames_ret | apply frames_lift | apply frames_on_strategy
    | apply frames_ipu_compile
    | apply frames_bind; [|intros ?]
    | match goal with |- frames (if ?b then _ else _) => destruct b end ].
Qed.

Lemma build_frames item w r w' :
  build item w = (r, w') →
  cache w' = cache w ∧ events w' = (events w ++ [BuildOnce (hash item)])%list.
Proof.
  unfold build. unfold bind at 1. unfold emit at 1, modify. simpl.
  intros Hrest.
  assert (Hf : frames
    (let! concrete_program := lift (_build_once item) in
     let! concrete_program :=
       convert_concrete_program concrete_program (class_instance item) in
     let! partial_program :=
       lift (partial_program_from concrete_program
               (bool_decide (is_Some (class_instance item)))) in
     ret (concrete_program, partial_program))).
  { repeat first
      [ apply frames_ret | apply frames_lift
      | apply frames_convert_concrete_program
      | apply frames_bind; [|intros ?] ]. }
  by destruct (Hf _ _ _ Hrest) as [-> ->].
Qed.

Lemma patch_getter_hit item w entry :
  _caches (cache w) !! hash item = Some entry →
  IpuStrategy.need_compile (ipu_strategy w) = false →
  patch_getter (ItemKey item) w
  = (Returns entry,
     mkWorld (mkCache (_caches (cache w)) (Some (hash item)))
       (ipu_strategy w) (backend w) (events w)).
Proof.
  intros Hentry Hflag.
  unfold patch_getter, bind, on_cache, modify, get. simpl.
  rewrite Hflag, bool_decide_eq_false_2.
  - simpl. rewrite Hentry. done.
  - intros Hnot. apply Hnot, elem_of_dom. eauto.
Qed.

Lemma patch_getter_build item w :
  _caches (cache w) !! hash item = None
  ∨ IpuStrategy.need_compile (ipu_strategy w) = true →
  patch_getter (ItemKey item) w
  = match build item (pre_build item w) with
    | (Returns entry, w1) => (Returns entry, store item entry w1)
    | (Raises e, w1) => (Raises e, w1)
    end.
Proof.
  intros Hcase.
  assert (Hcond : bool_decide (hash item ∉ dom (_caches (cache w)))
                  || IpuStrategy.need_compile (ipu_strategy w) = true).
  { destruct Hcase as [Hnone| ->]; [|apply orb_true_r].
    rewrite bool_decide_eq_true_2; [done|]. by apply not_elem_of_dom. }
  unfold patch_getter. unfold bind at 1. unfold on_cache at 1, modify. simpl.
  unfold bind at 1, get at 1. simpl. rewrite Hcond.
  unfold bind at 1.
  assert (Hpre :
    (let! _ := if bool_decide (hash item ∈ dom (_caches (cache w)))
               then emit WarnStrategyChanged else ret tt in
     let! _ := if bool_decide (_caches (cache w) ≠ ∅)
                  && negb (IpuStrategy.need_compile (ipu_strategy w))
               then emit WarnMultipleCaches else ret tt in
     let! entry := build item in
     let! _ := on_cache (λ c, mkCache (<[hash item := entry]> (_caches c))
                                (_recent_key c)) in
     let! w0 := get in
     if bool_decide (MAX_TRACED_PROGRAM_COUNT < size (_caches (cache w0)))%nat
     then emit (WarnTooManyTraced (size (_caches (cache w0)))
                  MAX_TRACED_PROGRAM_COUNT)
     else ret tt)
      (mkWorld (mkCache (_caches (cache w)) (Some (hash item)))
         (ipu_strategy w) (backend w) (events w))
    = match build item (pre_build item w) with
      | (Returns entry, w1) => (Returns tt, store item entry w1)
      | (Raises e, w1) => (Raises e, w1)
      end).
  { clear Hcond Hcase.
    unfold pre_build, store, bind, emit, on_cache, modify, get, ret.
    destruct (bool_decide (hash item ∈ dom (_caches (cache w))));
      destruct (bool_decide (_caches (cache w) ≠ ∅)
                && negb (IpuStrategy.need_compile (ipu_strategy w)));
      simpl; rewrite ?app_nil_r;
      (destruct (build item _) as [[entry|e] w1]; [|done]);
      simpl;
      match goal with
      | |- context [bool_decide (?a < ?b)%nat] =>
          destruct (bool_decide (a < b)%nat)
      end; simpl; rewrite ?app_nil_r; done. }
  rewrite Hpre. destruct (build item (pre_build item w)) as [[entry|e] w1];
    [|done].
  unfold bind, get, store. simpl. by rewrite lookup_insert_eq.
Qed.
End IpuDynamicPatcher_props.

Section IpuDynamicPatcher_claims.
Context `{NativeCore} `{IpuPasses} `{Dy2Static}.
Import IpuDynamicPatcher.

Lemma builds_pre_build item w :
  builds (events (pre_build item w)) = builds (events w).
Proof.
  unfold pre_build. simpl. rewrite !builds_app.
  destruct (bool_decide _), (_ && _); simpl; lia.
Qed.

Lemma builds_store item entry w1 :
  builds (events (store item entry w1)) = builds (events w1).
Proof.
  unfold store. simpl. rewrite builds_app.
  destruct (bool_decide _); simpl; lia.
Qed.

(** C1. A lookup under a fingerprint that is cached, with need_compile
    false, returns the cached entry: nothing is built and the cache is
    as before. Any other lookup calls the build exactly once; when the
    build returns an entry, that entry is stored under the fingerprint
    and is what the lookup returns; when the build raises, the lookup
    raises the same and the cache is as before. *)
Theorem patch_getter_hit_or_build item w :
  (∀ entry,
     _caches (cache w) !! hash item = Some entry →
     IpuStrategy.need_compile (ipu_strategy w) = false →
     ∃ w', patch_getter (ItemKey item) w = (Returns entry, w') ∧
           _caches (cache w') = _caches (cache w) ∧
           events w' = events w) ∧
  (_caches (cache w) !! hash item = None
   ∨ IpuStrategy.need_compile (ipu_strategy w) = true →
   ∃ rb w1 r w',
     build item (pre_build item w) = (rb, w1) ∧
     patch_getter (ItemKey item) w = (r, w') ∧
     builds (events w') = S (builds (events w)) ∧
     match rb with
     | Returns entry =>
         r = Returns entry ∧
         _caches (cache w') = <[hash item := entry]> (_caches (cache w)) ∧
         _caches (cache w') !! hash item = Some entry
     | Raises e =>
         r = Raises e ∧ _caches (cache w') = _caches (cache w)
     end).
Proof.
  split.
  - intros entry Hentry Hflag. eexists. split; [by apply patch_getter_hit|].
    done.
  - intros Hcase. rewrite (patch_getter_build _ _ Hcase).
    destruct (build item (pre_build item w)) as [rb w1] eqn:Hbuild.
    destruct (build_frames _ _ _ _ Hbuild) as [Hcache Hevents].
    assert (Hcount : builds (events w1) = S (builds (events w))).
    { rewrite Hevents, builds_app, builds_pre_build. simpl. lia. }
    destruct rb as [entry|e].
    + exists (Returns entry), w1, (Returns entry), (store item entry w1).
      split; [done|]. split; [done|]. split; [by rewrite builds_store|].
      split; [done|]. unfold store. simpl. rewrite Hcache. simpl.
      split; [done | apply lookup_insert_eq].
    + exists (Raises e), w1, (Raises e), w1.
      repeat split; try done. by rewrite Hcache.
Qed.

Lemma patch_getter_dom item w :
  dom (_caches (cache w)) ⊆ dom (_caches (cache (patch_getter item w).2)).
Proof.
  destruct item as [item|type_name]; [|done].
  destruct (_caches (cache w) !! hash item) as [entry|] eqn:Hentry;
    [destruct (IpuStrategy.need_compile (ipu_strategy w)) eqn:Hflag|].
  2:{ by rewrite (patch_getter_hit _ _ _ Hentry Hflag). }
  all: rewrite patch_getter_build by auto.
  all: destruct (build item (pre_build item w)) as [[built|e] w1] eqn:Hbuild.
  all: destruct (build_frames _ _ _ _ Hbuild) as [Hcache _].
  all: simpl; rewrite Hcache; simpl; rewrite ?dom_insert_L.
  all: first [reflexivity | apply union_subseteq_r].
Qed.

(** C8. Over any sequence of lookups the set of cached fingerprints only
    grows; and when a build has returned its entry, the lookup returns
    that entry, now stored under the fingerprint, and if the cache then
    holds more entries than MAX_TRACED_PROGRAM_COUNT the warning with
    the count is the last thing logged. *)
Theorem cache_grows_and_warns :
  (∀ items w,
     dom (_caches (cache w)) ⊆ dom (_caches (cache (lookups items w)))) ∧
  (∀ item w entry w1,
     _caches (cache w) !! hash item = None
     ∨ IpuStrategy.need_compile (ipu_strategy w) = true →
     build item (pre_build item w) = (Returns entry, w1) →
     ∃ w',
       patch_getter (ItemKey item) w = (Returns entry, w') ∧
       _caches (cache w') !! hash item = Some entry ∧
       ((MAX_TRACED_PROGRAM_COUNT < size (_caches (cache w')))%nat →
        events w'
        = (events w1
           ++ [WarnTooManyTraced (size (_caches (cache w')))
                 MAX_TRACED_PROGRAM_COUNT])%list) ∧
       ((size (_caches (cache w')) ≤ MAX_TRACED_PROGRAM_COUNT)%nat →
        events w' = events w1)).
Proof.
  split.
  - intros items. induction items as [|item items IH]; intros w; [done|].
    unfold lookups in *. simpl. etrans; [apply (patch_getter_dom item)|].
    apply IH.
  - intros item w entry w1 Hcase Hbuild. exists (store item entry w1).
    rewrite (patch_getter_build _ _ Hcase), Hbuild.
    split; [done|]. unfold store. simpl.
    split; [apply lookup_insert_eq|]. split; intros Hsize.
    + by rewrite bool_decide_eq_true_2.
    + rewrite bool_decide_eq_false_2 by lia. apply app_nil_r.
Qed.
End IpuDynamicPatcher_claims.


(** ** Frame rules *)

Lemma preserves_bind {S A B C} (f : S → C) (m : Py S A) (k : A → Py S B) :
  preserves f m → (∀ a, preserves f (k a)) → preserves f (bind m k).
Proof.
  intros Hm Hk s r s'. unfold bind.
  destruct (m s) as [[a|e] s1] eqn:Hms.
  - intros Hks. rewrite (Hk _ _ _ _ Hks). by eapply Hm.
  - intros [= <- <-]. by eapply Hm.
Qed.

Lemma preserves_on_raise_bind {S A B C} (f : S → C) (m : Py S A)
    (k : A → Py S B) :
  preserves f m → (∀ a, preserves_on_raise f (k a)) →
  preserves_on_raise f (bind m k).
Proof.
  intros Hm Hk s e s'. unfold bind.
  destruct (m s) as [[a|e'] s1] eqn:Hms.
  - intros Hks. rewrite (Hk _ _ _ _ Hks). by eapply Hm.
  - intros [= <- <-]. by eapply Hm.
Qed.

Lemma preserves_weaken {S A C} (f : S → C) (m : Py S A) :
  preserves f m → preserves_on_raise f m.
Proof. intros Hm s e s'. apply Hm. Qed.

Lemma preserves_ret {S A C} (f : S → C) (a : A) : preserves f (ret a).
Proof. by intros s r s' [= <- <-]. Qed.
Lemma preserves_raise {S A C} (f : S → C) e : preserves f (@raise S A e).
Proof. by intros s r s' [= <- <-]. Qed.
Lemma preserves_lift {S A C} (f : S → C) (o : outcome A) : preserves f (lift o).
Proof. by intros s r s' [= <- <-]. Qed.
Lemma preserves_get {S C} (f : S → C) : preserves f get.
Proof. by intros s r s' [= <- <-]. Qed.
Lemma preserves_gets {S A C} (f : S → C) (g : S → A) : preserves f (gets g).
Proof. by intros s r s' [= <- <-]. Qed.
Lemma preserves_assert {S C} (f : S → C) b msg : preserves f (@assert S b msg).
Proof. destruct b; [apply preserves_ret | apply preserves_raise]. Qed.
Lemma preserves_modify {S C} (f : S → C) (g : S → S) :
  (∀ s, f (g s) = f s) → preserves f (modify g).
Proof. intros Hg s r s' [= <- <-]. apply Hg. Qed.
Lemma preserves_for_each {S A C} (f : S → C) (xs : list A)
    (body : A → Py S unit) :
  (∀ x, preserves f (body x)) → preserves f (for_each xs body).
Proof.
  intros Hbody. induction xs as [|x xs IH]; simpl.
  - apply preserves_ret.
  - apply preserves_bind; [apply Hbody | intros _; apply IH].
Qed.

(** ** More on IpuCompiledProgram.compile *)

Lemma remove_var_if_present var b :
  (if has_var var b
   then (Returns tt, _remove_var var b) else (Returns tt, b))
  = (Returns tt, _remove_var var b).
Proof.
  unfold has_var, _remove_var. case_bool_decide as Hvar; [done|].
  destruct b as [l vs]. simpl in *. rewrite delete_id; [done|].
  destruct (vs !! var) eqn:Hlookup; [|done]. exfalso. apply Hvar. eauto.
Qed.

Section IpuCompiledProgram_more.
Context `{NativeCore} `{IpuPasses}.
Import IpuCompiledProgram.

Lemma get_option_pure option : preserves id (IpuStrategy.get_option option).
Proof.
  unfold IpuStrategy.get_option.
  apply preserves_bind; [apply preserves_get | intros o; apply preserves_lift].
Qed.

Lemma on_this_strategy {A} (m : Py t A) : preserves strategy (on_this m).
Proof.
  intros w r w'. unfold on_this. destruct (m (this w)) as [r' o].
  by intros [= <- <-].
Qed.
Lemma on_graph_strategy {A} (m : Py (Backend * Graph) A) :
  preserves strategy (on_graph m).
Proof.
  intros w r w'. unfold on_graph. destruct (_graph (this w)) as [g|].
  - destruct (m (backend w, g)) as [r' [b g']]. by intros [= <- <-].
  - by intros [= <- <-].
Qed.
Lemma on_backend_strategy g : preserves strategy (on_backend g).
Proof. by apply preserves_modify. Qed.
Lemma on_strategy_read {A} (m : Py IpuStrategy.t A) :
  preserves id m → preserves strategy (on_strategy m).
Proof.
  intros Hm w r w'. unfold on_strategy.
  destruct (m (strategy w)) as [r' s] eqn:Hms. intros [= <- <-]. simpl.
  apply (Hm _ _ _ Hms).
Qed.

(** The global block of the program the object holds. *)
Lemma on_this_keeps_program_block {A} (m : Py t A) :
  preserves (λ o, global_block (_program o)) m →
  preserves (λ w, global_block (_program (this w))) (on_this m).
Proof.
  intros Hm w r w'. unfold on_this.
  destruct (m (this w)) as [r' o] eqn:Hmo. intros [= <- <-]. simpl.
  apply (Hm _ _ _ Hmo).
Qed.
Lemma on_graph_program_block {A} (m : Py (Backend * Graph) A) :
  preserves (λ w, global_block (_program (this w))) (on_graph m).
Proof.
  intros w r w'. unfold on_graph. destruct (_graph (this w)) as [g|].
  - destruct (m (backend w, g)) as [r' [b g']]. by intros [= <- <-].
  - by intros [= <- <-].
Qed.
Lemma on_strategy_program_block {A} (m : Py IpuStrategy.t A) :
  preserves (λ w, global_block (_program (this w))) (on_strategy m).
Proof.
  intros w r w'. unfold on_strategy.
  destruct (m (strategy w)) as [r' s]. by intros [= <- <-].
Qed.

Ltac frame_step :=
  first
    [ apply preserves_ret | apply preserves_raise | apply preserves_lift
    | apply preserves_get | apply preserves_gets | apply preserves_assert
    | apply on_this_strategy | apply on_graph_strategy
    | apply on_backend_strategy
    | apply on_strategy_read; apply get_option_pure
    | apply on_graph_program_block | apply on_strategy_program_block
    | apply preserves_for_each; intros ?
    | apply preserves_bind; [|intros ?]
    | match goal with
      | |- preserves _ (if ?b then _ else _) => destruct b
      end
    | progress cbv zeta ].

(** X12. A compile that raises leaves the strategy, and with it the
    need_compile flag, exactly as it was; a compile that returns has
    changed nothing of the strategy but that flag, which is false. *)
Theorem compile_raises_keeps_strategy feed_list fetch_list w :
  match compile feed_list fetch_list w with
  | (Raises e, w') => strategy w' = strategy w
  | (Returns program, w') =>
      strategy w' = IpuStrategy.set_need_compile false (strategy w)
  end.
Proof.
  assert (Hkeep : ∀ (program : Program),
    preserves_on_raise strategy
      (on_strategy (modify (IpuStrategy.set_need_compile false)) ;;;
       ret program)).
  { intros program s e s'. discriminate. }
  assert (Hraise : preserves_on_raise strategy (compile feed_list fetch_list)).
  { unfold compile, ipu_passes, IpuStrategy.is_training.
    repeat first
      [ apply Hkeep
      | apply preserves_on_raise_bind; [solve [repeat frame_step] | intros ?]
      | progress cbv zeta ]. }
  assert (Hrest : preserves
                    (λ w, IpuStrategy.set_need_compile false (strategy w))
                    (compile feed_list fetch_list)).
  { assert (Hsub : ∀ A (m : Py World A),
      preserves strategy m →
      preserves (λ w, IpuStrategy.set_need_compile false (strategy w)) m).
    { intros A m Hm s r s' Hrun. simpl. by rewrite (Hm _ _ _ Hrun). }
    unfold compile, ipu_passes, IpuStrategy.is_training.
    repeat first
      [ apply preserves_ret
      | apply preserves_bind;
        [ first [ apply Hsub; solve [repeat frame_step]
                | intros s r s' Hstep; injection Hstep as _ <-; done ]
        | intros ? ]
      | progress cbv zeta ]. }
  destruct (compile feed_list fetch_list w) as [[program|e] w'] eqn:Hrun.
  - rewrite <- (Hrest _ _ _ Hrun).
    apply compile_returns in Hrun as [Hflag _].
    destruct (strategy w') as [c h n f]. simpl in *. by rewrite Hflag.
  - apply (Hraise _ _ _ Hrun).
Qed.
Lemma clear_need_check_feed_frame feed_list b b' :
  clear_need_check_feed feed_list b = Returns b' →
  ops b' = ops b ∧
  dom (vars b') = dom (vars b) ∧
  ∀ n, n ∉ feed_list → vars b' !! n = vars b !! n.
Proof.
  revert b. induction feed_list as [|feed_name feed_list IH]; intros b; simpl.
  - intros [= <-]. done.
  - unfold Block_var. destruct (vars b !! feed_name) as [feed_var|] eqn:Hvar;
      [|discriminate].
    intros Hrest. destruct (IH _ Hrest) as (Hops & Hdom & Hvars). simpl in *.
    split; [done|]. split.
    + rewrite Hdom, dom_insert_L.
      apply subseteq_union_1_L, singleton_subseteq_l, elem_of_dom. eauto.
    + intros n [Hne Hin]%not_elem_of_cons. rewrite Hvars by done.
      by apply lookup_insert_ne.
Qed.

(** X13. A compile that returns has rewritten the program it was given:
    in its global block every operator has lost its target mark, the feed
    and fetch operators are gone (the others in their order), and so are
    the variables named feed and fetch. *)
Theorem compile_strips_source feed_list fetch_list w program w' :
  compile feed_list fetch_list w = (Returns program, w') →
  let source := global_block (_program (this w)) in
  global_block (_program (this w'))
  = mkBlock
      (filter (λ op, op_type op ≠ "feed" ∧ op_type op ≠ "fetch")
         ((λ op, mkOperator (op_type op) false) <$> ops source))
      (delete "fetch" (delete "feed" (vars source))).
Proof.
  intros Hrun source. unfold compile in Hrun.
  bind_inv Hrun. injection Hm as <- <-.
  bind_inv Hrun. injection Hm as _ <-.
  bind_inv Hrun. injection Hm as _ <-.
  bind_inv Hrun. unfold on_global_block, on_this in Hm. simpl in Hm.
  rewrite remove_ops_at_indices in Hm. injection Hm as _ <-.
  bind_inv Hrun. unfold on_global_block, on_this in Hm. simpl in Hm.
  unfold bind in Hm. simpl in Hm.
  rewrite remove_var_if_present in Hm. rewrite remove_var_if_present in Hm.
  injection Hm as _ <-.
  match type of Hrun with
  | ?m ?s = _ =>
      assert (Hrest : preserves (λ w, global_block (_program (this w))) m)
  end.
  { unfold ipu_passes, IpuStrategy.is_training.
    repeat first
      [ frame_step
      | apply on_this_keeps_program_block; intros o r o';
        repeat case_match; by intros [= <- <-] ]. }
  rewrite (Hrest _ _ _ Hrun). unfold _remove_var. simpl. f_equal.
  apply list_filter_iff. intros op.
  unfold is_feed_or_fetch. rewrite orb_True, !bool_decide_spec. tauto.
Qed.

(** A pass at work on a world that has its graph: the pass runs on the
    backend and that graph, and nothing else of the world changes. *)
Lemma on_graph_some {A} (m : Py (Backend * Graph) A) w g :
  _graph (this w) = Some g →
  on_graph m w
  = match m (backend w, g) with
    | (r, (b, g')) =>
        (r, mkWorld (set__graph (Some g') (this w)) (strategy w) b)
    end.
Proof. unfold on_graph. by intros ->. Qed.

Lemma ipu_passes_some names attrs w g :
  _graph (this w) = Some g →
  ipu_passes names attrs w
  = match for_each ((λ pass_name, (pass_name, attrs pass_name)) <$> names)
            (λ p, apply_pass p.1 p.2) (backend w, g) with
    | (r, (b, g')) =>
        (r, mkWorld (set__graph (Some g') (this w)) (strategy w) b)
    end.
Proof.
  unfold ipu_passes. revert w g.
  induction names as [|pass_name names IH]; intros w g Hg.
  - destruct w as [[p c s n gr] st b]. simpl in *. by subst gr.
  - simpl. unfold bind. rewrite (on_graph_some _ _ _ Hg). simpl.
    destruct (apply_pass pass_name (attrs pass_name) (backend w, g))
      as [[[]|e] [b1 g1]]; [|done].
    by rewrite (IH _ g1).
Qed.

Lemma on_graph_returns {A} (m : Py (Backend * Graph) A) w g a s :
  _graph (this w) = Some g →
  on_graph m w = (Returns a, s) →
  ∃ b g', m (backend w, g) = (Returns a, (b, g')) ∧
          s = mkWorld (set__graph (Some g') (this w)) (strategy w) b.
Proof.
  intros Hg. rewrite (on_graph_some _ _ _ Hg).
  destruct (m (backend w, g)) as [r [b g']]. intros [= -> <-]. eauto.
Qed.

Lemma ipu_passes_returns names attrs w g a s :
  _graph (this w) = Some g →
  ipu_passes names attrs w = (Returns a, s) →
  ∃ b g',
    for_each ((λ pass_name, (pass_name, attrs pass_name)) <$> names)
      (λ p, apply_pass p.1 p.2) (backend w, g)
    = (Returns tt, (b, g')) ∧
    s = mkWorld (set__graph (Some g') (this w)) (strategy w) b.
Proof.
  intros Hg. rewrite (ipu_passes_some _ _ _ _ Hg).
  destruct (for_each _ _ _) as [[[]|e] [b g']]; [|discriminate].
  intros [= _ <-]. eauto.
Qed.

(** X14. What a returning compile hands back is what the
    graph-to-program conversion made of the object's own graph: the
    graph built from the stripped program, after the passes in their
    order (the two optimizer passes first when training), each with the
    attributes set on it, run on the backend that was given the scope
    and the native strategy. The graph and backend the conversion left
    are the ones the object ends with. The returned program has the
    converted program's operators and variable names, and every
    variable outside feed_list is the converted program's. *)
Theorem compile_keeps_other_variables feed_list fetch_list w program w' :
  compile feed_list fetch_list w = (Returns program, w') →
  let both := [feed_list_attr feed_list; fetch_list_attr fetch_list] in
  let passes (is_training : bool) : list (string * list PassAttr) :=
    ((if is_training
      then [("optimizer_extract_pass", []);
            ("optimizer_state_align_pass", [])]
      else [])
     ++ [("forward_graph_extract_pass", []);
         ("infer_shape_pass", [feed_list_attr feed_list]);
         ("avg_shard_pass", []);
         ("delete_scale_op_pass", []);
         ("popart_canonicalization_pass",
          if bool_decide (_custom_op_names (this w) ≠ ∅)
          then [custom_ops_attr (_custom_op_names (this w))] else []);
         ("ipu_inplace_pass", both);
         ("ipu_graph_builder_pass", both);
         ("ipu_runtime_replacer_pass", both)])%list in
  ∃ is_training b g converted g',
    core_get_option "is_training" (IpuStrategy._ipu_strategy (strategy w))
    = Returns is_training ∧
    for_each (passes (truthy is_training)) (λ p, apply_pass p.1 p.2)
      (backend_set_ipu_strategy (IpuStrategy._ipu_strategy (strategy w))
         (backend_set_scope (_scope (this w)) (backend w)),
       Graph_of_desc
         (with_global_block (global_block (_program (this w')))
            (_program (this w))))
    = (Returns tt, (b, g)) ∧
    graph_to_program (b, g) = (Returns converted, (backend w', g')) ∧
    _graph (this w') = Some g' ∧
    ops (global_block program) = ops (global_block converted) ∧
    dom (vars (global_block program)) = dom (vars (global_block converted)) ∧
    ∀ n, n ∉ feed_list →
      vars (global_block program) !! n = vars (global_block converted) !! n.
Proof.
  intros Hrun both passes. unfold compile in Hrun.
  bind_inv Hrun. injection Hm as <- <-.
  bind_inv Hrun. injection Hm as _ <-.
  bind_inv Hrun. injection Hm as _ <-.
  bind_inv Hrun. unfold on_global_block, on_this in Hm. simpl in Hm.
  rewrite remove_ops_at_indices in Hm. injection Hm as _ <-.
  bind_inv Hrun. unfold on_global_block, on_this in Hm. simpl in Hm.
  unfold bind in Hm. simpl in Hm.
  rewrite remove_var_if_present in Hm. rewrite remove_var_if_present in Hm.
  injection Hm as _ <-.
  bind_inv Hrun. unfold on_this in Hm. simpl in Hm. injection Hm as _ <-.
  bind_inv Hrun.
  unfold on_strategy, IpuStrategy.is_training, IpuStrategy.get_option,
    bind, get, lift in Hm. simpl in Hm.
  destruct (core_get_option "is_training"
              (IpuStrategy._ipu_strategy (strategy w)))
    as [is_training|e] eqn:Htraining; [|discriminate Hm].
  injection Hm as <- <-.
  match type of Hrun with
  | _ {| this := set__graph (Some (Graph_of_desc ?P)) ?o;
         strategy := _; backend := ?b |} = _ =>
      set (source := P) in *; set (b0 := b) in *
  end.
  match type of Hrun with
  | _ {| this := ?o; strategy := _; backend := _ |} = _ =>
      set (o5 := o) in *
  end.
  assert (Ho5 : global_block (_program o5) = global_block source
                ∧ source = with_global_block (global_block source)
                             (_program (this w))) by done.
  destruct Ho5 as [Hblock Hsource].
  assert (Hgraph0 : _graph o5 = Some (Graph_of_desc source)) by done.
  clearbody o5 source b0.
  (* the optimizer passes, when training *)
  bind_inv Hrun.
  assert (Htrain : ∃ b1 g1,
    for_each (if truthy is_training
              then [("optimizer_extract_pass", []);
                    ("optimizer_state_align_pass", [])]
              else [])
      (λ p, apply_pass p.1 p.2) (b0, Graph_of_desc source)
    = (Returns tt, (b1, g1)) ∧
    s = mkWorld (set__graph (Some g1) o5) (strategy w) b1).
  { destruct (truthy is_training).
    - by apply (ipu_passes_returns _ _ (mkWorld o5 (strategy w) b0) _ _ _
                  Hgraph0) in Hm.
    - injection Hm as _ <-. exists b0, (Graph_of_desc source).
      split; [done|]. destruct o5. simpl in *. by subst. }
  clear Hm. destruct Htrain as (b1 & g1 & Hrun1 & ->).
  (* the four graph passes *)
  bind_inv Hrun.
  apply (ipu_passes_returns _ _ _ g1) in Hm as (b2 & g2 & Hrun2 & ->);
    [|done].
  (* canonicalization *)
  bind_inv Hrun.
  apply (on_graph_returns _ _ g2) in Hm as (b3 & g3 & Hrun3 & ->); [|done].
  (* the three builder passes *)
  bind_inv Hrun.
  apply (ipu_passes_returns _ _ _ g3) in Hm as (b4 & g4 & Hrun4 & ->);
    [|done].
  (* the conversion *)
  apply bind_returns in Hrun as (converted & sc & Hconv & Hrun).
  apply (on_graph_returns _ _ g4) in Hconv as (b5 & g5 & Hconv & ->); [|done].
  simpl in Hrun1, Hrun2, Hrun3, Hrun4, Hconv.
  apply bind_returns in Hrun as (scheduled & ss & Hlr & Hrun).
  apply bind_returns in Hrun as (cleared & sf & Hclear & Hrun).
  injection Hclear as Hclear <-.
  bind_inv Hrun. injection Hm as <- <-.
  bind_inv Hrun. unfold on_strategy, modify in Hm. injection Hm as _ <-.
  injection Hrun as <- <-.
  assert (Hss : global_block scheduled = global_block converted ∧
                backend ss = b5 ∧ _graph (this ss) = Some g5 ∧
                global_block (_program (this ss)) = global_block source).
  { unfold on_this in Hlr. simpl in Hlr.
    repeat case_match; simplify_eq; simpl; rewrite ?Hblock; done. }
  destruct Hss as (Hsame & Hbackend & Hgraph & Hprogram).
  destruct (clear_need_check_feed_frame _ _ _ Hclear) as (Hops & Hdom & Hvars).
  rewrite Hsame in Hops, Hdom, Hvars. simpl.
  rewrite Hbackend, Hprogram, <- Hsource.
  exists is_training, b4, g4, converted, g5.
  split; [done|]. split.
  { subst passes. cbv beta.
    rewrite for_each_app. erewrite bind_step by exact Hrun1.
    change (for_each
              ([("forward_graph_extract_pass", []);
                ("infer_shape_pass", [feed_list_attr feed_list]);
                ("avg_shard_pass", []); ("delete_scale_op_pass", [])]
               ++ [("popart_canonicalization_pass",
                    if bool_decide (_custom_op_names (this w) ≠ ∅)
                    then [custom_ops_attr (_custom_op_names (this w))]
                    else [])]
               ++ [("ipu_inplace_pass", both);
                   ("ipu_graph_builder_pass", both);
                   ("ipu_runtime_replacer_pass", both)])
              (λ p, apply_pass p.1 p.2) (b1, g1) = (Returns tt, (b4, g4))).
    rewrite for_each_app. erewrite bind_step by exact Hrun2.
    rewrite for_each_app. erewrite bind_step; [exact Hrun4|].
    simpl. unfold bind. by rewrite Hrun3. }
  split; [exact Hconv|]. split; [exact Hgraph|].
  by destruct (org_program _).
Qed.
End IpuCompiledProgram_more.

(** ** More on the patched program cache *)

Section IpuDynamicPatcher_more.
Context `{NativeCore} `{IpuPasses} `{Dy2Static}.
Import IpuDynamicPatcher.

Lemma ipu_compile_returns_flag program scope feed_list fetch_list w r w' :
  ipu_compile program scope feed_list fetch_list w = (Returns r, w') →
  IpuStrategy.need_compile (ipu_strategy w') = false.
Proof.
  unfold ipu_compile.
  destruct (IpuCompiledProgram.__init__ _ _ _ _ _) as [iw|e]; [|discriminate].
  destruct (IpuCompiledProgram.compile _ _ iw) as [r' iw'] eqn:Hrun.
  intros [= -> <-]. simpl. by apply compile_returns in Hrun as [? _].
Qed.

Lemma build_returns_flag item w entry w1 :
  build item w = (Returns entry, w1) →
  IpuStrategy.need_compile (ipu_strategy w1) = false.
Proof.
  unfold build, convert_concrete_program. intros Hrun.
  bind_inv Hrun. clear Hm.
  bind_inv Hrun. clear Hm.
  apply bind_returns in Hrun as (converted & sc & Hconv & Hrun).
  bind_inv Hrun. injection Hm as _ <-. injection Hrun as _ <-.
  do 7 (bind_inv Hconv; clear Hm).
  bind_inv Hconv. apply ipu_compile_returns_flag in Hm.
  by injection Hconv as _ <-.
Qed.


Lemma ipu_compile_feeds program scope feed_list fetch_list w r w' n :
  ipu_compile program scope feed_list fetch_list w = (Returns r, w') →
  n ∈ feed_list →
  ∃ v, vars (global_block r) !! n = Some v ∧ need_check_feed v = false.
Proof.
  unfold ipu_compile.
  destruct (IpuCompiledProgram.__init__ _ _ _ _ _) as [iw|e]; [|discriminate].
  destruct (IpuCompiledProgram.compile _ _ iw) as [r' iw'] eqn:Hrun.
  intros [= -> <-] Hin.
  apply compile_returns in Hrun as (_ & converted & b & Hclear & ->).
  by apply (clear_need_check_feed_clears _ _ _ _ Hclear).
Qed.

(** X15. When the conversion to an IPU program returns, the concrete
    program is the one handed in but for its main program, the strategy
    no longer asks for compilation, and every input that is fed names a
    variable of the new main program with need_check_feed off. The
    inputs fed are those that are not None, the first one left out when
    there is a class instance. *)
Theorem convert_concrete_program_feeds concrete_program class_instance
    w converted w' :
  convert_concrete_program concrete_program class_instance w
  = (Returns converted, w') →
  inputs converted = inputs concrete_program ∧
  outputs converted = outputs concrete_program ∧
  parameters converted = parameters concrete_program ∧
  startup_program converted = startup_program concrete_program ∧
  IpuStrategy.need_compile (ipu_strategy w') = false ∧
  ∀ n,
    Some n ∈ match class_instance with
             | Some _ => drop 1 (inputs concrete_program)
             | None => inputs concrete_program
             end →
    ∃ v, vars (global_block (main_program converted)) !! n = Some v ∧
         need_check_feed v = false.
Proof.
  unfold convert_concrete_program. intros Hrun.
  do 4 (bind_inv Hrun; clear Hm).
  bind_inv Hrun.
  assert (Hsame : inputs a3 = inputs concrete_program ∧
                  outputs a3 = outputs concrete_program ∧
                  parameters a3 = parameters concrete_program ∧
                  startup_program a3 = startup_program concrete_program).
  { destruct (truthy a2).
    - bind_inv Hm. clear Hm0. bind_inv Hm. clear Hm0.
      by injection Hm as <- _.
    - by injection Hm as <- _. }
  clear Hm. destruct Hsame as (Hinputs & Houtputs & Hparameters & Hstartup).
  do 2 (bind_inv Hrun; clear Hm).
  bind_inv Hrun. injection Hrun as <- <-. simpl.
  split; [done|]. split; [done|]. split; [done|]. split; [done|].
  split; [by apply ipu_compile_returns_flag in Hm|].
  intros n Hin. apply (ipu_compile_feeds _ _ _ _ _ _ _ n) in Hm; [done|].
  unfold names_of.
  destruct class_instance; apply list_elem_of_omap; exists (Some n); done.
Qed.
(** What a lookup that returns leaves behind. *)
Lemma patch_getter_returned item w entry w' :
  patch_getter item w = (Returns entry, w') →
  IpuStrategy.need_compile (ipu_strategy w') = false
  ∧ ∃ key, item = ItemKey key
           ∧ _caches (cache w') !! hash key = Some entry
           ∧ _recent_key (cache w') = Some (hash key).
Proof.
  destruct item as [key|type_name]; [|discriminate].
  destruct (_caches (cache w) !! hash key) as [cached|] eqn:Hcached;
    [destruct (IpuStrategy.need_compile (ipu_strategy w)) eqn:Hflag|].
  2:{ rewrite (patch_getter_hit _ _ _ Hcached Hflag). intros [= <- <-].
      simpl. eauto. }
  all: rewrite patch_getter_build by auto.
  all: destruct (build key (pre_build key w)) as [[built|e] w1] eqn:Hbuild;
    [|discriminate].
  all: intros [= <- <-]; split; [by apply build_returns_flag in Hbuild|].
  all: exists key; split; [done|]; unfold store; simpl.
  all: split; [apply lookup_insert_eq|].
  all: by destruct (build_frames _ _ _ _ Hbuild) as [-> _].
Qed.

(** X16. After every lookup that returns, the strategy's need_compile
    flag is false: either it was false already and the entry was cached,
    or the build that ran has cleared it. *)
Theorem patch_getter_returns_flag item w entry w' :
  patch_getter item w = (Returns entry, w') →
  IpuStrategy.need_compile (ipu_strategy w') = false
  ∧ ∃ key, item = ItemKey key
           ∧ _caches (cache w') !! hash key = Some entry
           ∧ _recent_key (cache w') = Some (hash key).
Proof. apply patch_getter_returned. Qed.

(** X17. Once a lookup has returned, looking the same fingerprint up
    again (the same key, or any key with the same hash) returns the same
    entry and changes nothing: no build, no warning, no new entry. *)
Theorem patch_getter_again key w entry w' other :
  patch_getter (ItemKey key) w = (Returns entry, w') →
  hash other = hash key →
  patch_getter (ItemKey other) w' = (Returns entry, w').
Proof.
  intros Hfirst Hhash.
  apply patch_getter_returned in Hfirst
    as (Hflag & key' & [= <-] & Hstored & Hrecent).
  rewrite <- Hhash in Hstored, Hrecent.
  rewrite (patch_getter_hit _ _ _ Hstored Hflag).
  destruct w' as [[caches recent] s b es]. simpl in *. by rewrite Hrecent.
Qed.

(** X18. Every lookup with a CacheKey leaves [_recent_key] at the key's
    hash, whether it returns or raises; a lookup with anything else
    raises ValueError and leaves the world as it was. *)
Theorem patch_getter_recent_key w :
  (∀ key, _recent_key (cache (patch_getter (ItemKey key) w).2)
          = Some (hash key)) ∧
  (∀ type_name, ∃ msg,
     patch_getter (ItemOther type_name) w = (Raises (ValueError msg), w)).
Proof.
  split; [|intros type_name; eexists; reflexivity].
  intros key.
  destruct (_caches (cache w) !! hash key) as [cached|] eqn:Hcached;
    [destruct (IpuStrategy.need_compile (ipu_strategy w)) eqn:Hflag|].
  2:{ by rewrite (patch_getter_hit _ _ _ Hcached Hflag). }
  all: rewrite patch_getter_build by auto.
  all: destruct (build key (pre_build key w)) as [[built|e] w1] eqn:Hbuild.
  all: destruct (build_frames _ _ _ _ Hbuild) as [Hcache _].
  all: simpl; by rewrite Hcache.
Qed.

(** X19. A lookup adds at most one entry to the cache, and none when it
    raises or when the fingerprint was cached already. *)
Theorem patch_getter_size item w :
  let w' := (patch_getter item w).2 in
  (size (_caches (cache w)) ≤ size (_caches (cache w'))
   ≤ S (size (_caches (cache w))))%nat ∧
  ((∃ e, (patch_getter item w).1 = Raises e) →
   _caches (cache w') = _caches (cache w)) ∧
  (∀ key, item = ItemKey key →
     is_Some (_caches (cache w) !! hash key) →
     size (_caches (cache w')) = size (_caches (cache w))).
Proof.
  destruct item as [key|type_name].
  2:{ simpl. split; [lia|]. split; [done|]. intros key [=]. }
  destruct (_caches (cache w) !! hash key) as [cached|] eqn:Hcached;
    [destruct (IpuStrategy.need_compile (ipu_strategy w)) eqn:Hflag|].
  2:{ rewrite (patch_getter_hit _ _ _ Hcached Hflag). simpl.
      split; [lia|]. split; [done|]. done. }
  all: rewrite patch_getter_build by auto.
  all: destruct (build key (pre_build key w)) as [[built|e] w1] eqn:Hbuild.
  all: destruct (build_frames _ _ _ _ Hbuild) as [Hcache _].
  all: simpl; rewrite Hcache; simpl.
  - rewrite map_size_insert, Hcached. simpl.
    split; [lia|]. split; [by intros [? [=]]|]. done.
  - split; [lia|]. split; [done|]. done.
  - rewrite map_size_insert, Hcached. simpl.
    split; [lia|]. split; [by intros [? [=]]|]. intros key' [= <-] [? ?].
    congruence.
  - split; [lia|]. split; [done|]. done.
Qed.
(** X20. What a lookup logs. A cached fingerprint with the flag down logs
    nothing. Any other lookup logs one call of [_build_once], preceded by
    at most one warning: the strategy-changed one exactly when the
    fingerprint was cached (and so the flag was up), the multiple-caches
    one exactly when it was not cached, the cache was not empty and the
    flag was down. After the build comes the too-many-traced warning or
    nothing. *)
Theorem patch_getter_log key w :
  let caches := _caches (cache w) in
  let flag := IpuStrategy.need_compile (ipu_strategy w) in
  let run := patch_getter (ItemKey key) w in
  if bool_decide (hash key ∈ dom caches) && negb flag
  then events run.2 = events w
  else ∃ after,
    events run.2
    = (events w
       ++ (if bool_decide (hash key ∈ dom caches) then [WarnStrategyChanged]
           else if bool_decide (caches ≠ ∅) && negb flag
                then [WarnMultipleCaches] else [])
       ++ [BuildOnce (hash key)] ++ after)%list ∧
    (after = []
     ∨ after = [WarnTooManyTraced (size (_caches (cache run.2)))
                  MAX_TRACED_PROGRAM_COUNT]
       ∧ (MAX_TRACED_PROGRAM_COUNT < size (_caches (cache run.2)))%nat).
Proof.
  intros caches flag run. subst caches flag run.
  destruct (_caches (cache w) !! hash key) as [cached|] eqn:Hcached;
    [destruct (IpuStrategy.need_compile (ipu_strategy w)) eqn:Hflag|].
  - (* cached, flag up *)
    assert (Hin : hash key ∈ dom (_caches (cache w)))
      by (apply elem_of_dom; eauto).
    rewrite (bool_decide_eq_true_2 _ Hin). cbn [andb negb].
    rewrite patch_getter_build by auto.
    destruct (build key (pre_build key w)) as [[built|e] w1] eqn:Hbuild;
      destruct (build_frames _ _ _ _ Hbuild) as [Hcache Hevents]; simpl.
    + unfold pre_build in Hevents. simpl in Hevents.
      rewrite Hflag, (bool_decide_eq_true_2 _ Hin), andb_false_r in Hevents.
      rewrite Hevents, app_nil_r, <- !app_assoc. eexists. split; [reflexivity|].
      match goal with
      | |- context [bool_decide (?a < ?b)%nat] =>
          destruct (bool_decide_reflect (a < b)%nat) as [Hover|_]
      end; [right; split; [reflexivity | exact Hover] | left; reflexivity].
    + unfold pre_build in Hevents. simpl in Hevents.
      rewrite Hflag, (bool_decide_eq_true_2 _ Hin), andb_false_r in Hevents.
      rewrite Hevents, app_nil_r, <- !app_assoc. exists []. split; [done|].
      by left.
  - (* cached, flag down *)
    assert (Hin : hash key ∈ dom (_caches (cache w)))
      by (apply elem_of_dom; eauto).
    rewrite (bool_decide_eq_true_2 _ Hin). cbn [andb negb].
    by rewrite (patch_getter_hit _ _ _ Hcached Hflag).
  - (* not cached *)
    assert (Hnotin : hash key ∉ dom (_caches (cache w)))
      by (by apply not_elem_of_dom).
    rewrite (bool_decide_eq_false_2 _ Hnotin). cbn [andb negb].
    rewrite patch_getter_build by auto.
    destruct (build key (pre_build key w)) as [[built|e] w1] eqn:Hbuild;
      destruct (build_frames _ _ _ _ Hbuild) as [Hcache Hevents]; simpl.
    + unfold pre_build in Hevents. simpl in Hevents.
      rewrite (bool_decide_eq_false_2 _ Hnotin), app_nil_r in Hevents.
      rewrite Hevents, <- !app_assoc. eexists. split; [reflexivity|].
      match goal with
      | |- context [bool_decide (?a < ?b)%nat] =>
          destruct (bool_decide_reflect (a < b)%nat) as [Hover|_]
      end; [right; split; [reflexivity | exact Hover] | left; reflexivity].
    + unfold pre_build in Hevents. simpl in Hevents.
      rewrite (bool_decide_eq_false_2 _ Hnotin), app_nil_r in Hevents.
      rewrite Hevents, <- !app_assoc. exists []. split; [done|]. by left.
Qed.
End IpuDynamicPatcher_more.

(** ** More on CompiledProgram *)

Lemma never_returns_raise {S A} e : never_returns (@raise S A e).
Proof. intros s a s'. discriminate. Qed.
Lemma never_returns_bind_l {S A B} (m : Py S A) (k : A → Py S B) :
  never_returns m → never_returns (bind m k).
Proof.
  intros Hm s b s' Hrun. apply bind_returns in Hrun as (a & s1 & Hms & _).
  by apply Hm in Hms.
Qed.
Lemma never_returns_bind_r {S A B} (m : Py S A) (k : A → Py S B) :
  (∀ a, never_returns (k a)) → never_returns (bind m k).
Proof.
  intros Hk s b s' Hrun. apply bind_returns in Hrun as (a & s1 & _ & Hks).
  by apply Hk in Hks.
Qed.
Lemma never_returns_raises {S A} (m : Py S A) s :
  never_returns m → ∃ e, (m s).1 = Raises e.
Proof.
  intros Hm. destruct (m s) as [[a|e] s'] eqn:Hms; [|by exists e].
  by apply Hm in Hms.
Qed.
Lemma preserves_bind_stop {S A B C} (f : S → C) (m : Py S A)
    (k : A → Py S B) :
  preserves f m → never_returns m → preserves f (bind m k).
Proof.
  intros Hf Hm s r s'. unfold bind.
  destruct (m s) as [[a|e] s1] eqn:Hms.
  - by apply Hm in Hms.
  - intros [= <- <-]. by eapply Hf.
Qed.

Section CompiledProgram_more.
Context `{NativeCore}.
Import CompiledProgram.

Lemma upd_preserves {C} (f : t → C) (g : t → t) :
  (∀ o, f (g o) = f o) → preserves (λ st, f (self st)) (upd g).
Proof. intros Hg. apply preserves_modify. intros st. apply Hg. Qed.
Lemma emit_preserves {C} (f : t → C) e :
  preserves (λ st, f (self st)) (emit e).
Proof. by apply preserves_modify. Qed.
Lemma upd_events g : preserves events (upd g).
Proof. by apply preserves_modify. Qed.

Lemma get_build_strategy_preserves {C} (f : State → C) :
  preserves f get_build_strategy.
Proof.
  unfold get_build_strategy.
  apply preserves_bind; [apply preserves_gets|]. intros o.
  destruct (_build_strategy o); [apply preserves_ret | apply preserves_raise].
Qed.

Ltac compile_frame_step :=
  first
    [ apply preserves_ret | apply preserves_raise | apply preserves_lift
    | apply preserves_get | apply preserves_gets | apply preserves_assert
    | apply get_build_strategy_preserves
    | apply upd_events
    | apply (upd_preserves compile_frame); intros ?; reflexivity
    | apply (emit_preserves compile_frame)
    | apply preserves_bind; [|intros ?]
    | match goal with
      | |- preserves _ (if ?b then _ else _) => destruct b
      | |- preserves _ (match ?x with _ => _ end) => destruct x
      end
    | progress cbv zeta ].

Lemma _compile_data_parallel_frame places use_device scope :
  preserves (λ st, compile_frame (self st))
    (_compile_data_parallel places use_device scope).
Proof.
  unfold _compile_data_parallel, upd_build_strategy.
  repeat compile_frame_step.
Qed.

Lemma _compile_inference_frame :
  preserves (λ st, compile_frame (self st)) _compile_inference.
Proof. unfold _compile_inference. repeat compile_frame_step. Qed.

(** X2. A first compilation that raises has already marked the object
    compiled, with the scope and place of the call, and has set no
    executor; the same call made again does not try once more but
    returns the object as it is. *)
Theorem compile_failure_sticks scope place st e st' :
  _compiled (self st) = false →
  (∀ p, place = Some p → Place_equals p p = true) →
  _compile scope place st = (Raises e, st') →
  _compiled (self st') = true ∧
  _scope (self st') = scope ∧
  _place (self st') = place ∧
  _executor (self st') = _executor (self st) ∧
  _compile scope place st' = (Returns (self st'), st').
Proof.
  intros Hfresh Hrefl Hrun.
  assert (Hframe : compile_frame (self st')
                   = (true, scope, place, _executor (self st),
                      _is_inference (self st), _infer_config (self st))).
  { unfold _compile in Hrun. unfold bind at 1, gets at 1 in Hrun.
    rewrite Hfresh in Hrun.
    unfold bind at 1, upd at 1, modify in Hrun.
    unfold bind at 1, upd at 1, modify in Hrun.
    unfold bind at 1, upd at 1, modify in Hrun.
    unfold bind at 1 in Hrun. simpl in Hrun.
    destruct (_is_inference (self st)) eqn:Hinf.
    - unfold bind at 1 in Hrun.
      match type of Hrun with
      | context [_compile_inference ?s] =>
          destruct (_compile_inference s) as [[ex|e'] s1] eqn:Hstep
      end; [discriminate Hrun|].
      injection Hrun as _ <-.
      rewrite (_compile_inference_frame _ _ _ Hstep).
      unfold compile_frame. simpl. by rewrite Hinf.
    - unfold bind at 1, upd at 1, modify in Hrun. unfold bind at 1 in Hrun.
      match type of Hrun with
      | context [_compile_data_parallel ?a ?b ?c ?s] =>
          destruct (_compile_data_parallel a b c s) as [[ex|e'] s1] eqn:Hstep
      end; [discriminate Hrun|].
      injection Hrun as _ <-.
      rewrite (_compile_data_parallel_frame _ _ _ _ _ _ Hstep).
      unfold compile_frame. simpl. by rewrite Hinf. }
  unfold compile_frame in Hframe.
  injection Hframe as Hcompiled Hscope Hplace Hexecutor _ _.
  split; [done|]. split; [done|]. split; [done|]. split; [done|].
  unfold _compile, bind, gets, ret. simpl. rewrite Hcompiled, Hscope, Hplace.
  rewrite (bool_decide_eq_false_2 (scope ≠ scope)) by (intros Hne; by apply Hne).
  rewrite andb_false_r.
  destruct place as [p|]; [|done]. by rewrite (Hrefl p eq_refl).
Qed.

(** X3. Once [_with_inference_optimize] has returned, the first compile
    asks the native core for a predictor built from the very config
    handed in, and for nothing else: it reads no scope, runs none of the
    checks of the data-parallel path, and its outcome is the
    predictor's. A second [_with_inference_optimize] is refused and
    changes nothing. *)
Theorem inference_compile config st o1 st1 scope place :
  _compiled (self st) = false →
  _with_inference_optimize config st = (Returns o1, st1) →
  ∃ c, (config = NativeConfig c ∨ config = AnalysisConfig c) ∧
    events st1 = events st ∧
    events (_compile scope place st1).2
    = (events st ++ [NativePredictor])%list ∧
    match create_paddle_predictor c with
    | Returns ex =>
        ∃ o2, _compile scope place st1
              = (Returns o2, mkState o2 (events st ++ [NativePredictor])) ∧
              _executor o2 = Some ex
    | Raises e =>
        (_compile scope place st1).1 = Raises e ∧
        _executor (self (_compile scope place st1).2) = _executor (self st)
    end ∧
    ∀ config', ∃ msg,
      _with_inference_optimize config' st1 = (Raises (AssertionError msg), st1).
Proof.
  intros Hfresh Hrun.
  unfold _with_inference_optimize in Hrun.
  unfold bind at 1, gets at 1 in Hrun. unfold bind at 1 in Hrun.
  destruct (_is_inference (self st)) eqn:Hinf; [discriminate Hrun|].
  simpl in Hrun.
  assert (Hst1 : ∃ c, (config = NativeConfig c ∨ config = AnalysisConfig c) ∧
            st1 = mkState (set__infer_config (Some c)
                             (set__is_inference true (self st))) (events st)).
  { destruct config as [c|c|]; [| |discriminate Hrun];
      injection Hrun as _ <-; exists c; split; auto. }
  destruct Hst1 as (c & Hconfig & ->). clear Hrun.
  exists c. split; [exact Hconfig|]. split; [reflexivity|].
  unfold _compile, _compile_inference, bind, gets, upd, emit, modify, lift.
  simpl. rewrite Hfresh. simpl.
  destruct (create_paddle_predictor c) as [ex|e]; simpl.
  - split; [reflexivity|]. split; [eexists; split; reflexivity|].
    intros config'. eexists. reflexivity.
  - split; [reflexivity|]. split; [split; reflexivity|].
    intros config'. eexists. reflexivity.
Qed.

Lemma _compile_data_parallel_warns places use_device scope st r st' :
  is_cuda_graph_capturing = true →
  _compile_data_parallel places use_device scope st = (r, st') →
  (∃ e, r = Raises e) ∧
  (events st' = events st
   ∨ is_Some (_share_vars_from (self st)) ∧ is_Some scope ∧
     events st'
     = (events st
        ++ [StderrWrite
              ("share_vars_from is set, scope is ignored." ++ newline)])%list).
Proof.
  intros Hcapture. unfold _compile_data_parallel, upd_build_strategy.
  rewrite Hcapture.
  unfold bind at 1, gets at 1. unfold bind at 1.
  match goal with
  | |- context [match ?first st with _ => _ end] =>
      assert (Hfirst : ∀ r1 st1, first st = (r1, st1) →
                events st1 = events st
                ∨ is_Some (_share_vars_from (self st)) ∧ is_Some scope ∧
                  events st1
                  = (events st
                     ++ [StderrWrite
                           ("share_vars_from is set, scope is ignored."
                            ++ newline)])%list);
      [|destruct (first st) as [[[]|e1] st1] eqn:Hstep1]
  end.
  { intros r1 st1. destruct (_share_vars_from (self st)) as [shared|].
    - destruct scope as [sc|].
      + unfold bind at 1, emit at 1, modify.
        destruct (shared_executor shared) as [ex|].
        * intros [= _ <-]. right. simpl. eauto.
        * intros [= _ <-]. right. simpl. eauto.
      + unfold bind at 1, ret at 1.
        destruct (shared_executor shared) as [ex|];
          intros [= _ <-]; left; reflexivity.
    - destruct scope as [sc|]; simpl.
      + intros [= _ <-]. left. reflexivity.
      + intros [= _ <-]. left. reflexivity. }
  2:{ intros [= <- <-]. split; [eauto|]. eapply Hfirst. reflexivity. }
  specialize (Hfirst _ _ eq_refl).
  match goal with
  | |- ?rest st1 = _ → _ =>
      assert (Hstop : never_returns rest ∧ preserves events rest)
  end.
  { split.
    - repeat first
        [ apply never_returns_bind_l, never_returns_raise
        | apply never_returns_bind_r; intros ? ].
    - repeat first
        [ apply preserves_bind_stop;
          [apply preserves_raise | apply never_returns_raise]
        | apply preserves_ret | apply preserves_raise | apply preserves_lift
        | apply preserves_gets | apply preserves_assert
        | apply get_build_strategy_preserves
        | apply upd_events
        | apply preserves_bind; [|intros ?]
        | match goal with
          | |- preserves _ (if ?b then _ else _) => destruct b
          | |- preserves _ (match ?x with _ => _ end) => destruct x
          end
        | progress cbv zeta ]. }
  destruct Hstop as [Hnever Hevents]. intros Hrest.
  rewrite <- (Hevents _ _ _ Hrest) in Hfirst. split; [|exact Hfirst].
  destruct r as [ex|e]; [|eauto]. by apply Hnever in Hrest.
Qed.

(** X5. While a CUDA graph is being captured the data-parallel
    compilation never returns and never reaches the native constructor:
    whatever the object and the arguments, the call raises and the only
    thing it may have written is the scope-ignored notice. *)
Theorem capturing_never_builds places use_device scope st :
  is_cuda_graph_capturing = true →
  let run := _compile_data_parallel places use_device scope st in
  (∃ e, run.1 = Raises e) ∧
  (NativeCompiledProgram ∉ drop (length (events st)) (events run.2)) ∧
  _executor (self run.2) = _executor (self st).
Proof.
  intros Hcapture run. subst run.
  destruct (_compile_data_parallel places use_device scope st)
    as [r st'] eqn:Hrun.
  destruct (_compile_data_parallel_warns _ _ _ _ _ _ Hcapture Hrun)
    as [[e ->] Hlog].
  pose proof (_compile_data_parallel_frame _ _ _ _ _ _ Hrun) as Hframe.
  unfold compile_frame in Hframe. injection Hframe as _ _ _ Hexecutor _ _.
  simpl. split; [eauto|]. split; [|exact Hexecutor].
  destruct Hlog as [-> | (_ & _ & ->)].
  - rewrite drop_all. apply not_elem_of_nil.
  - rewrite drop_app_length. intros Hin%list_elem_of_singleton.
    discriminate Hin.
Qed.

(** X1. The constructor prunes the program it is handed in place, so
    the program the object keeps has no feed operator left, has the
    variables it came with, and is a fixed point: a second
    CompiledProgram made from it prunes nothing and keeps the very same
    program. *)
Theorem init_twice p build_strategy o :
  __init__ (PyProgram p) build_strategy = Returns o →
  ∃ pruned, _program o = Some pruned ∧
    Forall (λ op, op_type op ≠ "feed") (ops (global_block pruned)) ∧
    vars (global_block pruned) = vars (global_block p) ∧
    _prune_feed_ops pruned = (Returns tt, pruned) ∧
    ∀ build_strategy',
      __init__ (PyProgram pruned) build_strategy'
      = Returns (fresh (Graph_of_desc pruned) (Some pruned) build_strategy').
Proof.
  unfold __init__. rewrite _prune_feed_ops_filter. intros [= <-].
  eexists. split; [reflexivity|].
  assert (Hnone : Forall (λ op, op_type op ≠ "feed")
                    (filter (λ op, op_type op ≠ "feed") (ops (global_block p)))).
  { apply Forall_forall. intros op Hop. by apply list_elem_of_filter in Hop as [? _]. }
  assert (Hfixed : filter (λ op, op_type op ≠ "feed")
                     (filter (λ op, op_type op ≠ "feed") (ops (global_block p)))
                   = filter (λ op, op_type op ≠ "feed") (ops (global_block p))).
  { generalize (ops (global_block p)) as l. intros l.
    induction l as [|op l IH]; [done|].
    destruct (decide (op_type op ≠ "feed")) as [Hop|Hop].
    - rewrite !filter_cons_True by done. by rewrite IH.
    - by rewrite filter_cons_False by done. }
  split; [exact Hnone|]. split; [reflexivity|].
  assert (Hprune : ∀ q,
    q = with_global_block
          (mkBlock (filter (λ op, op_type op ≠ "feed") (ops (global_block p)))
             (vars (global_block p))) p →
    _prune_feed_ops q = (Returns tt, q)).
  { intros q ->. rewrite _prune_feed_ops_filter. simpl. by rewrite Hfixed. }
  split; [by apply Hprune|].
  intros build_strategy'. by rewrite (Hprune _ eq_refl).
Qed.

(** X4. What a data-parallel compilation that returns has settled. The
    native constructor got the places as mapped, the persistable list,
    the scope the object holds (not the [scope] argument), the local
    scopes (those of the shared executor, or none) and the object's
    build strategy, a default one if it had none. With a program, that
    strategy carries the program's communication settings, and the
    program's endpoints when there are several trainers; and a program
    with DGC on was compiled only for more than one card, with the
    AllReduce strategy, and with fused all-reduce switched off. *)
Theorem data_parallel_returns places use_device scope st ex st' :
  _compile_data_parallel places use_device scope st = (Returns ex, st') →
  let given := default BuildStrategy_new (_build_strategy (self st)) in
  ∃ bs places',
    _build_strategy (self st') = Some bs ∧
    map_places places = Returns places' ∧
    core_CompiledProgram places' (persistable_list (self st)) ""
      (_scope (self st)) (_local_scopes (self st')) bs (_graph (self st))
    = Returns ex ∧
    match _share_vars_from (self st) with
    | Some shared =>
        ∃ shared_ex, shared_executor shared = Some shared_ex ∧
                     _local_scopes (self st') = local_scopes shared_ex
    | None => is_Some scope ∧ _local_scopes (self st') = []
    end ∧
    num_trainers bs = num_trainers given ∧
    reduce_strategy bs = reduce_strategy given ∧
    match _program (self st) with
    | None => bs = given
    | Some program =>
        nccl_comm_num bs = _nccl_comm_num program ∧
        use_hierarchical_allreduce bs = _use_hierarchical_allreduce program ∧
        hierarchical_allreduce_inter_nranks bs
        = _hierarchical_allreduce_inter_nranks program ∧
        (1 < num_trainers bs → _trainers_endpoints program ≠ [] →
         trainers_endpoints bs = _trainers_endpoints program ∧
         num_trainers bs = Z.of_nat (length (_trainers_endpoints program))) ∧
        (_enable_dgc program = true →
         fuse_all_reduce_ops bs = false ∧
         reduce_strategy bs = AllReduce ∧
         1 < num_trainers bs * Z.of_nat (length places))
    end.
Proof.
  intros Hrun given. subst given.
  destruct st as [[g program sc pl ex0 c inf shared pls given ic ls pv] es].
  unfold _compile_data_parallel, get_build_strategy, upd_build_strategy in Hrun.
  unfold bind, upd, emit, modify, gets, ret, raise, lift, assert in Hrun.
  simpl in *.
  destruct shared as [[[shared_ex|]]|]; simpl in Hrun;
    [destruct scope as [sc'|]; simpl in Hrun
    |destruct scope as [sc'|]; discriminate Hrun
    |destruct scope as [sc'|]; [simpl in Hrun | discriminate Hrun]].
  all: destruct given as [given|], program as [program|]; simpl in Hrun.
  all: repeat match type of Hrun with
         | context [if ?b then _ else _] =>
             lazymatch type of b with
             | bool =>
                 let Hb := fresh "Hb" in
                 destruct b eqn:Hb; simpl in Hrun; try discriminate Hrun
             end
         end.
  all: destruct (map_places places) as [places'|] eqn:Hplaces;
    simpl in Hrun; [|discriminate Hrun].
  all: try discriminate Hrun.
  all: injection Hrun as Hcore <-; simpl.
  all: eexists _, places'; split; [reflexivity|]; split; [reflexivity|].
  all: split; [exact Hcore|].
  all: repeat match goal with
              | Hb : bool_decide _ = true |- _ =>
                  apply bool_decide_eq_true in Hb
              | Hb : _ && _ = true |- _ =>
                  apply andb_true_iff in Hb as [? ?]
              end.
  all: repeat split; simpl; eauto; try done.
  all: exfalso;
    match goal with
    | Hb : bool_decide (1 < _) && bool_decide (?l ≠ []) = false,
      Hn : 1 < _, Hl : ?l ≠ [] |- _ =>
        simpl in Hn;
        rewrite (bool_decide_eq_true_2 _ Hn), (bool_decide_eq_true_2 _ Hl)
          in Hb;
        discriminate Hb
    end.
Qed.
End CompiledProgram_more.

Section CompiledProgram_places.
Context `{PlaceLists}.

Lemma check_place_types_Forall place place_list :
  check_place_types place place_list = Returns tt
  ↔ Forall (λ p, Place_type p = Place_type place) place_list.
Proof.
  induction place_list as [|p place_list IH]; simpl.
  - split; [constructor | done].
  - case_bool_decide as Hp.
    + rewrite IH. split; [by constructor | by inversion 1].
    + split; [done | by inversion 1].
Qed.

(** X6. [_get_places] never hands back an empty list, and never
    replaces a list it was given: a given list comes back as it is,
    exactly when it is not empty and every place in it has the type of
    [place] (an empty one is an error, not a request for the default);
    with no list given the result is the framework's list for the kind
    of [place], when that is not empty. *)
Theorem get_places_spec place :
  (∀ given l,
     _get_places place (Some given) = Returns l
     ↔ l = given ∧ given ≠ [] ∧
       Forall (λ p, Place_type p = Place_type place) given) ∧
  (∀ l,
     _get_places place None = Returns l
     ↔ l ≠ [] ∧
       match place with
       | CUDAPlace _ => cuda_places
       | XPUPlace _ => xpu_places
       | _ => cpu_places
       end = Returns l) ∧
  ∃ msg, _get_places place (Some []) = Raises (AssertionError msg).
Proof.
  split; [|split].
  - intros given l. unfold _get_places.
    rewrite <- check_place_types_Forall.
    destruct (check_place_types place given) as [[]|e].
    + case_bool_decide as Hne.
      * split; [by intros [= <-] | by intros (-> & _ & _)].
      * split; [done | by intros (_ & ? & _)].
    + split; [done | by intros (_ & _ & ?)].
  - intros l. unfold _get_places.
    match goal with
    | |- context [match ?lists with Returns _ => _ | Raises _ => _ end] =>
        destruct lists as [found|e]
    end.
    + case_bool_decide as Hne.
      * split; [by intros [= <-] | by intros [_ [= <-]]].
      * split; [done | intros [Hl [= <-]]; done].
    + split; [done | by intros [_ ?]].
  - eexists. reflexivity.
Qed.
End CompiledProgram_places.

(** ** More on IpuStrategy *)

Section IpuStrategy_more.
Context `{IpuCore}.
Import IpuStrategy.

Lemma on_core_frame {A} (m : Py CoreIpuStrategy A) o :
  has_custom_ops (on_core m o).2 = has_custom_ops o ∧
  custom_op_names (on_core m o).2 = custom_op_names o ∧
  need_compile (on_core m o).2 = need_compile o.
Proof. unfold on_core. by destruct (m (_ipu_strategy o)) as [r c]. Qed.

Lemma set_options_effect options o :
  has_custom_ops (set_options options o).2 = has_custom_ops o ∧
  custom_op_names (set_options options o).2 = custom_op_names o ∧
  need_compile (set_options options o).2
  = match (set_options options o).1 with
    | Returns _ =>
        need_compile o
        || bool_decide (dom options ∖ recompile_white_list ≠ ∅)
    | Raises _ => need_compile o
    end.
Proof.
  unfold set_options, bind.
  destruct (on_core_frame (core_set_options options) o) as (Hops & Hnames & Hflag).
  destruct (on_core (core_set_options options) o) as [[[]|e] o1]; simpl in *.
  - case_bool_decide; simpl; rewrite ?Hflag, ?orb_true_r, ?orb_false_r; done.
  - done.
Qed.

Lemma set_options_setter options o :
  dom options ∖ recompile_white_list ≠ ∅ →
  setter_effect o (set_options options o).
Proof.
  intros Hkeys. destruct (set_options_effect options o) as (Hops & Hnames & Hflag).
  split; [done|]. split; [done|]. rewrite Hflag.
  destruct (set_options options o).1; [|done].
  by rewrite bool_decide_eq_true_2, orb_true_r.
Qed.

Lemma raise_setter e o : setter_effect o (raise e o).
Proof. done. Qed.

Lemma outside_white_list (k : string) (options : gmap string OptionValue) :
  k ≠ "lr" → k ∈ dom options → dom options ∖ recompile_white_list ≠ ∅.
Proof.
  intros Hk Hin Hempty.
  assert (k ∈ dom options ∖ recompile_white_list) as Hdiff.
  { apply elem_of_difference. split; [done|].
    unfold recompile_white_list. by rewrite elem_of_singleton. }
  rewrite Hempty in Hdiff. by apply elem_of_empty in Hdiff.
Qed.

(** X7. Every configuration setter that returns leaves need_compile
    true, whatever it was and even when the values set are the ones
    already in force; one that raises leaves the flag as it was; and
    none of them touches the custom-op bookkeeping. *)
Theorem config_setters_effect o :
  (∀ num_ipus is_training micro_batch_size enable_manual_shard,
     setter_effect o
       (set_graph_config num_ipus is_training micro_batch_size
          enable_manual_shard o)) ∧
  (∀ enable_pipelining batches_per_step enable_gradient_accumulation
     accumulation_factor,
     setter_effect o
       (set_pipelining_config enable_pipelining batches_per_step
          enable_gradient_accumulation accumulation_factor o)) ∧
  (∀ enable_fp16, setter_effect o (set_precision_config enable_fp16 o)).
Proof.
  split; [|split].
  - intros num_ipus is_training micro_batch_size enable_manual_shard.
    rewrite set_graph_config_guard.
    destruct (bool_decide (num_ipus = 1) && enable_manual_shard);
      [apply raise_setter|].
    apply set_options_setter, (outside_white_list "num_ipus"); [done|].
    unfold graph_options. rewrite dom_insert_L. set_solver.
  - intros enable_pipelining batches_per_step enable_gradient_accumulation
      accumulation_factor.
    unfold set_pipelining_config, get_option, bind, get, lift.
    destruct (core_get_option "enable_manual_shard" (_ipu_strategy o))
      as [v|e]; [|done].
    destruct (negb (truthy v) && enable_pipelining); [apply raise_setter|].
    apply set_options_setter, (outside_white_list "enable_pipelining");
      [done|].
    unfold pipelining_options. rewrite dom_insert_L. set_solver.
  - intros enable_fp16. unfold set_precision_config.
    apply set_options_setter, (outside_white_list "enable_fp16"); [done|].
    rewrite dom_insert_L. set_solver.
Qed.

(** X9. [set_optimizer] hands its options to the native strategy
    directly, not through [set_options]: it never changes need_compile,
    although it sets is_dynamic. Outside dynamic mode it raises and
    changes nothing. In dynamic mode the optimizer is recorded before
    anything can fail; a learning rate that is neither a float nor a
    scheduler raises TypeError with the native strategy untouched;
    otherwise the native strategy is handed exactly lr and is_dynamic. *)
Theorem set_optimizer_effect in_dynamic_mode optimizer s :
  let run := set_optimizer in_dynamic_mode optimizer s in
  need_compile (strategy_of run.2) = need_compile (strategy_of s) ∧
  has_custom_ops (strategy_of run.2) = has_custom_ops (strategy_of s) ∧
  custom_op_names (strategy_of run.2) = custom_op_names (strategy_of s) ∧
  (in_dynamic_mode = false →
   run = (Raises (RuntimeError "Only needs to set optimizer in dynamic mode."),
          s)) ∧
  (in_dynamic_mode = true →
   _optimizer run.2 = Some optimizer ∧
   match _learning_rate optimizer with
   | LrFloat bits | LrScheduler (Returns bits) =>
       (run.1, strategy_of run.2)
       = on_core
           (core_set_options
              (<["lr" := VFloat bits]> (<["is_dynamic" := VBool true]> ∅)))
           (strategy_of s)
   | LrScheduler (Raises e) =>
       run.1 = Raises e ∧ strategy_of run.2 = strategy_of s
   | LrOther =>
       (∃ msg, run.1 = Raises (TypeError msg)) ∧
       strategy_of run.2 = strategy_of s
   end).
Proof.
  intros run. subst run. destruct s as [o old].
  assert (Hunion : ∀ bits,
    (<["lr" := VFloat bits]> ∅ : gmap string OptionValue)
    ∪ <["is_dynamic" := VBool true]> ∅
    = <["lr" := VFloat bits]> (<["is_dynamic" := VBool true]> ∅)).
  { intros bits. by rewrite <- insert_union_l, (left_id_L ∅ (∪)). }
  destruct in_dynamic_mode; simpl.
  2:{ repeat split; done. }
  unfold bind, modify, lift, parse_optimizer, get_lr. simpl.
  destruct (_learning_rate optimizer) as [bits|[bits|e]|]; simpl.
  - rewrite Hunion.
    destruct (on_core_frame
                (core_set_options
                   (<["lr" := VFloat bits]> (<["is_dynamic" := VBool true]> ∅)))
                o) as (Hops & Hnames & Hflag).
    destruct (on_core _ o) as [r o']. simpl in *. repeat split; done.
  - rewrite Hunion.
    destruct (on_core_frame
                (core_set_options
                   (<["lr" := VFloat bits]> (<["is_dynamic" := VBool true]> ∅)))
                o) as (Hops & Hnames & Hflag).
    destruct (on_core _ o) as [r o']. simpl in *. repeat split; done.
  - repeat split; done.
  - repeat split; try done. eexists. reflexivity.
Qed.

(** X10. The patched scheduler step passes the learning rate on through
    [set_options], and never raises need_compile by it: stepping the
    scheduler does not ask for a new compilation. *)
Theorem patch_step_keeps_flag old_step o :
  let run := patch_step old_step o in
  need_compile run.2 = need_compile o ∧
  has_custom_ops run.2 = has_custom_ops o ∧
  custom_op_names run.2 = custom_op_names o ∧
  match old_step with
  | Returns last_lr =>
      (run.1, _ipu_strategy run.2)
      = core_set_options (<["lr" := VFloat last_lr]> ∅) (_ipu_strategy o)
  | Raises e => run = (Raises e, o)
  end.
Proof.
  intros run. subst run. unfold patch_step, bind, lift.
  destruct old_step as [last_lr|e]; [|done].
  destruct (set_options_effect (<["lr" := VFloat last_lr]> ∅) o)
    as (Hops & Hnames & Hflag).
  split.
  { rewrite Hflag. destruct (set_options _ o).1; [|done].
    rewrite bool_decide_eq_false_2, orb_false_r; [done|].
    intros Hne. apply Hne. rewrite dom_insert_L, dom_empty_L.
    unfold recompile_white_list. set_solver. }
  split; [done|]. split; [done|].
  unfold set_options, bind, on_core.
  destruct (core_set_options _ (_ipu_strategy o)) as [[[]|e] c]; [|done].
  by case_bool_decide.
Qed.
End IpuStrategy_more.

Section IpuStrategy_custom_ops.
Context `{NativeCore} `{IpuPasses}.
Import IpuStrategy.

(** X8. [add_custom_op], when it returns, has appended the paddle name
    to custom_op_names (a name added twice is there twice), set
    has_custom_ops and raised need_compile, and an IpuCompiledProgram
    constructed with the strategy afterwards knows the name; when the
    native strategy rejects the op, names, has_custom_ops and flag are
    as they were. *)
Theorem add_custom_op_bookkeeping paddle_op popart_op domain version o r o' :
  add_custom_op paddle_op popart_op domain version o = (r, o') →
  match r with
  | Returns _ =>
      custom_op_names o' = (custom_op_names o ++ [paddle_op])%list ∧
      has_custom_ops o' = true ∧
      need_compile o' = true ∧
      ∀ program scope global_scope b w,
        IpuCompiledProgram.__init__ program scope global_scope o' b
        = Returns w →
        paddle_op ∈ IpuCompiledProgram._custom_op_names
                      (IpuCompiledProgram.this w)
  | Raises _ =>
      custom_op_names o' = custom_op_names o ∧
      has_custom_ops o' = has_custom_ops o ∧
      need_compile o' = need_compile o
  end.
Proof.
  unfold add_custom_op. cbv zeta. unfold bind at 1.
  match goal with
  | |- context [set_options ?options o] =>
      destruct (set_options_effect options o) as (Hops & Hnames & Hflag);
      assert (Hkeys : bool_decide (dom options ∖ recompile_white_list ≠ ∅)
                      = true);
      [|destruct (set_options options o) as [[[]|e] o1]]
  end.
  { apply bool_decide_eq_true_2, (outside_white_list "custom_op"); [done|].
    rewrite dom_insert_L. set_solver. }
  - simpl in *. rewrite Hkeys, orb_true_r in Hflag.
    unfold bind, modify, get. simpl.
    destruct (has_custom_ops o1) eqn:Hhas; simpl; intros [= <- <-]; simpl.
    + rewrite Hnames, Hhas. split; [done|]. split; [done|]. split; [done|].
      intros program scope global_scope b w. unfold IpuCompiledProgram.__init__.
      destruct (negb is_compiled_with_ipu); [done|]. simpl. rewrite Hhas.
      intros [= <-]. simpl. rewrite elem_of_list_to_set, elem_of_app.
      right. by apply list_elem_of_singleton.
    + rewrite Hnames. split; [done|]. split; [done|]. split; [done|].
      intros program scope global_scope b w. unfold IpuCompiledProgram.__init__.
      destruct (negb is_compiled_with_ipu); [done|]. simpl.
      intros [= <-]. simpl. rewrite elem_of_list_to_set, elem_of_app.
      right. by apply list_elem_of_singleton.
  - simpl in *. intros [= <- <-]. done.
Qed.
End IpuStrategy_custom_ops.

(** ** The patch registry *)

Section IpuDynamicPatcher_registry_props.
Context {StrategyRef : Type}.
Implicit Types c : @Classes StrategyRef.

Lemma foldl_setattr_patcher_cache l c :
  patcher_cache (foldl setattr c l) = patcher_cache c.
Proof.
  revert c. induction l as [|entry l IH]; intros c; simpl; [done|].
  rewrite IH. by destruct entry.
Qed.

Lemma release_patch_last c l getter old_step :
  patcher_cache c
  = (l ++ [ProgramCache___getitem__ getter; LRScheduler_step old_step])%list →
  release_patch c = mkClasses getter old_step (patcher_cache c).
Proof.
  intros Hlist. unfold release_patch. rewrite Hlist at 1.
  rewrite foldl_app. simpl.
  by rewrite foldl_setattr_patcher_cache.
Qed.

(** X21. [release_patch] undoes the latest registration and no more: it
    walks the whole of [patcher_cache], oldest entry first, and never
    empties it, so what stays installed is what was there before the
    last [register_patch]. After two registrations that is the first
    strategy's patch, not the original getter and step; releasing again
    changes nothing. *)
Theorem release_undoes_last_registration ipu_strategy c :
  let released := release_patch (register_patch ipu_strategy c) in
  __getitem__ released = __getitem__ c ∧
  step released = step c ∧
  patcher_cache released
  = (patcher_cache c
     ++ [ProgramCache___getitem__ (__getitem__ c);
         LRScheduler_step (step c)])%list ∧
  release_patch released = released ∧
  ∀ first c0,
    c = register_patch first c0 →
    __getitem__ released = patch_getter_over first ∧
    step released = patch_step_over first (step c0).
Proof.
  intros released.
  assert (Hlist : patcher_cache (register_patch ipu_strategy c)
                  = (patcher_cache c
                     ++ [ProgramCache___getitem__ (__getitem__ c);
                         LRScheduler_step (step c)])%list).
  { unfold register_patch, patch_lr_scheduler, patch_program_cache. simpl.
    by rewrite <- app_assoc. }
  assert (Hreleased : released
                      = mkClasses (__getitem__ c) (step c)
                          (patcher_cache (register_patch ipu_strategy c))).
  { subst released. by apply release_patch_last in Hlist. }
  rewrite Hreleased. simpl.
  split; [done|]. split; [done|]. split; [done|]. split.
  - erewrite release_patch_last; [reflexivity|]. simpl. exact Hlist.
  - by intros first c0 ->.
Qed.
End IpuDynamicPatcher_registry_props.

(** ** The IpuCompiledProgram constructor *)

Section IpuCompiledProgram_constructor_props.
Context `{NativeCore} `{IpuPasses}.
Import IpuCompiledProgram.

(** X11. The constructor's default for [ipu_strategy] cannot be used:
    with no strategy given it never returns, for after storing a new
    [IpuStrategy()] it reads has_custom_ops off the argument, which is
    None. It returns exactly when the build has IPU support, a strategy
    is given, and [program] is a Program or left out (then the default
    main program is taken); the object then shares the given strategy
    and has not been compiled. *)
Theorem constructor_needs_strategy default_main_program global_scope
    new_strategy program scope ipu_strategy b :
  let construct :=
    IpuCompiledProgram___init__ default_main_program global_scope
      new_strategy in
  (∀ w, construct program scope None b ≠ Returns w) ∧
  (is_compiled_with_ipu = true →
   (∀ type_repr, program ≠ Some (ArgOther type_repr)) →
   (∃ s, new_strategy = Returns s) →
   ∃ msg, construct program scope None b = Raises (AttributeError msg)) ∧
  (∀ w, construct program scope ipu_strategy b = Returns w ↔
     is_compiled_with_ipu = true ∧
     ∃ s p, ipu_strategy = Some s ∧
       (program = Some (ArgProgram p)
        ∨ program = None ∧ p = default_main_program) ∧
       __init__ p scope global_scope s b = Returns w ∧
       strategy w = s ∧ _program (this w) = p ∧ _compiled (this w) = false).
Proof.
  intros construct. subst construct. unfold IpuCompiledProgram___init__.
  split; [|split].
  - intros w. destruct (negb is_compiled_with_ipu); [done|].
    destruct (default _ program); [|done]. simpl.
    by destruct new_strategy.
  - intros -> Hprogram [s ->]. simpl.
    destruct program as [[p|type_repr]|]; simpl.
    + eexists. reflexivity.
    + by destruct (Hprogram type_repr).
    + eexists. reflexivity.
  - intros w. unfold __init__.
    destruct is_compiled_with_ipu; simpl.
    2:{ split; [done | by intros [? _]]. }
    destruct ipu_strategy as [s|].
    2:{ split.
        - destruct (default _ program); [|done]. simpl.
          by destruct new_strategy.
        - by intros (_ & s & p & ? & _). }
    destruct program as [[p|type_repr]|]; simpl.
    + split.
      * intros [= <-]. split; [done|]. exists s, p. simpl. eauto 10.
      * intros (_ & s' & p' & [= <-] & [[= <-]|[? _]] & Hw & _); done.
    + split; [done|].
      intros (_ & s' & p' & _ & [?|[? _]] & _); done.
    + split.
      * intros [= <-]. split; [done|].
        exists s, default_main_program. simpl. eauto 10.
      * intros (_ & s' & p' & [= <-] & [?|[_ ->]] & Hw & _); done.
Qed.
End IpuCompiledProgram_constructor_props.

(** * The code on the sample inputs *)

#[local] Existing Instance Sample.native.
#[local] Existing Instance Sample.ipu_core.
#[local] Existing Instance Sample.ipu_passes.
#[local] Existing Instance Sample.dy2static.

(** Both sides are closed: the kernel runs them and compares. *)
Ltac by_running :=
  lazymatch goal with
  | |- _ = ?rhs => exact_no_check (@eq_refl _ rhs)
  end.

Lemma run_returned {A S} (d : A) (run : outcome A * S) :
  Sample.is_returns run.1 = true →
  run = (Returns (Sample.returned d run.1), run.2).
Proof. destruct run as [[a|e] s]; [reflexivity | discriminate]. Qed.

(** ** CompiledProgram *)

(** The feed operator goes, the scale and fetch operators stay. *)
Example init_prunes_feed :
  CompiledProgram.__init__ (CompiledProgram.PyProgram Sample.program_xy) None
  = Returns
      (CompiledProgram.fresh
         (Sample.graph_of Sample.program_xy)
         (Some (with_global_block
                  (mkBlock [mkOperator "scale" true; mkOperator "fetch" false]
                           (vars Sample.block_xy))
                  Sample.program_xy))
         None).
Proof. by_running. Qed.

(** From duplicated and unordered persistable nodes the list is [a, b]. *)
Lemma persistable_vars_sorted_distinct_witness :
  Sample.from_program_run.1 = Returns tt ∧
  CompiledProgram._persistable_vars
    (CompiledProgram.self Sample.from_program_run.2) = ["a"; "b"] ∧
  NoDup (CompiledProgram._persistable_vars
           (CompiledProgram.self Sample.from_program_run.2)) ∧
  Sorted str_le (CompiledProgram._persistable_vars
                   (CompiledProgram.self Sample.from_program_run.2)).
Proof.
  assert (Hret : Sample.is_returns Sample.from_program_run.1 = true)
    by by_running.
  pose proof (run_returned tt _ Hret) as Hrun.
  destruct (persistable_vars_sorted_distinct (H := Sample.native)
              [Some CPUPlace] CPU (Some (ScopeRef 1)) Sample.from_program
              (Sample.returned tt Sample.from_program_run.1)
              Sample.from_program_run.2 Hrun) as (Hnodup & Hsorted & _).
  split; [by_running|]. split; [by_running|].
  split; assumption.
Defined.

(** C3 as stated fails for a CompiledProgram made from a raw Graph: the
    node [w] is persistable and not RAW, nothing marks it distributed,
    and the list is empty all the same. *)
Lemma persistable_vars_raw_graph_counterexample :
  CompiledProgram.__init__ (CompiledProgram.PyGraph (mkGraph [Sample.node_w])) None
  = Returns (CompiledProgram.self Sample.from_graph) ∧
  Sample.from_graph_run.1 = Returns tt ∧
  Sample.node_w ∈ nodes (CompiledProgram._graph (CompiledProgram.self Sample.from_graph)) ∧
  persistable_node Sample.node_w ∧
  CompiledProgram._persistable_vars
    (CompiledProgram.self Sample.from_graph_run.2) = [] ∧
  name Sample.node_w
    ∉ CompiledProgram._persistable_vars
        (CompiledProgram.self Sample.from_graph_run.2).
Proof.
  assert (Hempty : CompiledProgram._persistable_vars
                     (CompiledProgram.self Sample.from_graph_run.2) = [])
    by by_running.
  split; [reflexivity|]. split; [by_running|].
  split; [apply list_elem_of_singleton; reflexivity|].
  split; [split; [reflexivity | eexists; repeat split; discriminate]|].
  split; [exact Hempty|]. rewrite Hempty. apply not_elem_of_nil.
Qed.

Lemma compile_again_witness :
  CompiledProgram._compile (Some (ScopeRef 1)) (Some CPUPlace) Sample.compiled
  = (Returns (CompiledProgram.self Sample.compiled), Sample.compiled) ∧
  CompiledProgram._compile (Some (ScopeRef 2)) (Some CPUPlace) Sample.compiled
  = (Raises (ValueError "Cannot compile program with different scope."),
     Sample.compiled) ∧
  ∃ e, CompiledProgram._compile (Some (ScopeRef 1)) (Some (CUDAPlace 0))
         Sample.compiled
       = (Raises e, Sample.compiled).
Proof.
  assert (Hc : CompiledProgram._compiled (CompiledProgram.self Sample.compiled)
               = true) by by_running.
  assert (Hs : CompiledProgram._scope (CompiledProgram.self Sample.compiled)
               = Some (ScopeRef 1)) by by_running.
  assert (Hp : CompiledProgram._place (CompiledProgram.self Sample.compiled)
               = Some CPUPlace) by by_running.
  split; [|split].
  - apply (proj1 (compile_again (H := Sample.native)
             (Some (ScopeRef 1)) (Some CPUPlace) _ Hc)).
    + left. by rewrite Hs.
    + right. exists CPUPlace, CPUPlace. split; [exact Hp|].
      split; reflexivity.
  - apply (proj1 (proj2 (compile_again (H := Sample.native)
             (Some (ScopeRef 2)) (Some CPUPlace) _ Hc)) (ScopeRef 2));
      [reflexivity | rewrite Hs; discriminate].
  - apply (proj2 (proj2 (compile_again (H := Sample.native)
             (Some (ScopeRef 1)) (Some (CUDAPlace 0)) _ Hc)) (CUDAPlace 0));
      [left; by rewrite Hs | reflexivity |].
    intros own Hown. rewrite Hp in Hown. injection Hown as <-. reflexivity.
Defined.

(** C4 as stated fails when the second call leaves the scope out: None
    is not the scope the object was compiled with, and the call returns
    the object instead of raising. The same holds for a place left out. *)
Lemma compile_again_none_scope_counterexample :
  CompiledProgram._compiled (CompiledProgram.self Sample.compiled) = true ∧
  CompiledProgram._scope (CompiledProgram.self Sample.compiled)
  = Some (ScopeRef 1) ∧
  CompiledProgram._place (CompiledProgram.self Sample.compiled)
  = Some CPUPlace ∧
  None ≠ CompiledProgram._scope (CompiledProgram.self Sample.compiled) ∧
  CompiledProgram._compile None (Some CPUPlace) Sample.compiled
  = (Returns (CompiledProgram.self Sample.compiled), Sample.compiled) ∧
  CompiledProgram._compile (Some (ScopeRef 1)) None Sample.compiled
  = (Returns (CompiledProgram.self Sample.compiled), Sample.compiled).
Proof.
  assert (Hs : CompiledProgram._scope (CompiledProgram.self Sample.compiled)
               = Some (ScopeRef 1)) by by_running.
  split; [by_running|]. split; [exact Hs|]. split; [by_running|].
  split; [rewrite Hs; discriminate|]. split; by_running.
Qed.

(** ** IpuStrategy *)


(** One IPU and manual sharding: refused. Zero IPUs and manual sharding:
    accepted, and the strategy then has manual sharding on. *)
Example set_graph_config_one_and_zero :
  IpuStrategy.set_graph_config 1 true 1 true (Sample.strategy false)
  = (Raises (RuntimeError
       "Only if num_ipus > 1, enable_manual_shard is able to be set True."),
     Sample.strategy false) ∧
  (IpuStrategy.set_graph_config 0 true 1 true (Sample.strategy false)).1
  = Returns tt ∧
  (IpuStrategy.get_option "enable_manual_shard"
     (IpuStrategy.set_graph_config 0 true 1 true (Sample.strategy false)).2).1
  = Returns (VBool true) ∧
  (IpuStrategy.get_option "num_ipus"
     (IpuStrategy.set_graph_config 0 true 1 true (Sample.strategy false)).2).1
  = Returns (VInt 0).
Proof. repeat split; by_running. Qed.

Lemma set_pipelining_config_guard_witness :
  IpuStrategy.set_pipelining_config true 4 false 1 (Sample.strategy false)
  = (Raises (RuntimeError
       "Only if enable_manual_shard=True, enable_pipelining is able to be set True."),
     Sample.strategy false) ∧
  IpuStrategy.set_pipelining_config false 1 false 1 (Sample.strategy false)
  = IpuStrategy.set_options (IpuStrategy.pipelining_options false 1 false 1)
      (Sample.strategy false) ∧
  IpuStrategy.set_pipelining_config true 4 false 1 Sample.sharded
  = IpuStrategy.set_options (IpuStrategy.pipelining_options true 4 false 1)
      Sample.sharded ∧
  (IpuStrategy.get_option "enable_pipelining"
     (IpuStrategy.set_pipelining_config true 4 false 1 Sample.sharded).2).1
  = Returns (VBool true) ∧
  (IpuStrategy.get_option "batches_per_step"
     (IpuStrategy.set_pipelining_config true 4 false 1 Sample.sharded).2).1
  = Returns (VInt 4).
Proof.
  assert (Hoff : core_get_option "enable_manual_shard"
                   (IpuStrategy._ipu_strategy (Sample.strategy false))
                 = Returns (VBool false)) by by_running.
  assert (Hon : core_get_option "enable_manual_shard"
                  (IpuStrategy._ipu_strategy Sample.sharded)
                = Returns (VBool true)) by by_running.
  split; [|split; [|split]].
  - apply (proj1 (set_pipelining_config_guard (H := Sample.ipu_core)
             true 4 false 1 _ _ Hoff)); reflexivity.
  - apply (proj1 (proj2 (set_pipelining_config_guard (H := Sample.ipu_core)
             false 1 false 1 _ _ Hoff))). right. reflexivity.
  - apply (proj1 (proj2 (set_pipelining_config_guard (H := Sample.ipu_core)
             true 4 false 1 _ _ Hon))). left. reflexivity.
  - split; by_running.
Defined.

(** ** IpuCompiledProgram *)

Lemma compile_resets_need_compile_witness :
  IpuStrategy.need_compile (IpuCompiledProgram.strategy Sample.ipu_world) = true ∧
  Sample.ipu_run.1 = Returns Sample.ipu_program ∧
  IpuStrategy.need_compile (IpuCompiledProgram.strategy Sample.ipu_run.2)
  = false.
Proof.
  assert (Hret : Sample.is_returns Sample.ipu_run.1 = true) by by_running.
  pose proof (run_returned Sample.program_xy _ Hret) as Hrun.
  split; [reflexivity|]. split; [by rewrite Hrun at 1|].
  exact (compile_resets_need_compile (H := Sample.native)
           (H1 := Sample.ipu_passes) ["x"] ["y"] Sample.ipu_world _ _ Hrun).
Defined.

(** [x] is fed and loses its check; [y] is not and keeps it. *)
Lemma compile_clears_need_check_feed_witness :
  Sample.ipu_run.1 = Returns Sample.ipu_program ∧
  is_Some (vars (global_block Sample.ipu_program) !! "x") ∧
  (∀ v, vars (global_block Sample.ipu_program) !! "x" = Some v →
        need_check_feed v = false) ∧
  need_check_feed <$> vars (global_block Sample.ipu_program) !! "y"
  = Some true.
Proof.
  assert (Hret : Sample.is_returns Sample.ipu_run.1 = true) by by_running.
  pose proof (run_returned Sample.program_xy _ Hret) as Hrun.
  split; [by rewrite Hrun at 1|].
  destruct (compile_clears_need_check_feed (H := Sample.native)
              (H1 := Sample.ipu_passes) ["x"] ["y"] Sample.ipu_world _ _ Hrun "x")
    as [Hx Hflag].
  { apply list_elem_of_singleton. reflexivity. }
  split; [exact Hx|]. split; [exact Hflag | by_running].
Defined.

(** ** The patched program cache *)

(** Two lookups under fingerprint 7: the first builds, the second
    returns what the first stored and builds nothing. *)
Lemma patch_getter_hit_or_build_witness :
  Sample.first_7.1 = Returns Sample.entry_xy ∧
  Sample.second_7.1 = Returns Sample.entry_xy ∧
  builds (IpuDynamicPatcher.events Sample.first_7.2) = 1%nat ∧
  IpuDynamicPatcher.events Sample.second_7.2
  = IpuDynamicPatcher.events Sample.first_7.2.
Proof.
  assert (Hmiss : IpuDynamicPatcher._caches
                    (IpuDynamicPatcher.cache Sample.empty_cache) !! 7 = None)
    by by_running.
  assert (Hret : Sample.is_returns Sample.first_7.1 = true) by by_running.
  assert (Hflag : IpuStrategy.need_compile
                    (IpuDynamicPatcher.ipu_strategy Sample.first_7.2) = false)
    by by_running.
  pose proof (run_returned Sample.no_entry _ Hret) as Hfirst.
  destruct (patch_getter_hit_or_build (H := Sample.native)
              (H1 := Sample.ipu_passes) (H2 := Sample.dy2static)
              7 Sample.empty_cache) as [_ Hbuild].
  destruct (Hbuild (or_introl Hmiss))
    as (rb & w1 & r & w' & _ & Hget & Hcount & Hres).
  assert (Hr : r = Sample.first_7.1) by (rewrite Hget; reflexivity).
  assert (Hw' : w' = Sample.first_7.2) by (rewrite Hget; reflexivity).
  subst r w'. destruct rb as [entry|e].
  2:{ destruct Hres as [Hraises _]. rewrite Hraises in Hret. discriminate Hret. }
  destruct Hres as (Hentry & _ & Hstored).
  assert (Hxy : Sample.entry_xy = entry) by (rewrite Hentry; reflexivity).
  rewrite <- Hxy in Hstored.
  destruct (proj1 (patch_getter_hit_or_build (H := Sample.native)
                     (H1 := Sample.ipu_passes) (H2 := Sample.dy2static)
                     (7 : @CacheKey Sample.dy2static) _) _ Hstored Hflag)
    as (w2 & Hget2 & _ & Hevents).
  split; [rewrite Hfirst at 1; reflexivity|].
  split; [rewrite Hget2; reflexivity|].
  split; [exact Hcount|]. rewrite Hget2. exact Hevents.
Defined.

(** Fingerprints 7, 7 and 8 in turn: no fingerprint is lost on the way,
    and the second build, which takes the cache past its ceiling of one,
    logs the warning last and still returns its entry. *)
Lemma cache_grows_and_warns_witness :
  dom (IpuDynamicPatcher._caches (IpuDynamicPatcher.cache Sample.empty_cache))
    ⊆ dom (IpuDynamicPatcher._caches
             (IpuDynamicPatcher.cache
                (IpuDynamicPatcher.lookups
                   [IpuDynamicPatcher.ItemKey 7; IpuDynamicPatcher.ItemKey 7;
                    IpuDynamicPatcher.ItemKey 8] Sample.empty_cache))) ∧
  Sample.first_8.1 = Returns (Sample.returned Sample.no_entry Sample.build_8.1) ∧
  IpuDynamicPatcher._caches (IpuDynamicPatcher.cache Sample.first_8.2) !! 8
  = Some (Sample.returned Sample.no_entry Sample.build_8.1) ∧
  last (IpuDynamicPatcher.events Sample.first_8.2)
  = Some (WarnTooManyTraced 2 1).
Proof.
  destruct (cache_grows_and_warns (H := Sample.native)
              (H1 := Sample.ipu_passes) (H2 := Sample.dy2static))
    as [Hgrow Hwarn].
  assert (Hmiss : IpuDynamicPatcher._caches
                    (IpuDynamicPatcher.cache Sample.second_7.2) !! 8 = None)
    by by_running.
  assert (Hret : Sample.is_returns Sample.build_8.1 = true) by by_running.
  pose proof (run_returned Sample.no_entry _ Hret) as Hbuild.
  destruct (Hwarn (8 : @CacheKey Sample.dy2static) _ _ _
              (or_introl Hmiss) Hbuild)
    as (w' & Hget & Hstored & Hover & _).
  assert (Hw' : w' = Sample.first_8.2) by (rewrite Hget; reflexivity).
  subst w'.
  assert (Hsize : size (IpuDynamicPatcher._caches
                          (IpuDynamicPatcher.cache Sample.first_8.2)) = 2%nat)
    by by_running.
  split; [apply Hgrow|]. split; [rewrite Hget; reflexivity|].
  split; [exact Hstored|].
  rewrite Hover.
  - rewrite Hsize. apply last_snoc.
  - rewrite Hsize. change (@MAX_TRACED_PROGRAM_COUNT Sample.dy2static) with 1%nat.
    lia.
Defined.

(** The feed and fetch operators of the sample program are gone from the
    program the object holds, and [scale] is no longer a target. *)
Lemma compile_strips_source_witness :
  Sample.ipu_run.1 = Returns Sample.ipu_program ∧
  global_block (IpuCompiledProgram._program
                  (IpuCompiledProgram.this Sample.ipu_run.2))
  = mkBlock
      (filter (λ op, op_type op ≠ "feed" ∧ op_type op ≠ "fetch")
         ((λ op, mkOperator (op_type op) false) <$> ops Sample.block_xy))
      (delete "fetch" (delete "feed" (vars Sample.block_xy))) ∧
  ops (global_block (IpuCompiledProgram._program
                       (IpuCompiledProgram.this Sample.ipu_run.2)))
  = [mkOperator "scale" false].
Proof.
  assert (Hret : Sample.is_returns Sample.ipu_run.1 = true) by by_running.
  pose proof (run_returned Sample.program_xy _ Hret) as Hrun.
  split; [by rewrite Hrun at 1|].
  split; [|by_running].
  exact (compile_strips_source (H := Sample.native)
           (H1 := Sample.ipu_passes) ["x"] ["y"] Sample.ipu_world _ _ Hrun).
Defined.

(** The returned sample program is what the conversion made of the
    object's graph, but for [x]: [y], which is not fed, is the converted
    program's [y]. *)
Lemma compile_keeps_other_variables_witness :
  Sample.ipu_run.1 = Returns Sample.ipu_program ∧
  ∃ b g converted g',
    graph_to_program (b, g)
    = (Returns converted, (IpuCompiledProgram.backend Sample.ipu_run.2, g')) ∧
    IpuCompiledProgram._graph (IpuCompiledProgram.this Sample.ipu_run.2)
    = Some g' ∧
    ops (global_block Sample.ipu_program) = ops (global_block converted) ∧
    dom (vars (global_block Sample.ipu_program))
    = dom (vars (global_block converted)) ∧
    vars (global_block Sample.ipu_program) !! "y"
    = vars (global_block converted) !! "y".
Proof.
  assert (Hret : Sample.is_returns Sample.ipu_run.1 = true) by by_running.
  pose proof (run_returned Sample.program_xy _ Hret) as Hrun.
  split; [by rewrite Hrun at 1|].
  destruct (compile_keeps_other_variables (H := Sample.native)
              (H1 := Sample.ipu_passes) ["x"] ["y"] Sample.ipu_world _ _ Hrun)
    as (is_training & b & g & converted & g' & _ & _ & Hconv & Hgraph
        & Hops & Hdom & Hvars).
  exists b, g, converted, g'. split; [exact Hconv|]. split; [exact Hgraph|].
  split; [exact Hops|]. split; [exact Hdom|]. apply Hvars.
  intros Hy%list_elem_of_singleton. discriminate Hy.
Defined.

(** After the first lookup under fingerprint 7 the flag is down and the
    entry is stored under 7, the recent key. *)
Lemma patch_getter_returns_flag_witness :
  Sample.first_7.1 = Returns Sample.entry_xy ∧
  IpuStrategy.need_compile (IpuDynamicPatcher.ipu_strategy Sample.first_7.2)
  = false ∧
  IpuDynamicPatcher._caches (IpuDynamicPatcher.cache Sample.first_7.2) !! 7
  = Some Sample.entry_xy ∧
  IpuDynamicPatcher._recent_key (IpuDynamicPatcher.cache Sample.first_7.2)
  = Some 7.
Proof.
  assert (Hret : Sample.is_returns Sample.first_7.1 = true) by by_running.
  pose proof (run_returned Sample.no_entry _ Hret) as Hfirst.
  destruct (patch_getter_returns_flag (H := Sample.native)
              (H1 := Sample.ipu_passes) (H2 := Sample.dy2static)
              _ _ _ _ Hfirst) as (Hflag & key & Hkey & Hstored & Hrecent).
  injection Hkey as <-.
  split; [rewrite Hfirst at 1; reflexivity|].
  split; [exact Hflag|]. split; [exact Hstored | exact Hrecent].
Defined.

(** The second lookup under fingerprint 7 returns the first one's entry
    and leaves the world of the first one as it is. *)
Lemma patch_getter_again_witness :
  Sample.first_7.1 = Returns Sample.entry_xy ∧
  Sample.second_7 = (Returns Sample.entry_xy, Sample.first_7.2).
Proof.
  assert (Hret : Sample.is_returns Sample.first_7.1 = true) by by_running.
  pose proof (run_returned Sample.no_entry _ Hret) as Hfirst.
  split; [rewrite Hfirst at 1; reflexivity|].
  exact (patch_getter_again (H := Sample.native)
           (H1 := Sample.ipu_passes) (H2 := Sample.dy2static)
           (7 : @CacheKey Sample.dy2static) _ _ _
           (7 : @CacheKey Sample.dy2static) Hfirst eq_refl).
Defined.

Lemma run_raised {A S} (run : outcome A * S) :
  Sample.is_returns run.1 = false →
  run = (Raises (Sample.raised run.1), run.2).
Proof. destruct run as [[a|e] s]; [discriminate | reflexivity]. Qed.

Lemma outcome_returned {A} (d : A) (o : outcome A) :
  Sample.is_returns o = true → o = Returns (Sample.returned d o).
Proof. destruct o; [reflexivity | discriminate]. Qed.

(** ** More of CompiledProgram *)

(** Compiling the raw-graph object with no scope fails on the scope
    assertion; the object is compiled all the same, and the call made
    again returns it, executor missing. *)
Lemma compile_failure_sticks_witness :
  Sample.failed_run.1 = Raises (AssertionError "") ∧
  CompiledProgram._compiled (CompiledProgram.self Sample.failed_run.2) = true ∧
  CompiledProgram._scope (CompiledProgram.self Sample.failed_run.2) = None ∧
  CompiledProgram._place (CompiledProgram.self Sample.failed_run.2)
  = Some CPUPlace ∧
  CompiledProgram._executor (CompiledProgram.self Sample.failed_run.2) = None ∧
  CompiledProgram._compile None (Some CPUPlace) Sample.failed_run.2
  = (Returns (CompiledProgram.self Sample.failed_run.2), Sample.failed_run.2).
Proof.
  assert (Hret : Sample.is_returns Sample.failed_run.1 = false) by by_running.
  pose proof (run_raised _ Hret) as Hrun.
  assert (Hrefl : ∀ p, Some CPUPlace = Some p →
                       @Place_equals Sample.native p p = true).
  { intros p [= <-]. reflexivity. }
  split; [by_running|].
  exact (compile_failure_sticks (H := Sample.native) None (Some CPUPlace)
           Sample.from_graph _ _ eq_refl Hrefl Hrun).
Defined.

(** The raw-graph object, switched to inference and compiled with no
    scope and no place: one predictor is asked for, nothing else. *)
Lemma inference_compile_witness :
  Sample.is_returns Sample.inference_run.1 = true ∧
  CompiledProgram.events
    (CompiledProgram._compile None None Sample.inference_run.2).2
  = [NativePredictor].
Proof.
  assert (Hret : Sample.is_returns Sample.inference_run.1 = true)
    by by_running.
  pose proof (run_returned (CompiledProgram.self Sample.from_graph) _ Hret)
    as Hrun.
  split; [exact Hret|].
  assert (Hfresh : CompiledProgram._compiled
                     (CompiledProgram.self Sample.from_graph) = false)
    by reflexivity.
  destruct (inference_compile (H := Sample.native) _ _ _ _ None None
              Hfresh Hrun) as (c & _ & _ & Hevents & _).
  exact Hevents.
Defined.

(** With the capturing core the raw-graph object is not compiled. *)
Lemma capturing_never_builds_witness :
  (∃ e, (CompiledProgram._compile_data_parallel [Some CPUPlace] CPU
           (Some (ScopeRef 1)) Sample.capturing_graph).1 = Raises e) ∧
  (NativeCompiledProgram
   ∉ drop (length (CompiledProgram.events Sample.capturing_graph))
       (CompiledProgram.events
          (CompiledProgram._compile_data_parallel [Some CPUPlace] CPU
             (Some (ScopeRef 1)) Sample.capturing_graph).2)) ∧
  CompiledProgram._executor
    (CompiledProgram.self
       (CompiledProgram._compile_data_parallel [Some CPUPlace] CPU
          (Some (ScopeRef 1)) Sample.capturing_graph).2)
  = CompiledProgram._executor (CompiledProgram.self Sample.capturing_graph).
Proof.
  exact (capturing_never_builds (H := Sample.capturing) [Some CPUPlace] CPU
           (Some (ScopeRef 1)) Sample.capturing_graph eq_refl).
Defined.

(** The sample program, pruned by a first construction, is left as it
    is by a second one. *)
Lemma init_twice_witness :
  ∃ pruned,
    CompiledProgram._program
      (Sample.returned (CompiledProgram.self Sample.from_graph)
         (CompiledProgram.__init__
            (CompiledProgram.PyProgram Sample.program_xy) None))
    = Some pruned ∧
    Forall (λ op, op_type op ≠ "feed") (ops (global_block pruned)) ∧
    vars (global_block pruned) = vars (global_block Sample.program_xy) ∧
    _prune_feed_ops pruned = (Returns tt, pruned) ∧
    ∀ build_strategy',
      CompiledProgram.__init__ (CompiledProgram.PyProgram pruned)
        build_strategy'
      = Returns (CompiledProgram.fresh (Graph_of_desc pruned) (Some pruned)
                   build_strategy').
Proof.
  assert (Hret : Sample.is_returns
                   (CompiledProgram.__init__
                      (CompiledProgram.PyProgram Sample.program_xy) None)
                 = true) by by_running.
  exact (init_twice (H := Sample.native) Sample.program_xy None _
           (outcome_returned (CompiledProgram.self Sample.from_graph) _ Hret)).
Defined.

(** The object made from the sample program had no build strategy: it
    is compiled with the default one, carrying the program's
    communication settings. *)
Lemma data_parallel_returns_witness :
  Sample.from_program_run.1 = Returns tt ∧
  ∃ bs,
    CompiledProgram._build_strategy
      (CompiledProgram.self Sample.from_program_run.2) = Some bs ∧
    num_trainers bs = num_trainers Sample.build_strategy ∧
    nccl_comm_num bs = _nccl_comm_num Sample.program_ad.
Proof.
  assert (Hret : Sample.is_returns Sample.from_program_run.1 = true)
    by by_running.
  pose proof (run_returned tt _ Hret) as Hrun.
  split; [by_running|].
  destruct (data_parallel_returns (H := Sample.native)
              [Some CPUPlace] CPU (Some (ScopeRef 1)) Sample.from_program
              _ _ Hrun)
    as (bs & places' & Hbs & _ & _ & _ & Htrainers & _ & Hprogram).
  destruct Hprogram as (Hnccl & _).
  exists bs. split; [exact Hbs|]. split; [exact Htrainers | exact Hnccl].
Defined.

(** ** More of IpuStrategy *)

(** A first custom op on a strategy that did not ask for compilation. *)
Lemma add_custom_op_bookkeeping_witness :
  Sample.is_returns
    (IpuStrategy.add_custom_op "paddle_relu" (Some "popart_relu")
       "custom.ops" 1 (Sample.strategy false)).1 = true ∧
  IpuStrategy.custom_op_names
    (IpuStrategy.add_custom_op "paddle_relu" (Some "popart_relu")
       "custom.ops" 1 (Sample.strategy false)).2 = ["paddle_relu"] ∧
  IpuStrategy.has_custom_ops
    (IpuStrategy.add_custom_op "paddle_relu" (Some "popart_relu")
       "custom.ops" 1 (Sample.strategy false)).2 = true ∧
  IpuStrategy.need_compile
    (IpuStrategy.add_custom_op "paddle_relu" (Some "popart_relu")
       "custom.ops" 1 (Sample.strategy false)).2 = true.
Proof.
  assert (Hret : Sample.is_returns
                   (IpuStrategy.add_custom_op "paddle_relu"
                      (Some "popart_relu") "custom.ops" 1
                      (Sample.strategy false)).1 = true) by by_running.
  pose proof (run_returned tt _ Hret) as Hrun.
  split; [exact Hret|].
  destruct (add_custom_op_bookkeeping (H1 := Sample.ipu_passes)
              _ _ _ _ _ _ _ Hrun)
    as (Hnames & Hhas & Hflag & _).
  split; [exact Hnames|]. split; [exact Hhas | exact Hflag].
Defined.

(** ** More of the patched program cache *)

(** The input [x] of the converted sample program is fed unchecked. *)
Lemma convert_concrete_program_feeds_witness :
  Sample.is_returns Sample.convert_run.1 = true ∧
  ∃ v,
    vars (global_block
            (main_program (Sample.returned Sample.concrete_xy
                             Sample.convert_run.1))) !! "x" = Some v ∧
    need_check_feed v = false.
Proof.
  assert (Hret : Sample.is_returns Sample.convert_run.1 = true) by by_running.
  pose proof (run_returned Sample.concrete_xy _ Hret) as Hrun.
  split; [exact Hret|].
  destruct (convert_concrete_program_feeds (H := Sample.native)
              (H1 := Sample.ipu_passes) (H2 := Sample.dy2static)
              _ _ _ _ _ Hrun) as (_ & _ & _ & _ & _ & Hfeeds).
  apply Hfeeds. apply list_elem_of_singleton. reflexivity.
Defined.
